(** * NuvlaBox agent: telemetry diff, peripheral store and scheduler loop

    A shallow embedding of [agent/Telemetry.py] ([diff], [update_status]),
    [agent/AgentApi.py] ([post], [delete], [find]) and of the telemetry loop
    of [app.py], together with the properties of the reconciliation and
    scheduling subsystem.

    Python values are embedded as JSON-shaped terms, Python exceptions as an
    explicit result type, and every side effect (remote calls, record files,
    log lines, sleeps) is threaded through an explicit state. *)

From Stdlib Require Import ZArith QArith String List Bool Lia.
From stdpp Require Import gmap strings list fin_maps.

Local Open Scope string_scope.
Local Open Scope list_scope.

(** ** Python values *)

Module Py.

(** The values that travel through the agent: [None], booleans, numbers,
    strings, lists and dicts.  A dict keeps its insertion order, as Python's
    does; numbers are exact rationals (the rounding of floats is outside the
    embedding). *)
#[warnings="-register-all"] Inductive Json : Type :=
| JNull
| JBool (b : bool)
| JNum (q : Q)
| JStr (s : string)
| JList (l : list Json)
| JDict (d : list (string * Json)).

Abbreviation Dict := (list (string * Json)).

(** The exceptions the modelled code can meet.  [Exception] stands for any
    exception class that no handler of the modelled code names (OSError,
    ConnectionError, timeouts, ...). *)
Inductive Exn : Type :=
| KeyError (key : string)
| TypeError
| AttributeError
| ValueError
| IndexError
| NuvlaError (status_code : Z) (body : Json)
| Exception (what : string).

(** Outcome of a Python call: a value or a raised exception. *)
Inductive Res (A : Type) : Type :=
| Ok (a : A)
| Raise (e : Exn).
Arguments Ok {A} a.
Arguments Raise {A} e.

(** [d[key]] read access, [None] standing for a [KeyError]. *)
Fixpoint dict_get (key : string) (d : Dict) : option Json :=
  match d with
  | [] => None
  | (k, v) :: rest => if String.eqb key k then Some v else dict_get key rest
  end.

(** [d[key] = v]: replaces in place, or appends a new entry. *)
Fixpoint dict_set (key : string) (v : Json) (d : Dict) : Dict :=
  match d with
  | [] => [(key, v)]
  | (k, w) :: rest =>
      if String.eqb key k then (k, v) :: rest else (k, w) :: dict_set key v rest
  end.

(** [key in d] *)
Definition dict_mem (key : string) (d : Dict) : bool :=
  match dict_get key d with Some _ => true | None => false end.

(** [d.keys()] *)
Definition dict_keys (d : Dict) : list string := map fst d.

(** [d[key]] as an expression that may raise. *)
Definition subscript (d : Dict) (key : string) : Res Json :=
  match dict_get key d with
  | Some v => Ok v
  | None => Raise (KeyError key)
  end.

(** [x is None] *)
Definition is_none (x : Json) : bool :=
  match x with JNull => true | _ => false end.

(** [isinstance(x, dict)] and [isinstance(x, list)] *)
Definition is_dict (x : Json) : bool :=
  match x with JDict _ => true | _ => false end.
Definition is_list (x : Json) : bool :=
  match x with JList _ => true | _ => false end.

(** Truth value of [x] in a condition ([if x:], [not x], [x and y]). *)
Definition truthy (x : Json) : bool :=
  match x with
  | JNull => false
  | JBool b => b
  | JNum q => negb (Qeq_bool q 0)
  | JStr s => negb (String.eqb s EmptyString)
  | JList l => match l with [] => false | _ => true end
  | JDict d => match d with [] => false | _ => true end
  end.

Definition Q_of_bool (b : bool) : Q := if b then 1%Q else 0%Q.

(** [a == b]: value equality, deep over lists and dicts; two dicts are equal
    when they have as many entries and every key of the first maps in the
    second to an equal value, whatever the insertion order; [True == 1]. *)
Fixpoint json_eqb (a b : Json) {struct a} : bool :=
  match a, b with
  | JNull, JNull => true
  | JBool x, JBool y => Bool.eqb x y
  | JBool x, JNum y => Qeq_bool (Q_of_bool x) y
  | JNum x, JBool y => Qeq_bool x (Q_of_bool y)
  | JNum x, JNum y => Qeq_bool x y
  | JStr x, JStr y => String.eqb x y
  | JList xs, JList ys =>
      (fix go (xs ys : list Json) {struct xs} : bool :=
         match xs, ys with
         | [], [] => true
         | x :: xs', y :: ys' => json_eqb x y && go xs' ys'
         | _, _ => false
         end) xs ys
  | JDict xs, JDict ys =>
      Nat.eqb (length xs) (length ys) &&
      (fix go (xs : Dict) {struct xs} : bool :=
         match xs with
         | [] => true
         | (k, v) :: xs' =>
             match dict_get k ys with
             | Some w => json_eqb v w
             | None => false
             end && go xs'
         end) xs
  | _, _ => false
  end.

(** [a != b] *)
Definition json_neb (a b : Json) : bool := negb (json_eqb a b).

(** Keys of a dict are pairwise distinct, at every depth: the shape every
    Python dict has. *)
Fixpoint nodupb (l : list string) : bool :=
  match l with
  | [] => true
  | x :: rest => negb (existsb (String.eqb x) rest) && nodupb rest
  end.

Fixpoint wf (j : Json) : bool :=
  match j with
  | JList l => forallb wf l
  | JDict d =>
      nodupb (map fst d) &&
      (fix go (d : Dict) : bool :=
         match d with
         | [] => true
         | (_, v) :: rest => wf v && go rest
         end) d
  | _ => true
  end.

Definition wf_dict (d : Dict) : bool := wf (JDict d).

(** Induction over values that reaches the elements of lists and the values
    of dicts. *)
Section Induction.
Variable P : Json -> Prop.
Hypothesis HNull : P JNull.
Hypothesis HBool : forall b, P (JBool b).
Hypothesis HNum : forall q, P (JNum q).
Hypothesis HStr : forall s, P (JStr s).
Hypothesis HList : forall l, Forall P l -> P (JList l).
Hypothesis HDict : forall d, Forall (fun kv => P (snd kv)) d -> P (JDict d).

Fixpoint Json_deep_ind (j : Json) : P j :=
  match j with
  | JNull => HNull
  | JBool b => HBool b
  | JNum q => HNum q
  | JStr s => HStr s
  | JList l =>
      HList l
        ((fix go (l : list Json) : Forall P l :=
            match l with
            | [] => List.Forall_nil P
            | x :: rest => List.Forall_cons P x rest (Json_deep_ind x) (go rest)
            end) l)
  | JDict d =>
      HDict d
        ((fix go (d : Dict) : Forall (fun kv => P (snd kv)) d :=
            match d with
            | [] => List.Forall_nil _
            | kv :: rest =>
                List.Forall_cons _ kv rest (Json_deep_ind (snd kv)) (go rest)
            end) d)
  end.

End Induction.

End Py.
Export Py.

(** ** Effects: state threading with exceptions *)

Module Eff.

(** A computation over a state [St] that returns a value or raises; the
    state reached when the exception was raised is kept, as the effects a
    Python function performed before raising are. *)
Definition M (St A : Type) : Type := St -> Res A * St.

Definition ret {St A} (a : A) : M St A := fun s => (Ok a, s).

Definition bind {St A B} (m : M St A) (k : A -> M St B) : M St B :=
  fun s =>
    match m s with
    | (Ok a, s') => k a s'
    | (Raise e, s') => (Raise e, s')
    end.

Definition raise {St A} (e : Exn) : M St A := fun s => (Raise e, s).

Definition lift {St A} (r : Res A) : M St A := fun s => (r, s).

Definition get {St} : M St St := fun s => (Ok s, s).

Definition modify {St} (f : St -> St) : M St unit := fun s => (Ok tt, f s).

(** [try: body except ...: handler]: [handler e] is [None] when no
    [except] clause matches [e], which then keeps propagating. *)
Definition try_except {St A} (body : M St A)
    (handler : Exn -> option (M St A)) : M St A :=
  fun s =>
    match body s with
    | (Ok a, s') => (Ok a, s')
    | (Raise e, s') =>
        match handler e with
        | Some h => h s'
        | None => (Raise e, s')
        end
    end.

End Eff.
Export Eff.

Notation "'let*' x := m 'in' k" := (bind m (fun x => k))
  (at level 10, x name, m at level 100, k at level 200).
Notation "'let*' ' pat := m 'in' k" :=
  (bind m (fun x => match x with pat => k end))
  (at level 10, pat pattern, m at level 100, k at level 200).
Notation "m ;;; k" := (bind m (fun _ => k))
  (at level 100, k at level 200, right associativity).

(** ** Files *)

(** What a path that exists holds: a file that cannot be opened for
    reading, a file whose bytes cannot be read back as JSON, or a JSON
    document. *)
Inductive FileData : Type :=
| Unopenable
| Garbled
| Holds (j : Json).

(** Outcome of [with open(path, 'w') as f: f.write(...)]: written, failed
    in [open] (nothing touched), or failed after [open] truncated or created
    the file. *)
Inductive WriteOutcome : Type :=
| Written
| OpenFails (e : Exn)
| WriteFails (e : Exn).

(** ** agent/Telemetry.py *)

Module Telemetry.

Inductive LogLine : Type :=
| RefreshStatus (updated_status : Dict).   (* info 'Refresh status: %s' *)

(** The fields of a [Telemetry] object the publisher touches, the shared
    status file, and the record of what was sent and logged. *)
Record State : Type := mkState {
  nb_status_id : Json;
  status : Dict;
  nuvlabox_status_file : option FileData;
  puts : list (Json * Dict);
  log : list LogLine
}.

(** What the collaborators of one [update_status] call answer. *)
Record Probe : Type := mkProbe {
  get_status : Res (Dict * Dict);          (* self.get_status() *)
  utcnow : string;                         (* formatted current time *)
  cimi_put : Json -> Dict -> Res unit;     (* self.api()._cimi_put(id, json=...) *)
  write_status_file : WriteOutcome
}.

(** [Telemetry.__init__]: the status placeholder. *)
Definition initial_status : Dict :=
  [("resources", JNull); ("status", JNull); ("nuvlabox-api-endpoint", JNull);
   ("operating-system", JNull); ("architecture", JNull); ("ip", JNull);
   ("last-boot", JNull); ("hostname", JNull);
   ("docker-server-version", JNull); ("gpio-pins", JNull)].

Definition init (nuvlabox_status_id : Json) : State :=
  mkState nuvlabox_status_id initial_status None [] [].

(** The loop of [diff] over [self.status.keys()]. *)
Fixpoint diff_loop (keys : list string) (old_status new_status : Dict)
    (minimal_update : Dict) (delete_attributes : list string)
    : Res (Dict * list string) :=
  match keys with
  | [] => Ok (minimal_update, delete_attributes)
  | key :: rest =>
      match dict_get key new_status with
      | None => Raise (KeyError key)
      | Some nv =>
          if is_none nv then
            diff_loop rest old_status new_status minimal_update
                      (delete_attributes ++ [key])
          else
            match dict_get key old_status with
            | None => Raise (KeyError key)
            | Some ov =>
                if json_neb ov nv then
                  diff_loop rest old_status new_status
                            (dict_set key nv minimal_update) delete_attributes
                else
                  diff_loop rest old_status new_status
                            minimal_update delete_attributes
            end
      end
  end.

(** [Telemetry.diff(self, old_status, new_status)] *)
Definition diff (self_status old_status new_status : Dict)
    : Res (Dict * list string) :=
  diff_loop (dict_keys self_status) old_status new_status [] [].

(** The DiffEngine as the specification words it, key by key: a key is
    removed when the new snapshot holds [None] for it, changed when the new
    value is not [None] and differs from the old one. *)
Definition removed (new_status : Dict) (key : string) : bool :=
  match dict_get key new_status with
  | Some nv => is_none nv
  | None => false
  end.

Definition changed (old_status new_status : Dict) (key : string) : bool :=
  match dict_get key new_status, dict_get key old_status with
  | Some nv, Some ov => negb (is_none nv) && json_neb ov nv
  | _, _ => false
  end.

(** Every key is present in the new snapshot and, unless its new value is
    [None], in the old one. *)
Definition covers (keys : list string) (old_status new_status : Dict) : Prop :=
  forall k, In k keys ->
    exists nv, dict_get k new_status = Some nv /\
               (is_none nv = false -> exists ov, dict_get k old_status = Some ov).

Definition set_status (d : Dict) (s : State) : State :=
  mkState (nb_status_id s) d (nuvlabox_status_file s) (puts s) (log s).

Definition set_file (f : option FileData) (s : State) : State :=
  mkState (nb_status_id s) (status s) f (puts s) (log s).

Definition record_put (id : Json) (body : Dict) (s : State) : State :=
  mkState (nb_status_id s) (status s) (nuvlabox_status_file s)
          (puts s ++ [(id, body)]) (log s).

Definition logging (l : LogLine) (s : State) : State :=
  mkState (nb_status_id s) (status s) (nuvlabox_status_file s) (puts s)
          (log s ++ [l]).

(** [with open(self.nuvlabox_status_file, 'w') as nbsf: nbsf.write(...)] *)
Definition write_file (o : WriteOutcome) (content : Json) : M State unit :=
  match o with
  | Written => modify (set_file (Some (Holds content)))
  | OpenFails e => raise e
  | WriteFails e => modify (set_file (Some Garbled)) ;;; raise e
  end.

(** The body sent by [update_status] in a state [s]: the minimal update
    with ['current-time'] and ['id'] set. *)
Definition published (env : Probe) (s : State) (minimal_update : Dict) : Dict :=
  dict_set "id" (nb_status_id s)
    (dict_set "current-time" (JStr (utcnow env)) minimal_update).

(** [Telemetry.update_status(self)].  The method has no [return]: its value
    is [None]. *)
Definition update_status (env : Probe) : M State Json :=
  let* '(new_status, all_status) := lift (get_status env) in
  let* self := get in
  let* '(updated_status, delete_attributes) :=
    lift (diff (status self) (status self) new_status) in
  let updated_status := published env self updated_status in
  modify (logging (RefreshStatus updated_status)) ;;;
  modify (record_put (nb_status_id self) updated_status) ;;;
  lift (cimi_put env (nb_status_id self) updated_status) ;;;
  modify (set_status new_status) ;;;
  write_file (write_status_file env) (JDict all_status) ;;;
  ret JNull.

End Telemetry.

(** ** agent/AgentApi.py *)

Module AgentApi.

Definition nuvla_resource : string := "nuvlabox-peripheral".

(** Calls made on [NB.api()]. *)
Inductive RemoteCall : Type :=
| CallAdd (resource : string) (payload : Dict)
| CallDelete (resource_id : Json).

Inductive LogLine : Type :=
| LogError (msg : string)
| LogWarning (msg : string)
| LogInfo (msg : string)
| LogException (msg : string).

(** The peripherals directory (one entry per record file, keyed by its name
    inside [NB.peripherals_dir]), the remote calls made so far and the log. *)
Record World : Type := mkWorld {
  files : gmap string FileData;
  calls : list RemoteCall;
  log : list LogLine
}.

(** The surroundings of the module: the [NB] context object, the remote
    service and the local disk.  The answer of the remote service and of the
    disk may depend on the calls made before. *)
Record Env : Type := mkEnv {
  peripherals_dir : string;                  (* NB.peripherals_dir *)
  nuvlabox_id : Json;                        (* NB.nuvlabox_id *)
  py_repr : Json -> string;                  (* str() of a value that is not a str *)
  exn_str : Exn -> string;                   (* str() of an exception *)
  context_version : option (Res Json);
    (* None: no context file; Some r: json.loads(open(...).read())['version'] *)
  label_version : Res Json;
    (* int(inspect_container(...)['Config']['Labels']['git.branch'].split('.')[0]) *)
  api_add : list RemoteCall -> string -> Dict -> Res Dict;
    (* NB.api().add(resource, payload).data *)
  api_delete : list RemoteCall -> Json -> Res Dict;
    (* NB.api().delete(resource_id).data *)
  save_outcome : list RemoteCall -> string -> Dict -> WriteOutcome;
    (* open(filepath, 'w') and f.write(json.dumps(content)) *)
  fnmatch : string -> string -> bool;        (* glob: pattern, file name *)
  glob_beyond : string -> gmap string FileData -> list (string * FileData)
    (* glob.glob(search_dir), each path with what it holds, for a search
       that does not stay among the entries of NB.peripherals_dir *)
}.

(** [str(v)], as ["{}".format(v)] and ["%s" % v] compute it. *)
Definition str_of (env : Env) (v : Json) : string :=
  match v with
  | JStr s => s
  | _ => py_repr env v
  end.

(** ["{}/{}".format(NB.peripherals_dir, peripheral_identifier)] *)
Definition filepath (env : Env) (name : string) : string :=
  peripherals_dir env +:+ "/" +:+ name.

Definition logging (l : LogLine) : M World unit :=
  modify (fun w => mkWorld (files w) (calls w) (log w ++ [l])).

Definition set_files (f : gmap string FileData) : M World unit :=
  modify (fun w => mkWorld f (calls w) (log w)).

(** [{"error": msg}] and [{"message": msg}] *)
Definition error_body (msg : string) : Json := JDict [("error", JStr msg)].
Definition message_body (msg : string) : Json := JDict [("message", JStr msg)].

Definition status_code (n : Z) : Json := JNum (inject_Z n).

(** [local_peripheral_exists(filepath)] *)
Definition local_peripheral_exists (name : string) (w : World) : bool :=
  match files w !! name with
  | Some _ => true
  | None => false
  end.

(** [local_peripheral_save(filepath, content)] *)
Definition local_peripheral_save (env : Env) (name : string) (content : Dict)
    : M World unit :=
  let* w := get in
  match save_outcome env (calls w) name content with
  | Written => set_files (<[name := Holds (JDict content)]> (files w))
  | OpenFails e => raise e
  | WriteFails e => set_files (<[name := Garbled]> (files w)) ;;; raise e
  end.

(** [local_peripheral_get_identifier(filepath)]: the ["id"] of the record,
    [None] when anything goes wrong. *)
Definition local_peripheral_get_identifier (name : string) (w : World) : Json :=
  match files w !! name with
  | Some (Holds (JDict d)) =>
      match dict_get "id" d with
      | Some v => v
      | None => JNull
      end
  | _ => JNull
  end.

(** [os.remove(filepath)] *)
Definition os_remove (name : string) : M World unit :=
  let* w := get in
  match files w !! name with
  | Some _ => set_files (base.delete name (files w))
  | None => raise (Exception "FileNotFoundError")
  end.

(** [NB.api().add(nuvla_resource, payload)] *)
Definition remote_add (env : Env) (payload : Dict) : M World Dict :=
  let* w := get in
  modify (fun w => mkWorld (files w) (calls w ++ [CallAdd nuvla_resource payload])
                           (log w)) ;;;
  lift (api_add env (calls w) nuvla_resource payload).

(** [NB.api().delete(peripheral_nuvla_id)] *)
Definition remote_delete (env : Env) (resource_id : Json) : M World Dict :=
  let* w := get in
  modify (fun w => mkWorld (files w) (calls w ++ [CallDelete resource_id])
                           (log w)) ;;;
  lift (api_delete env (calls w) resource_id).

(** [delete(peripheral_identifier, peripheral_nuvla_id=None)] *)
Definition delete (env : Env) (peripheral_identifier : Json)
    (peripheral_nuvla_id : Json) : M World (Json * Json) :=
  let name := str_of env peripheral_identifier in
  let peripheral_filepath := filepath env name in
  let* w := get in
  if negb (local_peripheral_exists name w) then
    logging (LogInfo (peripheral_filepath +:+
                      " does not exist locally. Checking in Nuvla...")) ;;;
    if truthy peripheral_nuvla_id then
      try_except
        (let* delete_peripheral := remote_delete env peripheral_nuvla_id in
         logging (LogInfo ("Deleted " +:+ str_of env peripheral_nuvla_id +:+
                           " from Nuvla")) ;;;
         let* st := lift (subscript delete_peripheral "status") in
         ret (JDict delete_peripheral, st))
        (fun e =>
           match e with
           | NuvlaError code body =>
               Some (logging (LogWarning
                        ("While deleting " +:+ str_of env peripheral_nuvla_id +:+
                         " from Nuvla: " +:+ str_of env body)) ;;;
                     ret (body, status_code code))
           | _ => None
           end)
    else
      logging (LogWarning (peripheral_filepath +:+
                           " not found and Nuvla resource ID not provided")) ;;;
      ret (error_body "Peripheral not found", status_code 404)
  else
    let peripheral_nuvla_id :=
      if negb (truthy peripheral_nuvla_id)
      then local_peripheral_get_identifier name w
      else peripheral_nuvla_id in
    let* returned :=
      if truthy peripheral_nuvla_id then
        try_except
          (let* delete_peripheral := remote_delete env peripheral_nuvla_id in
           logging (LogInfo ("Deleted " +:+ str_of env peripheral_nuvla_id +:+
                             " from Nuvla")) ;;;
           os_remove name ;;;
           logging (LogInfo ("Deleted " +:+ peripheral_filepath +:+
                             " from the NuvlaBox")) ;;;
           let* st := lift (subscript delete_peripheral "status") in
           ret (Some (JDict delete_peripheral, st)))
          (fun e =>
             match e with
             | NuvlaError code body =>
                 Some (if negb (Z.eqb code 404) then
                         logging (LogWarning
                            ("While deleting " +:+
                             str_of env peripheral_nuvla_id +:+
                             " from Nuvla: " +:+ str_of env body)) ;;;
                         ret (Some (body, status_code code))
                       else ret None)
             | _ =>
                 Some (logging (LogException
                          ("While deleting " +:+
                           str_of env peripheral_nuvla_id +:+ " from Nuvla")) ;;;
                       ret (Some (error_body
                                    ("Error occurred while deleting " +:+ name +:+
                                     ": " +:+ exn_str env e),
                                  status_code 500)))
             end)
      else ret None in
    match returned with
    | Some reply => ret reply
    | None =>
        os_remove name ;;;
        logging (LogInfo ("Deleted " +:+ peripheral_filepath +:+
                          " from the NuvlaBox")) ;;;
        ret (message_body ("Deleted " +:+ name), status_code 200)
    end.

(** Lines 93-100: the [version] a payload without one is completed with;
    [KeyError], [ValueError] and [IndexError] of the label lookup give 1. *)
Definition default_version (env : Env) : Res Json :=
  match context_version env with
  | Some r => r
  | None =>
      match label_version env with
      | Raise (KeyError _) | Raise ValueError | Raise IndexError => Ok (JNum 1)
      | r => r
      end
  end.

(** Lines 88-102: complete the payload with the NuvlaBox attributes in case
    they are missing. *)
Definition complete (env : Env) (payload : Dict) : Res Dict :=
  let payload :=
    if negb (dict_mem "parent" payload)
    then dict_set "parent" (nuvlabox_id env) payload
    else payload in
  if negb (dict_mem "version" payload) then
    match default_version env with
    | Ok version => Ok (dict_set "version" version payload)
    | Raise e => Raise e
    end
  else Ok payload.

Definition as_dict (j : Json) : Dict :=
  match j with JDict d => d | _ => [] end.

(** [post(payload)] *)
Definition post (env : Env) (payload : Json) : M World (Json * Json) :=
  if negb (truthy payload) || negb (is_dict payload) then
    let msg := "Payload " +:+ str_of env payload +:+
               " malformed. It must be a JSON payload" in
    logging (LogError msg) ;;;
    ret (error_body msg, status_code 400)
  else
    let payload_d := as_dict payload in
    match dict_get "identifier" payload_d with
    | None =>
        let msg := "Payload " +:+ str_of env payload +:+
                   " is incomplete. Missing 'identifier'. " +:+
                   exn_str env (KeyError "identifier") in
        logging (LogError msg) ;;;
        ret (error_body msg, status_code 400)
    | Some peripheral_identifier =>
        let name := str_of env peripheral_identifier in
        let* w := get in
        if local_peripheral_exists name w then
          let msg := "Peripheral " +:+ name +:+
                     " file already registered. Please delete it first" in
          logging (LogError msg) ;;;
          ret (error_body msg, status_code 400)
        else
          let* payload_d := lift (complete env payload_d) in
          let* posted :=
            try_except
              (logging (LogInfo ("Posting peripheral " +:+
                                 str_of env (JDict payload_d))) ;;;
               let* new_peripheral := remote_add env payload_d in
               ret (inl new_peripheral))
              (fun e =>
                 match e with
                 | NuvlaError code body =>
                     Some (logging (LogException "Failed to POST peripheral") ;;;
                           ret (inr (body, status_code code)))
                 | _ =>
                     Some (logging (LogException
                                      "Unable to POST peripheral to Nuvla") ;;;
                           ret (inr (error_body
                                       ("Unable to complete POST request: " +:+
                                        exn_str env e),
                                     status_code 500)))
                 end) in
          match posted with
          | inr reply => ret reply
          | inl new_peripheral =>
              let* resource_id := lift (subscript new_peripheral "resource-id") in
              let payload_d := dict_set "id" resource_id payload_d in
              let* failed :=
                try_except
                  (logging (LogInfo ("Saving peripheral " +:+
                                     str_of env resource_id +:+ " locally")) ;;;
                   local_peripheral_save env name payload_d ;;;
                   ret None)
                  (fun e =>
                     Some (logging (LogException
                              "Unable to save peripheral. Reverting request...") ;;;
                           let* _ := delete env peripheral_identifier resource_id in
                           ret (Some (error_body
                                        ("Unable to fulfill request: " +:+
                                         exn_str env e),
                                      status_code 500)))) in
              match failed with
              | Some reply => ret reply
              | None =>
                  let* st := lift (subscript new_peripheral "status") in
                  ret (JDict new_peripheral, st)
              end
          end
    end.

(** [parameter in content], for a [str] parameter. *)
Definition contains (parameter : string) (content : Json) : Res bool :=
  match content with
  | JDict d => Ok (dict_mem parameter d)
  | JList l => Ok (existsb (json_eqb (JStr parameter)) l)
  | JStr s =>
      Ok (match String.index 0 parameter s with Some _ => true | None => false end)
  | _ => Raise TypeError
  end.

(** [content[parameter]], for a [str] parameter. *)
Definition getitem (content : Json) (parameter : string) : Res Json :=
  match content with
  | JDict d => subscript d parameter
  | _ => Raise TypeError
  end.

(** Truth value of an optional [str] argument ([None] and [''] are false). *)
Definition given (x : option string) : bool :=
  match x with
  | Some s => negb (String.eqb s EmptyString)
  | None => false
  end.

Definition str_arg (x : option string) : string :=
  match x with Some s => s | None => EmptyString end.

(** The pattern of [search_dir]: the identifier pattern if given, else [*]. *)
Definition search_pattern (identifier_pattern : option string) : string :=
  if given identifier_pattern then str_arg identifier_pattern else "*".

(** The string holds the character. *)
Fixpoint holds_char (c : Ascii.ascii) (s : string) : bool :=
  match s with
  | EmptyString => false
  | String a rest => Ascii.eqb a c || holds_char c rest
  end.

(** The character [/]. *)
Definition slash : Ascii.ascii := Ascii.ascii_of_nat 47.

(** A name that an entry of a directory can bear: not empty, neither [.]
    nor [..], and without [/].  The record file of an identifier that is
    such a name is the entry of that name in the peripherals directory. *)
Definition entry_name (name : string) : bool :=
  negb (String.eqb name EmptyString) && negb (String.eqb name ".") &&
  negb (String.eqb name "..") && negb (holds_char slash name).

(** [glob.has_magic(s)]: the string holds one of [*], [?] and [[]. *)
Definition has_magic (s : string) : bool :=
  holds_char (Ascii.ascii_of_nat 42) s || holds_char (Ascii.ascii_of_nat 63) s ||
  holds_char (Ascii.ascii_of_nat 91) s.

(** [os.path.basename(path)]: what follows the last [/]. *)
Fixpoint basename (path : string) : string :=
  match path with
  | EmptyString => EmptyString
  | String c rest =>
      if holds_char slash rest then basename rest
      else if Ascii.eqb c slash then rest
      else path
  end.

(** The search [NB.peripherals_dir + "/" + pattern] stays among the entries
    of the peripherals directory: the pattern has the form of an entry name
    (a pattern with a [/], or [.] or [..], leads elsewhere) and the path of
    the directory holds no magic character (it would be expanded too). *)
Definition within (env : Env) (pattern : string) : bool :=
  entry_name pattern && negb (has_magic (peripherals_dir env)).

(** The entries of the peripherals directory whose name matches the
    pattern, in the order the directory lists them. *)
Definition listed (env : Env) (pattern : string) (w : World)
    : list (string * FileData) :=
  List.filter (fun entry => entry_name (fst entry) &&
                            fnmatch env pattern (fst entry))
              (map_to_list (files w)).

(** [glob.glob(search_dir)], each path with what it holds.  A search that
    stays within the peripherals directory gives the paths of the entries
    listed; what any other search gives lies outside the [World]. *)
Definition glob (env : Env) (pattern : string) (w : World)
    : list (string * FileData) :=
  if within env pattern then
    map (fun entry => (filepath env (fst entry), snd entry))
        (listed env pattern w)
  else glob_beyond env pattern (files w).

(** The body of the [for filename in glob.glob(search_dir)] loop. *)
Fixpoint find_loop (parameter : option string) (value : Json)
    (entries : list (string * FileData)) (matched_peripherals : list string)
    : Res (list string) :=
  match entries with
  | [] => Ok matched_peripherals
  | (filename, data) :: rest =>
      if given parameter && truthy value then
        match data with
        | Unopenable => Raise (Exception "OSError")
        | Garbled => find_loop parameter value rest matched_peripherals
        | Holds content =>
            match contains (str_arg parameter) content with
            | Raise e => Raise e
            | Ok false => find_loop parameter value rest matched_peripherals
            | Ok true =>
                match getitem content (str_arg parameter) with
                | Raise e => Raise e
                | Ok v =>
                    if json_eqb v value
                    then find_loop parameter value rest
                                   (matched_peripherals ++ [basename filename])
                    else find_loop parameter value rest matched_peripherals
                end
            end
        end
      else
        find_loop parameter value rest
                  (matched_peripherals ++ [basename filename])
  end.

(** [find(parameter, value, identifier_pattern)] *)
Definition find (env : Env) (parameter : option string) (value : Json)
    (identifier_pattern : option string) : M World (list string * Json) :=
  let search_dir := search_pattern identifier_pattern in
  let* w := get in
  let* matched_peripherals :=
    lift (find_loop parameter value (glob env search_dir w) []) in
  ret (matched_peripherals, status_code 200).

(** The remote id [delete] works with: the explicit one, else the one of
    the record file. *)
Definition resolved_id (name : string) (peripheral_nuvla_id : Json) (w : World)
    : Json :=
  if negb (truthy peripheral_nuvla_id)
  then local_peripheral_get_identifier name w
  else peripheral_nuvla_id.

(** The remote service reports "not found". *)
Definition is_not_found (e : Exn) : bool :=
  match e with
  | NuvlaError code _ => Z.eqb code 404
  | _ => false
  end.

(** How [delete] reports a remote failure to its caller. *)
Definition surfaced (env : Env) (name : string) (e : Exn) : Json * Json :=
  match e with
  | NuvlaError code body => (body, status_code code)
  | _ => (error_body ("Error occurred while deleting " +:+ name +:+ ": " +:+
                      exn_str env e),
          status_code 500)
  end.

(** The reply of a successful local delete and of a rejected duplicate. *)
Definition deleted_reply (name : string) : Json * Json :=
  (message_body ("Deleted " +:+ name), status_code 200).

Definition conflict_reply (name : string) : Json * Json :=
  (error_body ("Peripheral " +:+ name +:+
               " file already registered. Please delete it first"),
   status_code 400).

(** The remote resource is gone once the remote delete answered: it was
    deleted, or it was reported as not found. *)
Definition remote_gone (r : Res Dict) : bool :=
  match r with
  | Ok _ => true
  | Raise e => is_not_found e
  end.

(** A record file [find] can look into: unparseable, or a JSON object. *)
Definition inspectable (d : FileData) : bool :=
  match d with
  | Garbled => true
  | Holds (JDict _) => true
  | _ => false
  end.

(** Every record file that the filter of [find] has to open is
    inspectable. *)
Definition lookable (env : Env) (parameter : option string) (value : Json)
    (identifier_pattern : option string) (w : World) : bool :=
  negb (given parameter && truthy value) ||
  forallb (fun entry => inspectable (snd entry))
          (glob env (search_pattern identifier_pattern) w).

(** The record file passes the [parameter == value] filter of [find]. *)
Definition record_matches (parameter : option string) (value : Json)
    (d : FileData) : bool :=
  if given parameter && truthy value then
    match d with
    | Holds (JDict fields) =>
        match dict_get (str_arg parameter) fields with
        | Some v => json_eqb v value
        | None => false
        end
    | _ => false
    end
  else true.

End AgentApi.

(** ** app.py: the telemetry loop *)

Module App.

(** Calls on the collaborators of the loop, in the order they are made. *)
Inductive Event : Type :=
| GetNuvlaboxInfo                             (* activation.get_nuvlabox_info() *)
| CreateNbDocumentFile (resource : Dict)      (* activation.create_nb_document_file *)
| WatchVpnCredential (vpn_server_id : Json)   (* infra.watch_vpn_credential *)
| UpdateStatus                                (* telemetry.update_status() *)
| NewJob (job_id : Json)                      (* Job(data_volume, job_id, image) *)
| Launch (job_id : Json)                      (* job.launch() *)
| TryCommission                               (* infra.try_commission() *)
| Wait (refresh_interval start_cycle end_cycle : Q).
    (* e.wait(timeout=next_cycle_in), for
       next_cycle_in = refresh_interval - 2 * (end_cycle - start_cycle),
       which Python rounds to double precision: the event keeps the
       operands *)

Inductive LogLine : Type :=
| LogRefreshInterval (refresh_interval : Json)
    (* warning 'NuvlaBox resource updated. Refresh interval value: {}s' *)
| LogProcessingJobs (jobs : Json)
    (* info 'Processing the following jobs in pull-mode: ...' *)
| LogCannotProcessJob (job_id : Json) (ex : Exn).
    (* error 'Cannot process job {job_id}. Reason: {str(ex)}' *)

(** A constructed [Job]: its [do_nothing] flag and what [launch()] does. *)
Record JobObj : Type := mkJob {
  do_nothing : bool;
  launch : Res unit
}.

(** What the collaborators answer during one cycle. *)
Record CycleEnv : Type := mkCycleEnv {
  start_cycle : Q;                               (* first time.time() *)
  end_cycle : Q;                                 (* second time.time() *)
  get_nuvlabox_info : Res Dict;
  create_nb_document_file : Dict -> Res unit;
  watch_vpn_credential : Json -> Res unit;
  update_status : Res Json;                      (* telemetry.update_status() *)
  job_engine_lite_image : Json;                  (* infra.job_engine_lite_image *)
  new_job : nat -> Json -> Res JobObj;           (* position in the list, job id *)
  try_commission : Res unit
}.

(** The variables of the loop, and the calls and log lines so far. *)
Record State : Type := mkState {
  nuvlabox_info_updated_date : Json;
  refresh_interval : Json;
  events : list Event;
  log : list LogLine
}.

(** [nuvlabox_info_updated_date = ''] and [refresh_interval = 5]. *)
Definition initial : State := mkState (JStr EmptyString) (JNum 5) [] [].

Definition record (ev : Event) : M State unit :=
  modify (fun s => mkState (nuvlabox_info_updated_date s) (refresh_interval s)
                           (events s ++ [ev]) (log s)).

Definition logging (l : LogLine) : M State unit :=
  modify (fun s => mkState (nuvlabox_info_updated_date s) (refresh_interval s)
                           (events s) (log s ++ [l])).

Definition set_refresh_interval (v : Json) : M State unit :=
  modify (fun s => mkState (nuvlabox_info_updated_date s) v (events s) (log s)).

Definition set_updated_date (v : Json) : M State unit :=
  modify (fun s => mkState v (refresh_interval s) (events s) (log s)).

(** [x.get(key)]: only a dict has the method. *)
Definition method_get (x : Json) (key : string) : Res Json :=
  match x with
  | JDict d => Ok (match dict_get key d with Some v => v | None => JNull end)
  | _ => Raise AttributeError
  end.

(** A value used as a number in arithmetic. *)
Definition as_number (x : Json) : Res Q :=
  match x with
  | JNum q => Ok q
  | JBool b => Ok (Q_of_bool b)
  | _ => Raise TypeError
  end.

Definition as_list (x : Json) : list Json :=
  match x with JList l => l | _ => [] end.

(** [for job_id in response['jobs']: ...] *)
Fixpoint job_loop (env : CycleEnv) (position : nat) (jobs : list Json)
    : M State unit :=
  match jobs with
  | [] => ret tt
  | job_id :: rest =>
      record (NewJob job_id) ;;;
      let* job := lift (new_job env position job_id) in
      (if do_nothing job then ret tt
       else
         try_except
           (record (Launch job_id) ;;; lift (launch job))
           (fun ex => Some (logging (LogCannotProcessJob job_id ex)))) ;;;
      job_loop env (S position) rest
  end.

(** Lines 202-207: fetch the NuvlaBox resource and adopt its refresh
    interval when its [updated] stamp changed. *)
Definition fetch_configuration (env : CycleEnv) : M State Dict :=
  record GetNuvlaboxInfo ;;;
  let* nuvlabox_resource := lift (get_nuvlabox_info env) in
  let* st := get in
  let* updated := lift (subscript nuvlabox_resource "updated") in
  (if json_neb (nuvlabox_info_updated_date st) updated then
     let* interval := lift (subscript nuvlabox_resource "refresh-interval") in
     set_refresh_interval interval ;;;
     logging (LogRefreshInterval interval) ;;;
     set_updated_date updated ;;;
     record (CreateNbDocumentFile nuvlabox_resource) ;;;
     lift (create_nb_document_file env nuvlabox_resource)
   else ret tt) ;;;
  ret nuvlabox_resource.

(** Lines 210-211: watch the VPN credential when a server is mentioned. *)
Definition credential_watch (env : CycleEnv) (nuvlabox_resource : Dict)
    : M State unit :=
  let* vpn_server_id :=
    lift (method_get (JDict nuvlabox_resource) "vpn-server-id") in
  if truthy vpn_server_id then
    record (WatchVpnCredential vpn_server_id) ;;;
    lift (watch_vpn_credential env vpn_server_id)
  else ret tt.

(** Line 213: [response = telemetry.update_status()] *)
Definition publish (env : CycleEnv) : M State Json :=
  record UpdateStatus ;;;
  lift (update_status env).

(** Lines 215-226: process the jobs of the response. *)
Definition dispatch (env : CycleEnv) (response : Json) : M State unit :=
  let* jobs := lift (method_get response "jobs") in
  if is_list jobs && truthy (job_engine_lite_image env) && truthy jobs then
    logging (LogProcessingJobs jobs) ;;;
    job_loop env 0 (as_list jobs)
  else ret tt.

(** Line 228: [infra.try_commission()] *)
Definition commissioning_check (env : CycleEnv) : M State unit :=
  record TryCommission ;;;
  lift (try_commission env).

(** Lines 230-235: compute the wait from the refresh interval and the two
    clock readings, and hand it to [e.wait]. *)
Definition schedule_next (env : CycleEnv) : M State unit :=
  let* st := get in
  let* r := lift (as_number (refresh_interval st)) in
  record (Wait r (start_cycle env) (end_cycle env)).

(** One turn of [while True:]. *)
Definition cycle (env : CycleEnv) : M State unit :=
  let* nuvlabox_resource := fetch_configuration env in
  credential_watch env nuvlabox_resource ;;;
  let* response := publish env in
  dispatch env response ;;;
  commissioning_check env ;;;
  schedule_next env.

(** The first [n] turns of the loop, the [k]-th turn meeting [envs k]; an
    exception that leaves a turn leaves the loop. *)
Fixpoint telemetry_loop (n : nat) (envs : nat -> CycleEnv) (k : nat)
    : M State unit :=
  match n with
  | O => ret tt
  | S n' => cycle (envs k) ;;; telemetry_loop n' envs (S k)
  end.

(** The steps 2 to 6 of a turn, in order: step [i] raises [e] in the state
    the steps before it led to, leaving the state [s']. *)
Inductive StepRaises (env : CycleEnv) (st : State) (e : Exn) : State -> Prop :=
| configuration_raises s' :
    fetch_configuration env st = (Raise e, s') ->
    StepRaises env st e s'
| credential_watch_raises res s1 s' :
    fetch_configuration env st = (Ok res, s1) ->
    credential_watch env res s1 = (Raise e, s') ->
    StepRaises env st e s'
| publish_raises res s1 s2 s' :
    fetch_configuration env st = (Ok res, s1) ->
    credential_watch env res s1 = (Ok tt, s2) ->
    publish env s2 = (Raise e, s') ->
    StepRaises env st e s'
| dispatch_raises res s1 s2 response s3 s' :
    fetch_configuration env st = (Ok res, s1) ->
    credential_watch env res s1 = (Ok tt, s2) ->
    publish env s2 = (Ok response, s3) ->
    dispatch env response s3 = (Raise e, s') ->
    StepRaises env st e s'
| commissioning_raises res s1 s2 response s3 s4 s' :
    fetch_configuration env st = (Ok res, s1) ->
    credential_watch env res s1 = (Ok tt, s2) ->
    publish env s2 = (Ok response, s3) ->
    dispatch env response s3 = (Ok tt, s4) ->
    commissioning_check env s4 = (Raise e, s') ->
    StepRaises env st e s'.

Definition is_new_job (ev : Event) : bool :=
  match ev with NewJob _ => true | _ => false end.

(** The calls a turn makes before it looks at the response of the
    publication (lines 202-213). *)
Definition before_dispatch (ev : Event) : bool :=
  match ev with
  | GetNuvlaboxInfo | CreateNbDocumentFile _ | WatchVpnCredential _
  | UpdateStatus => true
  | _ => false
  end.

End App.

(** ** Concrete situations *)

Module Examples.

(** A snapshot as [get_status] builds it on a device without GPIO utility:
    every key of the placeholder but ['gpio-pins']. *)
Definition snapshot_without_gpio : Dict :=
  [("resources", JDict [("cpu", JDict [("capacity", JNum 4)])]);
   ("operating-system", JStr "Linux");
   ("architecture", JStr "aarch64");
   ("hostname", JStr "nuvlabox");
   ("ip", JStr "10.0.0.2");
   ("docker-server-version", JStr "19.03");
   ("last-boot", JStr "2020-01-01T00:00:00Z");
   ("status", JStr "OPERATIONAL");
   ("nuvlabox-api-endpoint", JStr "https://management-api:5001/api")].

(** The same snapshot on a device that reports its GPIO pins. *)
Definition snapshot_with_gpio : Dict :=
  snapshot_without_gpio ++ [("gpio-pins", JList [JDict [("pin", JNum 1)]])].

(** A publisher whose remote update times out. *)
Definition failing_put : Telemetry.Probe :=
  Telemetry.mkProbe (Ok (snapshot_with_gpio, snapshot_with_gpio))
                    "2020-01-01T00:00:10Z"
                    (fun _ _ => Raise (Exception "timed out"))
                    Written.

Definition status_id : Json := JStr "nuvlabox-status/1".

(** The peripheral store of the examples: a remote service that answers
    [add] with a fresh resource id and status 201, and whose [delete] and
    the local disk answer as given.  A search with [*] lists the entries
    that are not hidden, any other pattern the entry of that name; a search
    that leaves the peripherals directory finds nothing. *)
Definition created : Dict :=
  [("resource-id", JStr "nuvlabox-peripheral/1"); ("status", JNum 201)].

Definition deleted : Dict :=
  [("resource-id", JStr "nuvlabox-peripheral/1"); ("status", JNum 200)].

Definition store (add : Res Dict) (del : Res Dict) (save : WriteOutcome)
    : AgentApi.Env :=
  AgentApi.mkEnv
    "/srv/nuvlabox/shared/.peripherals"
    (JStr "nuvlabox/1")
    (fun _ => "<value>")
    (fun e => match e with Exception what => what | _ => "<exception>" end)
    None
    (Raise (KeyError "git.branch"))
    (fun _ _ _ => add)
    (fun _ _ => del)
    (fun _ _ _ => save)
    (fun pattern name =>
       if String.eqb pattern "*" then negb (String.prefix "." name)
       else String.eqb pattern name)
    (fun _ _ => []).

Definition empty_world : AgentApi.World := AgentApi.mkWorld ∅ [] [].

Definition usb_payload : Dict := [("identifier", JStr "usb-1")].

(** The payload as [post] completes and posts it. *)
Definition usb_posted : Dict :=
  [("identifier", JStr "usb-1"); ("parent", JStr "nuvlabox/1");
   ("version", JNum 1)].

(** The record [post] saves for it. *)
Definition usb_record : Dict :=
  usb_posted ++ [("id", JStr "nuvlabox-peripheral/1")].

(** The disk refuses the record file and the remote service is then out
    of reach. *)
Definition store_save_and_delete_fail : AgentApi.Env :=
  store (Ok created) (Raise (Exception "Connection refused"))
        (OpenFails (Exception "No such file or directory")).

(** A healthy remote service and disk. *)
Definition store_ok : AgentApi.Env := store (Ok created) (Ok deleted) Written.

(** The remote service refuses every create with status 503. *)
Definition unavailable : Json := JDict [("message", JStr "unavailable")].

Definition store_remote_unavailable : AgentApi.Env :=
  store (Raise (NuvlaError 503 unavailable)) (Ok deleted) Written.

(** The remote service no longer knows the resource it is asked to delete,
    or fails on the delete with status 500. *)
Definition store_delete_not_found : AgentApi.Env :=
  store (Ok created) (Raise (NuvlaError 404 (JDict [("message", JStr "not found")])))
        Written.

Definition store_delete_fails : AgentApi.Env :=
  store (Ok created) (Raise (NuvlaError 500 (JDict [("message", JStr "internal error")])))
        Written.

(** The disk fails while writing the record, leaving a truncated file, and
    the remote service is then out of reach. *)
Definition store_write_and_delete_fail : AgentApi.Env :=
  store (Ok created) (Raise (Exception "Connection refused"))
        (WriteFails (Exception "No space left on device")).

(** A world in which the record of [usb-1] is registered. *)
Definition usb_registered : AgentApi.World :=
  AgentApi.mkWorld {[ "usb-1" := Holds (JDict usb_record) ]} [] [].

(** Three registered peripherals on the interfaces eth0, eth1 and eth0. *)
Definition on_interface (name iface : string) : FileData :=
  Holds (JDict [("identifier", JStr name); ("interface", JStr iface);
                ("id", JStr ("nuvlabox-peripheral/" +:+ name))]).

Definition three_records : AgentApi.World :=
  AgentApi.mkWorld
    (<["usb-1" := on_interface "usb-1" "eth0"]>
       (<["usb-2" := on_interface "usb-2" "eth1"]>
          (<["usb-3" := on_interface "usb-3" "eth0"]> ∅)))
    [] [].

(** The same directory with one more entry that cannot be opened. *)
Definition with_unopenable : AgentApi.World :=
  AgentApi.mkWorld (<["usb-9" := Unopenable]> (AgentApi.files three_records))
                   [] [].

(** The NuvlaBox resource with a refresh interval of 10 seconds. *)
Definition resource : Dict :=
  [("updated", JStr "2020-01-01T00:00:00Z"); ("refresh-interval", JNum 10)].

(** A turn that starts at time 0, ends at [finish], and whose publication
    answers [response]; [job] builds the jobs. *)
Definition turn (finish : Q) (response : Res Json)
    (job : nat -> Json -> Res App.JobObj) : App.CycleEnv :=
  App.mkCycleEnv 0 finish (Ok resource) (fun _ => Ok tt) (fun _ => Ok tt)
                 response (JStr "nuvla/job-lite:latest") job (Ok tt).

Definition no_job : nat -> Json -> Res App.JobObj :=
  fun _ _ => Raise (Exception "no job expected").

(** A turn without jobs that lasts [duration]. *)
Definition quiet_turn (duration : Q) : App.CycleEnv :=
  turn duration (Ok (JDict [])) no_job.

(** A turn whose publication times out. *)
Definition turn_publish_fails : App.CycleEnv :=
  turn 1 (Raise (Exception "timed out")) no_job.

(** A response with two pending jobs. *)
Definition two_jobs : Dict :=
  [("jobs", JList [JStr "job/1"; JStr "job/2"])].

(** The launch of the first job fails, the second job starts. *)
Definition first_launch_fails : nat -> Json -> Res App.JobObj :=
  fun position _ =>
    match position with
    | O => Ok (App.mkJob false (Raise (Exception "docker error")))
    | _ => Ok (App.mkJob false (Ok tt))
    end.

End Examples.

(** ** The peripheral store, in the words of its callers *)

Module StoreWords.
Import AgentApi.

(** A payload [post] goes on with: a non-empty dict with an
    ['identifier']. *)
Definition valid_payload (payload : Json) : bool :=
  truthy payload && is_dict payload &&
  dict_mem "identifier" (as_dict payload).

(** How [post] reports a failed remote create. *)
Definition refusal_reply (env : Env) (e : Exn) : Json * Json :=
  match e with
  | NuvlaError code body => (body, status_code code)
  | _ => (error_body ("Unable to complete POST request: " +:+ exn_str env e),
          status_code 500)
  end.

(** How [post] reports a failed save. *)
Definition unsaved_reply (env : Env) (e : Exn) : Json * Json :=
  (error_body ("Unable to fulfill request: " +:+ exn_str env e),
   status_code 500).

(** An answer of the remote delete that the branch of [delete] for a
    missing record file turns into a reply: an answer with a ['status'], or
    a [NuvlaError]. *)
Definition answered (r : Res Dict) : bool :=
  match r with
  | Ok data => dict_mem "status" data
  | Raise (NuvlaError _ _) => true
  | Raise _ => false
  end.

(** The reply of [delete] for a missing record file and an answered remote
    delete. *)
Definition remote_only_reply (r : Res Dict) : Json * Json :=
  match r with
  | Ok data =>
      (JDict data,
       match dict_get "status" data with Some st => st | None => JNull end)
  | Raise (NuvlaError code body) => (body, status_code code)
  | Raise _ => (JNull, JNull)
  end.

(** How [delete] replies when both deletions were made. *)
Definition success_reply (env : Env) (name : string) (data : Dict)
    : Json * Json :=
  match dict_get "status" data with
  | Some st => (JDict data, st)
  | None => surfaced env name (KeyError "status")
  end.

End StoreWords.

(** ** The status publisher, in the words of its callers *)

Module PublisherWords.
Import Telemetry.

(** [covers], as a test. *)
Definition coversb (keys : list string) (old_status new_status : Dict) : bool :=
  forallb (fun k =>
             match dict_get k new_status with
             | Some nv => is_none nv || dict_mem k old_status
             | None => false
             end) keys.

(** Every key has a value other than [None] in the snapshot. *)
Definition filled (keys : list string) (snapshot : Dict) : bool :=
  forallb (fun k =>
             match dict_get k snapshot with
             | Some v => negb (is_none v)
             | None => false
             end) keys.

(** Every key holds [None] in the snapshot, as in the placeholder of
    [__init__]. *)
Definition blank (keys : list string) (snapshot : Dict) : bool :=
  forallb (fun k =>
             match dict_get k snapshot with
             | Some v => is_none v
             | None => false
             end) keys.

(** The body of a publication without any changed field. *)
Definition heartbeat (env : Probe) (s : State) : Dict :=
  [("current-time", JStr (utcnow env)); ("id", nb_status_id s)].

(** What the status file holds after a write with the given outcome. *)
Definition file_after (o : WriteOutcome) (before : option FileData)
    (content : Json) : option FileData :=
  match o with
  | Written => Some (Holds content)
  | OpenFails _ => before
  | WriteFails _ => Some Garbled
  end.

(** How [update_status] ends once the publication went through: it returns
    [None], or the failed write of the status file raises. *)
Definition write_result (o : WriteOutcome) : Res Json :=
  match o with
  | Written => Ok JNull
  | OpenFails e => Raise e
  | WriteFails e => Raise e
  end.

(** A publisher that answers the given snapshot and whose remote update and
    file write go through. *)
Definition healthy (snapshot : Dict) (now : string) : Probe :=
  mkProbe (Ok (snapshot, snapshot)) now (fun _ _ => Ok tt) Written.

End PublisherWords.

(** ** More concrete situations *)

Module Cases.

(** The update map of the first diff of a device that reports GPIO pins:
    the fields of its snapshot, in the key order of the placeholder. *)
Definition first_update : Dict :=
  [("resources", JDict [("cpu", JDict [("capacity", JNum 4)])]);
   ("status", JStr "OPERATIONAL");
   ("nuvlabox-api-endpoint", JStr "https://management-api:5001/api");
   ("operating-system", JStr "Linux");
   ("architecture", JStr "aarch64");
   ("ip", JStr "10.0.0.2");
   ("last-boot", JStr "2020-01-01T00:00:00Z");
   ("hostname", JStr "nuvlabox");
   ("docker-server-version", JStr "19.03");
   ("gpio-pins", JList [JDict [("pin", JNum 1)]])].

(** What [Telemetry.update_status] gives the loop on a healthy device: the
    first publication of a fresh [Telemetry] object, whose snapshot is
    collected, whose remote update goes through and whose status file is
    written. *)
Definition first_publication : Res Json :=
  fst (Telemetry.update_status
         (PublisherWords.healthy Examples.snapshot_with_gpio
                                 "2020-01-01T00:00:10Z")
         (Telemetry.init Examples.status_id)).

(** A turn of the loop on that device: the NuvlaBox resource asks for a
    refresh interval of 10 seconds, the turn lasts [duration], a
    job-engine-lite image is configured and [job] builds the jobs. *)
Definition healthy_turn (duration : Q) (job : nat -> Json -> Res App.JobObj)
    : App.CycleEnv :=
  Examples.turn duration first_publication job.

End Cases.

(** ** agent/Telemetry.py: collecting the status *)

Module Sampling.

Inductive LogLine : Type :=
| LogMqttRefused
    (* exception 'Connection to NuvlaBox MQTT broker refused' *)
| LogMqttUnreachable
    (* exception 'The NuvlaBox MQTT broker is not reachable...' *)
| LogMissingIndexes (indexes : list Z)
    (* error 'Missing indexes needed to parse GPIO pin: ...' *)
| LogNoSuitableValue (attribute : string) (pin : Json)
    (* debug 'No suitable {attribute} value for pin {pin}' *)
| LogUnableToGetPin (gpio_values : list string)
    (* warning 'Unable to get GPIO pin status on ..., index ...' *)
| LogInvalidIndexes (indexes : list Z) (line : string)
    (* exception 'Invalid list of indexes ... Cannot parse this pin' *)
| LogNoNetworkInformation
    (* warning 'Cannot find network information for this device' *)
| LogNoNetUsage (interface : string)
    (* warning 'Cannot calculate net usage for interface {}' *)
| LogCannotInferIp.
    (* warning 'Cannot infer the NuvlaBox IP!' *)

(** What the collection does to the outside: MQTT disconnects and the
    [mosquitto_pub] commands handed to [os.system]. *)
Inductive Effect : Type :=
| MqttDisconnect
| MosquittoPub (topic : string) (message : string).

Record State : Type := mkState {
  log : list LogLine;
  effects : list Effect
}.

Definition logging (l : LogLine) : M State unit :=
  modify (fun s => mkState (log s ++ [l]) (effects s)).

Definition perform (ef : Effect) : M State unit :=
  modify (fun s => mkState (log s) (effects s ++ [ef])).

(** *** GPIO pins *)

(** [l[i]] on a list, with Python's negative indexes; [None] stands for an
    [IndexError]. *)
Definition py_index {A : Type} (l : list A) (i : Z) : option A :=
  let n := Z.of_nat (length l) in
  let j := if (i <? 0)%Z then (i + n)%Z else i in
  if ((0 <=? j) && (j <? n))%Z then nth_error l (Z.to_nat j) else None.

Definition index_or_raise {A : Type} (l : list A) (i : Z) : Res A :=
  match py_index l i with
  | Some x => Ok x
  | None => Raise IndexError
  end.

(** [line.split(sep)] for a one-character separator. *)
Fixpoint split_on (sep : Ascii.ascii) (line : string) : list string :=
  match line with
  | EmptyString => [EmptyString]
  | String c rest =>
      if Ascii.eqb c sep then EmptyString :: split_on sep rest
      else
        match split_on sep rest with
        | [] => [String c EmptyString]
        | cell :: cells => String c cell :: cells
        end
  end.

(** [s.lower()] on ASCII letters. *)
Definition lower_char (c : Ascii.ascii) : Ascii.ascii :=
  let n := Ascii.nat_of_ascii c in
  if (65 <=? n)%nat && (n <=? 90)%nat then Ascii.ascii_of_nat (n + 32) else c.

Fixpoint lower (s : string) : string :=
  match s with
  | EmptyString => EmptyString
  | String c rest => String (lower_char c) (lower rest)
  end.

(** The ["type"] of an expected attribute, as [locate] resolves it. *)
Inductive AttrType : Type := AsInt | AsStr.

(** [locate(exp["type"])(cell)]; [int] stands for the builtin on a [str],
    [None] for its [ValueError]. *)
Definition convert (int : string -> option Z) (ty : AttrType) (cell : string)
    : Res Json :=
  match ty with
  | AsStr => Ok (JStr cell)
  | AsInt =>
      match int cell with
      | Some z => Ok (JNum (inject_Z z))
      | None => Raise ValueError
      end
  end.

(** The expected list of attributes. *)
Definition expected : list (string * AttrType) :=
  [("BCM", AsInt); ("NAME", AsStr); ("MODE", AsStr); ("VOLTAGE", AsInt)].

Definition needed_indexes_len : nat := 5.

(** [for i, exp in enumerate(expected): ...] *)
Fixpoint fill_attributes (int : string -> option Z) (gpio_values : list string)
    (indexes : list Z) (i : nat) (attributes : list (string * AttrType))
    (gpio_pin : Dict) : M State Dict :=
  match attributes with
  | [] => ret gpio_pin
  | (attribute, ty) :: rest =>
      let* position := lift (index_or_raise indexes (Z.of_nat i)) in
      let* gpio_pin :=
        try_except
          (let* cell := lift (index_or_raise gpio_values position) in
           let* value := lift (convert int ty cell) in
           ret (dict_set (lower attribute) value gpio_pin))
          (fun e =>
             match e with
             | ValueError =>
                 Some (logging (LogNoSuitableValue attribute
                                  (match dict_get "pin" gpio_pin with
                                   | Some p => p
                                   | None => JNull
                                   end)) ;;;
                       ret gpio_pin)
             | _ => None
             end) in
      fill_attributes int gpio_values indexes (S i) rest gpio_pin
  end.

(** The character ['|']. *)
Definition bar : Ascii.ascii := Ascii.ascii_of_nat 124.

(** [Telemetry.parse_gpio_pin_cell(indexes, line)]: the parsed pin, or
    [None]. *)
Definition parse_gpio_pin_cell (int : string -> option Z) (indexes : list Z)
    (line : string) : M State (option Dict) :=
  if (length indexes <? needed_indexes_len)%nat then
    logging (LogMissingIndexes indexes) ;;;
    ret None
  else
    let gpio_values := split_on bar line in
    try_except
      (let* last := lift (index_or_raise indexes (-1)) in
       let* cell := lift (index_or_raise gpio_values last) in
       let* pin := lift (convert int AsInt cell) in
       let gpio_pin := dict_set "pin" pin [] in
       let* gpio_pin := fill_attributes int gpio_values indexes 0 expected
                                        gpio_pin in
       ret (Some gpio_pin))
      (fun e =>
         match e with
         | ValueError =>
             Some (logging (LogUnableToGetPin gpio_values) ;;; ret None)
         | _ =>
             Some (logging (LogInvalidIndexes indexes line) ;;; ret None)
         end).

Definition first_pin_indexes : list Z := [1; 3; 4; 5; 6]%Z.
Definition second_pin_indexes : list Z := [14; 11; 10; 9; 8]%Z.

(** [lines[3:-3]] *)
Definition trim_3 {A : Type} (lines : list A) : list A :=
  firstn (length lines - 3 - 3) (skipn 3 lines).

(** Truth value of what [parse_gpio_pin_cell] returned. *)
Definition parsed (pin : option Dict) : bool :=
  match pin with
  | Some d => truthy (JDict d)
  | None => false
  end.

Definition as_pin (pin : option Dict) : Json :=
  match pin with Some d => JDict d | None => JNull end.

(** [for gpio_line in trimmed_gpio_out: ...] *)
Fixpoint gpio_lines (int : string -> option Z) (lines : list string)
    (formatted_gpio_status : list Json) : M State (list Json) :=
  match lines with
  | [] => ret formatted_gpio_status
  | gpio_line :: rest =>
      let* first_pin := parse_gpio_pin_cell int first_pin_indexes gpio_line in
      let formatted_gpio_status :=
        if parsed first_pin then formatted_gpio_status ++ [as_pin first_pin]
        else formatted_gpio_status in
      let* second_pin := parse_gpio_pin_cell int second_pin_indexes gpio_line in
      let formatted_gpio_status :=
        if parsed second_pin then formatted_gpio_status ++ [as_pin second_pin]
        else formatted_gpio_status in
      gpio_lines int rest formatted_gpio_status
  end.

(** [Telemetry.get_gpio_pins(self)]; [readall] is what
    [run(["gpio", "readall"], ...)] gave: its return code and output. *)
Definition get_gpio_pins (int : string -> option Z)
    (splitlines : string -> list string) (readall : Res (Z * string))
    : M State Json :=
  let* gpio_out := lift readall in
  let '(returncode, stdout) := gpio_out in
  if negb (Z.eqb returncode 0) || negb (truthy (JStr stdout)) then ret JNull
  else
    let trimmed_gpio_out := trim_3 (splitlines stdout) in
    let* formatted_gpio_status := gpio_lines int trimmed_gpio_out [] in
    ret (JList formatted_gpio_status).

(** *** Network counters *)

(** [os.listdir(sysfs_net)] *)
Inductive Listing : Type :=
| NoSuchDirectory                 (* FileNotFoundError *)
| Entries (names : list string)
| ListingRaises (e : Exn).        (* any other exception *)

(** [int(open(path).read())] of a counter file. *)
Inductive Counter : Type :=
| NoSuchFile                      (* FileNotFoundError *)
| Bytes (n : Z)
| CounterRaises (e : Exn).        (* any other exception *)

Record NetProbe : Type := mkNetProbe {
  listdir : Listing;
  rx_bytes : string -> Counter;
  tx_bytes : string -> Counter
}.

Definition net_entry (interface : string) (tx rx : Z) : Json :=
  JDict [("interface", JStr interface);
         ("bytes-transmitted", JNum (inject_Z tx));
         ("bytes-received", JNum (inject_Z rx))].

(** [for interface in ifaces: ...] *)
Fixpoint net_loop (net : NetProbe) (ifaces : list string)
    (net_stats : list Json) : M State (list Json) :=
  match ifaces with
  | [] => ret net_stats
  | interface :: rest =>
      match rx_bytes net interface with
      | NoSuchFile =>
          logging (LogNoNetUsage interface) ;;; net_loop net rest net_stats
      | CounterRaises e => raise e
      | Bytes rx =>
          match tx_bytes net interface with
          | NoSuchFile =>
              logging (LogNoNetUsage interface) ;;; net_loop net rest net_stats
          | CounterRaises e => raise e
          | Bytes tx =>
              net_loop net rest (net_stats ++ [net_entry interface tx rx])
          end
      end
  end.

(** [Telemetry.get_network_info(self)] *)
Definition get_network_info (net : NetProbe) : M State Json :=
  match listdir net with
  | NoSuchDirectory => logging LogNoNetworkInformation ;;; ret (JDict [])
  | ListingRaises e => raise e
  | Entries ifaces =>
      let* net_stats := net_loop net ifaces [] in
      ret (JList net_stats)
  end.

(** *** IP address and API endpoint *)

(** The collaborators of one [get_ip] call. *)
Record IpProbe : Type := mkIpProbe {
  deployment_scenario : Res Json;
    (* docker_client.containers.get(docker_id).labels["nuvlabox.deployment"] *)
  host_ip : Res Json;
    (* socket.gethostbyname(socket.gethostname()) *)
  node_addr : Res Json;
    (* docker_client.info()["Swarm"]["NodeAddr"] *)
  vpn_ip_file : option string
    (* None: no such file; Some content *)
}.

(** [Telemetry.get_ip(self)] *)
Definition get_ip (splitlines : string -> list string) (ip : IpProbe)
    : M State Json :=
  let* scenario := lift (deployment_scenario ip) in
  if json_eqb scenario (JStr "localhost") then lift (host_ip ip)
  else if json_eqb scenario (JStr "onpremise") then lift (node_addr ip)
  else if json_eqb scenario (JStr "production") then
    match vpn_ip_file ip with
    | Some content =>
        if negb (String.eqb content EmptyString) then
          let* line := lift (index_or_raise (splitlines content) 0) in
          ret (JStr line)
        else lift (node_addr ip)
    | None => lift (node_addr ip)
    end
  else
    logging LogCannotInferIp ;;; ret JNull.

(** What [requests.get(nb_int_endpoint, verify=False)] does. *)
Inductive ApiAnswer : Type :=
| Answered
| SslError          (* requests.exceptions.SSLError *)
| Unreachable.      (* ConnectionError, or anything else *)

Definition nb_int_endpoint : string := "https://management-api:5001/api".

(** [Telemetry.get_nuvlabox_api_endpoint(self)]; [str] renders a value that
    is not a [str]. *)
Definition get_nuvlabox_api_endpoint (str : Json -> string)
    (splitlines : string -> list string) (ip : IpProbe) (api : ApiAnswer)
    : M State Json :=
  let* address := get_ip splitlines ip in
  let nb_ext_endpoint :=
    "https://" +:+
    (match address with JStr s => s | v => str v end) +:+ ":5001/api" in
  match api with
  | SslError => ret (JStr nb_ext_endpoint)
  | Unreachable => ret JNull
  | Answered => ret (JStr nb_int_endpoint)
  end.

(** *** MQTT *)

(** [self.mqtt_telemetry.connect(...)] *)
Inductive ConnectOutcome : Type :=
| Connected
| Refused                       (* ConnectionRefusedError *)
| NotResolved                   (* socket.gaierror *)
| ConnectRaises (e : Exn).      (* any other exception *)

(** [Telemetry.send_mqtt(self, cpu, ram, disks)] *)
Definition send_mqtt (dumps : Json -> string) (connect : ConnectOutcome)
    (cpu ram disks : Json) : M State unit :=
  match connect with
  | Refused => logging LogMqttRefused ;;; perform MqttDisconnect
  | NotResolved => logging LogMqttUnreachable ;;; perform MqttDisconnect
  | ConnectRaises e => raise e
  | Connected =>
      (if truthy cpu then perform (MosquittoPub "cpu" (dumps cpu))
       else ret tt) ;;;
      (if truthy ram then perform (MosquittoPub "ram" (dumps ram))
       else ret tt) ;;;
      (if truthy disks then
         (fix each (l : list Json) : M State unit :=
            match l with
            | [] => ret tt
            | dsk :: rest =>
                perform (MosquittoPub "disks" (dumps dsk)) ;;; each rest
            end)
           (match disks with JList l => l | _ => [] end)
       else ret tt)
  end.

(** *** The snapshot *)

(** What the host answers during one [get_status] call, one field for each
    call the method makes, in the order it makes them. *)
Record Host : Type := mkHost {
  json_dumps : Json -> string;            (* json.dumps *)
  py_str : Json -> string;                (* str() of a value that is not a str *)
  py_int : string -> option Z;            (* int() of a str *)
  splitlines : string -> list string;     (* str.splitlines *)
  disk_capacity : Res Json;   (* int(psutil.disk_usage('/')[0]/1024/1024/1024) *)
  disk_used : Res Json;       (* int(psutil.disk_usage('/')[1]/1024/1024/1024) *)
  operational_status : Res Json;          (* self.get_operational_status() *)
  docker_info : Res Dict;                 (* self.docker_client.info() *)
  cpu_count : Res Json;                   (* int(psutil.cpu_count()) *)
  load_average : Res Json;                (* float(psutil.getloadavg()[2]) *)
  ram_capacity : Res Json;    (* int(round(psutil.virtual_memory()[0]/1024/1024)) *)
  ram_used : Res Json;        (* int(round(psutil.virtual_memory()[3]/1024/1024)) *)
  mqtt_connect : ConnectOutcome;
  ip_of_snapshot : IpProbe;               (* the get_ip() of the "ip" field *)
  docker_version : Res Dict;              (* self.docker_client.version() *)
  last_boot : Res Json;                   (* formatted psutil.boot_time() *)
  ip_of_endpoint : IpProbe;               (* the get_ip() of the endpoint *)
  management_api : ApiAnswer;
  network : NetProbe;
  gpio_utility : Json;                    (* self.gpio_utility *)
  gpio_readall : Res (Z * string);        (* run(["gpio", "readall"], ...) *)
  cpu_percent : Res Json;                 (* psutil.cpu_percent() *)
  disk_percent : Res Json;                (* psutil.disk_usage("/")[3] *)
  memory_percent : Res Json;              (* psutil.virtual_memory()[2] *)
  disk_total : Res Json       (* int(psutil.disk_usage('/')[0]/1024/1024/1024) *)
}.

(** [Telemetry.get_disks_usage()] *)
Definition get_disks_usage (host : Host) : M State (list Dict) :=
  let* capacity := lift (disk_capacity host) in
  let* used := lift (disk_used host) in
  ret [[("device", JStr "overlay"); ("capacity", capacity); ("used", used)]].

(** [for dsk in disk_usage: dsk.update({...}); disks.append(dsk)] *)
Definition tag_disk (host : Host) (dsk : Dict) : Dict :=
  dict_set "raw-sample" (JStr (json_dumps host (JDict dsk)))
    (dict_set "topic" (JStr "disks") dsk).

(** [d.update(other)] *)
Definition dict_update (d other : Dict) : Dict :=
  fold_left (fun acc kv => dict_set (fst kv) (snd kv) acc) other d.

(** [status_for_nuvla['resources']['net-stats'] = net_stats] *)
Definition set_net_stats (net_stats : Json) (status : Dict) : Res Dict :=
  match dict_get "resources" status with
  | Some (JDict resources) =>
      Ok (dict_set "resources" (JDict (dict_set "net-stats" net_stats resources))
                   status)
  | Some _ => Raise TypeError
  | None => Raise (KeyError "resources")
  end.

(** [Telemetry.get_status(self)]: the status for Nuvla and the full
    status. *)
Definition get_status (host : Host) : M State (Dict * Dict) :=
  let* disk_usage := get_disks_usage host in
  let* operational := lift (operational_status host) in
  let* info := lift (docker_info host) in
  let* capacity := lift (cpu_count host) in
  let* load := lift (load_average host) in
  let cpu_sample := [("capacity", capacity); ("load", load)] in
  let* memory := lift (ram_capacity host) in
  let* used := lift (ram_used host) in
  let ram_sample := [("capacity", memory); ("used", used)] in
  send_mqtt (json_dumps host) (mqtt_connect host) (JDict cpu_sample)
            (JDict ram_sample) (JList (map JDict disk_usage)) ;;;
  let cpu :=
    dict_update [("topic", JStr "cpu");
                 ("raw-sample", JStr (json_dumps host (JDict cpu_sample)))]
                cpu_sample in
  let ram :=
    dict_update [("topic", JStr "ram");
                 ("raw-sample", JStr (json_dumps host (JDict ram_sample)))]
                ram_sample in
  let disks := map (tag_disk host) disk_usage in
  let resources :=
    JDict [("cpu", JDict cpu); ("ram", JDict ram);
           ("disks", JList (map JDict disks))] in
  let* operating_system := lift (subscript info "OperatingSystem") in
  let* architecture := lift (subscript info "Architecture") in
  let* hostname := lift (subscript info "Name") in
  let* address := get_ip (splitlines host) (ip_of_snapshot host) in
  let* version_info := lift (docker_version host) in
  let* version := lift (subscript version_info "Version") in
  let* boot := lift (last_boot host) in
  let* endpoint :=
    get_nuvlabox_api_endpoint (py_str host) (splitlines host)
                              (ip_of_endpoint host) (management_api host) in
  let status_for_nuvla :=
    [("resources", resources);
     ("operating-system", operating_system);
     ("architecture", architecture);
     ("hostname", hostname);
     ("ip", address);
     ("docker-server-version", version);
     ("last-boot", boot);
     ("status", operational);
     ("nuvlabox-api-endpoint", endpoint)] in
  let* net_stats := get_network_info (network host) in
  let* status_for_nuvla :=
    if truthy net_stats then lift (set_net_stats net_stats status_for_nuvla)
    else ret status_for_nuvla in
  let* status_for_nuvla :=
    if truthy (gpio_utility host) then
      let* gpio_pins :=
        get_gpio_pins (py_int host) (splitlines host) (gpio_readall host) in
      if truthy gpio_pins
      then ret (dict_set "gpio-pins" gpio_pins status_for_nuvla)
      else ret status_for_nuvla
    else ret status_for_nuvla in
  let* usage := lift (cpu_percent host) in
  let* disk_usage_percent := lift (disk_percent host) in
  let* memory_usage := lift (memory_percent host) in
  let* disk := lift (disk_total host) in
  let all_status :=
    dict_update status_for_nuvla
      [("cpu-usage", usage); ("cpu-load", load);
       ("disk-usage", disk_usage_percent); ("memory-usage", memory_usage);
       ("cpus", capacity); ("memory", memory); ("disk", disk)] in
  ret (status_for_nuvla, all_status).

(** The fields of every status for Nuvla, in the order [get_status] writes
    them. *)
Definition status_keys : list string :=
  ["resources"; "operating-system"; "architecture"; "hostname"; "ip";
   "docker-server-version"; "last-boot"; "status"; "nuvlabox-api-endpoint"].

(** The fields that the full status has besides. *)
Definition monitoring_keys : list string :=
  ["cpu-usage"; "cpu-load"; "disk-usage"; "memory-usage"; "cpus"; "memory";
   "disk"].

End Sampling.

(** ** The collection, in the words of its callers *)

Module SamplingWords.
Import Sampling.

(** The cell of a [gpio readall] line at a (Python) index. *)
Definition cell (line : string) (i : Z) : option string :=
  py_index (split_on bar line) i.

Definition as_number (z : Z) : Json := JNum (inject_Z z).

(** The pin that a line describes through the cells at five indexes
    (physical pin, BCM, name, mode, voltage): there is one when the five
    cells exist and the physical pin is an integer; its name and mode are
    the cells as they are, its BCM and voltage are there when their cells
    are integers. *)
Definition pin_spec (int : string -> option Z) (line : string)
    (physical bcm name mode voltage : Z) : option Dict :=
  match cell line physical with
  | None => None
  | Some c_physical =>
      match int c_physical with
      | None => None
      | Some p =>
          match cell line bcm, cell line name, cell line mode,
                cell line voltage with
          | Some c_bcm, Some c_name, Some c_mode, Some c_voltage =>
              Some ([("pin", as_number p)]
                    ++ match int c_bcm with
                       | Some b => [("bcm", as_number b)]
                       | None => []
                       end
                    ++ [("name", JStr c_name); ("mode", JStr c_mode)]
                    ++ match int c_voltage with
                       | Some v => [("voltage", as_number v)]
                       | None => []
                       end)
          | _, _, _, _ => None
          end
      end
  end.

(** The pins of one line of the table: the left one, then the right one. *)
Definition line_pins (int : string -> option Z) (line : string) : list Json :=
  match pin_spec int line 6 1 3 4 5 with
  | Some pin => [JDict pin]
  | None => []
  end ++
  match pin_spec int line 8 14 11 10 9 with
  | Some pin => [JDict pin]
  | None => []
  end.

(** A parser of integers for the examples: one decimal digit, with blanks
    around it. *)
Definition digit (s : string) : option Z :=
  match s with
  | " 0 " => Some 0%Z | " 1 " => Some 1%Z | " 2 " => Some 2%Z
  | " 3 " => Some 3%Z | " 4 " => Some 4%Z | " 5 " => Some 5%Z
  | " 6 " => Some 6%Z | " 7 " => Some 7%Z | " 8 " => Some 8%Z
  | " 9 " => Some 9%Z
  | _ => None
  end.

(** A line of [gpio readall] with the pins 3 and 4. *)
Definition sample_line : string :=
  "| 2 | 8 | SDA.1 | IN | 1 | 3 || 4 | 0 | OUT | 5v | | |".

Definition no_log : State := mkState [] [].

(** The entry of an interface in the network statistics: there is one when
    both its counters can be read. *)
Definition interface_stats (net : NetProbe) (interface : string) : list Json :=
  match rx_bytes net interface, tx_bytes net interface with
  | Bytes rx, Bytes tx => [net_entry interface tx rx]
  | _, _ => []
  end.

(** The exception of the first counter, in reading order (per interface the
    received bytes, then, when these were read, the transmitted bytes), whose
    reading raises something else than [FileNotFoundError]. *)
Fixpoint first_failure (net : NetProbe) (ifaces : list string) : option Exn :=
  match ifaces with
  | [] => None
  | interface :: rest =>
      match rx_bytes net interface with
      | CounterRaises e => Some e
      | NoSuchFile => first_failure net rest
      | Bytes _ =>
          match tx_bytes net interface with
          | CounterRaises e => Some e
          | _ => first_failure net rest
          end
      end
  end.

(** A device in a local deployment, without GPIO utility, whose MQTT
    broker refuses the connection. *)
Definition plain_ip : IpProbe :=
  mkIpProbe (Ok (JStr "localhost")) (Ok (JStr "172.18.0.5"))
            (Ok (JStr "192.168.1.10")) None.

Definition plain_net : NetProbe :=
  mkNetProbe (Entries ["eth0"; "lo"])
             (fun interface =>
                if String.eqb interface "eth0" then Bytes 100 else NoSuchFile)
             (fun _ => Bytes 50).

Definition host_without_gpio : Host :=
  mkHost (fun _ => "{...}") (fun _ => "None") digit (fun s => [s])
         (Ok (JNum 29)) (Ok (JNum 5))
         (Ok (JStr "OPERATIONAL"))
         (Ok [("OperatingSystem", JStr "Raspbian");
              ("Architecture", JStr "armv7l"); ("Name", JStr "nuvlabox")])
         (Ok (JNum 4)) (Ok (JNum 1))
         (Ok (JNum 3906)) (Ok (JNum 512))
         Refused
         plain_ip
         (Ok [("Version", JStr "19.03")])
         (Ok (JStr "2020-01-01T00:00:00Z"))
         plain_ip Answered
         plain_net
         JNull (Raise (Exception "gpio: command not found"))
         (Ok (JNum 12)) (Ok (JNum 17)) (Ok (JNum 13)) (Ok (JNum 29)).

End SamplingWords.

(** ** Proof steps *)

(** Unfold the effects of a computation down to its state transformer. *)
Ltac run_monad :=
  unfold try_except, bind, ret, lift, get, modify, raise; simpl.

Ltac run_api :=
  unfold AgentApi.remote_add, AgentApi.remote_delete, AgentApi.os_remove,
         AgentApi.local_peripheral_save, AgentApi.logging, AgentApi.set_files;
  run_monad.

Ltac run_app :=
  unfold App.record, App.logging, App.set_refresh_interval,
         App.set_updated_date;
  run_monad.

(** * Properties *)

(** ** Python values *)

Module PyFacts.

Lemma dict_get_set_eq (k : string) (v : Json) (d : Dict) :
  dict_get k (dict_set k v d) = Some v.
Proof.
  induction d as [|[k' w] d IH]; simpl.
  - now rewrite String.eqb_refl.
  - destruct (String.eqb k k') eqn:E; simpl; rewrite E; auto.
Qed.

Lemma dict_get_set_ne (k k' : string) (v : Json) (d : Dict) :
  k <> k' -> dict_get k' (dict_set k v d) = dict_get k' d.
Proof.
  intros Hne. induction d as [|[k0 w] d IH]; simpl.
  - destruct (String.eqb_spec k' k); congruence.
  - destruct (String.eqb_spec k k0) as [->|Hk]; simpl.
    + destruct (String.eqb_spec k' k0); congruence.
    + destruct (String.eqb_spec k' k0); auto.
Qed.

Lemma existsb_eqb_In (k : string) (l : list string) :
  existsb (String.eqb k) l = true <-> In k l.
Proof.
  rewrite existsb_exists. split.
  - intros (x & Hx & E). apply String.eqb_eq in E. now subst.
  - intros H. exists k. split; auto. apply String.eqb_refl.
Qed.

Lemma nodupb_NoDup (l : list string) : nodupb l = true -> List.NoDup l.
Proof.
  induction l as [|x l IH]; simpl; intros H.
  - constructor.
  - apply andb_true_iff in H as [Hx Hl]. constructor; auto.
    intros Hin. apply existsb_eqb_In in Hin. rewrite Hin in Hx. discriminate.
Qed.

(** In a dict with distinct keys every entry is the one its key finds. *)
Lemma dict_get_entry (k : string) (v : Json) (d : Dict) :
  List.NoDup (map fst d) -> In (k, v) d -> dict_get k d = Some v.
Proof.
  induction d as [|[k' w] d IH]; simpl; intros Hnd Hin; [contradiction|].
  inversion Hnd as [|? ? Hnotin Hnd']; subst.
  destruct Hin as [E|Hin].
  - inversion E; subst. now rewrite String.eqb_refl.
  - destruct (String.eqb_spec k k') as [->|_]; auto.
    exfalso. apply Hnotin. apply in_map_iff. now exists (k', v).
Qed.

(** [==] is reflexive on well-formed values. *)
Lemma json_eqb_refl (j : Json) : wf j = true -> json_eqb j j = true.
Proof.
  induction j as [| b | q | s | l IH | d IH] using Json_deep_ind;
    simpl; intros Hwf; auto.
  - now destruct b.
  - apply Qeq_bool_iff. reflexivity.
  - apply String.eqb_refl.
  - induction l as [|x l IHl]; auto.
    simpl in Hwf. apply andb_true_iff in Hwf as [Hx Hl].
    inversion IH; subst. rewrite H1 by auto. simpl. auto.
  - apply andb_true_iff in Hwf as [Hnd Hvals].
    apply nodupb_NoDup in Hnd.
    rewrite Nat.eqb_refl. simpl.
    assert (Hsub : forall xs, (forall k v, In (k, v) xs -> In (k, v) d) ->
      (fix go (xs : Dict) : bool :=
         match xs with
         | [] => true
         | (k, v) :: xs' =>
             match dict_get k d with
             | Some w => json_eqb v w
             | None => false
             end && go xs'
         end) xs = true).
    { induction xs as [|[k v] xs IHxs]; intros Hin; auto.
      rewrite (dict_get_entry k v d Hnd) by (apply Hin; now left).
      rewrite IHxs by (intros; apply Hin; now right).
      rewrite andb_true_r.
      assert (Hkv : In (k, v) d) by (apply Hin; now left).
      rewrite List.Forall_forall in IH. apply (IH (k, v) Hkv).
      clear - Hvals Hkv. induction d as [|[k' w] d IHd]; [contradiction|].
      apply andb_true_iff in Hvals as [Hw Hd].
      destruct Hkv as [E|Hkv]; [inversion E; now subst | auto]. }
    apply Hsub. auto.
Qed.

End PyFacts.

(** ** Telemetry: the status diff and its publication *)

Module TelemetrySpec.
Import Telemetry PyFacts.

(** The loop of [diff] returns, on snapshots that cover the keys, the delete
    list extended with the removed keys in key order and the update map
    extended with the changed keys. *)
Lemma diff_loop_spec (keys : list string) (old new : Dict) :
  covers keys old new ->
  forall upd del,
  exists upd', diff_loop keys old new upd del
               = Ok (upd', del ++ List.filter (removed new) keys) /\
    forall k, dict_get k upd' =
              if existsb (String.eqb k) keys && changed old new k
              then dict_get k new else dict_get k upd.
Proof.
  induction keys as [|key rest IH]; intros Hcov upd del.
  - exists upd. simpl. rewrite app_nil_r. split; auto.
  - assert (Hrest : covers rest old new)
      by (intros k Hk; apply Hcov; now right).
    destruct (Hcov key (or_introl eq_refl)) as (nv & Hnv & Hov).
    simpl. unfold removed at 1. rewrite Hnv.
    destruct (is_none nv) eqn:Hnone.
    + destruct (IH Hrest upd (del ++ [key])) as (upd' & Heq & Hget).
      exists upd'. rewrite Heq, <- app_assoc. split; auto.
      intros k. rewrite Hget.
      destruct (String.eqb_spec k key) as [->|Hne]; simpl; auto.
      unfold changed. rewrite Hnv, Hnone.
      destruct (dict_get key old); simpl; now rewrite andb_false_r.
    + destruct (Hov eq_refl) as (ov & Hold). rewrite Hold.
      destruct (json_neb ov nv) eqn:Hneb.
      * destruct (IH Hrest (dict_set key nv upd) del) as (upd' & Heq & Hget).
        exists upd'. split; auto.
        intros k. rewrite Hget.
        destruct (String.eqb_spec k key) as [->|Hne]; simpl.
        -- unfold changed. rewrite Hnv, Hold, Hnone, Hneb. simpl.
           rewrite andb_true_r, dict_get_set_eq.
           now destruct (existsb (String.eqb key) rest).
        -- rewrite dict_get_set_ne by congruence. reflexivity.
      * destruct (IH Hrest upd del) as (upd' & Heq & Hget).
        exists upd'. split; auto.
        intros k. rewrite Hget.
        destruct (String.eqb_spec k key) as [->|Hne]; simpl; auto.
        unfold changed. rewrite Hnv, Hold, Hnone, Hneb. simpl.
        now rewrite andb_false_r.
Qed.

(** On snapshots that cover the keys of [self.status], [diff] returns, and
    key by key: a removed key is in the delete list and not in the update
    map, a changed key maps to its new value, any other key is in neither. *)
Lemma diff_spec (self_status old new : Dict) :
  covers (dict_keys self_status) old new ->
  exists upd del, diff self_status old new = Ok (upd, del) /\
    forall k, In k (dict_keys self_status) ->
      (removed new k = true -> In k del /\ dict_get k upd = None) /\
      (changed old new k = true -> dict_get k upd = dict_get k new) /\
      (removed new k = false -> changed old new k = false ->
       ~ In k del /\ dict_get k upd = None).
Proof.
  intros Hcov. unfold diff.
  destruct (diff_loop_spec _ _ _ Hcov [] []) as (upd & Heq & Hget).
  exists upd, (List.filter (removed new) (dict_keys self_status)).
  split; [exact Heq|].
  intros k Hk.
  assert (Hex : existsb (String.eqb k) (dict_keys self_status) = true)
    by now apply existsb_eqb_In.
  specialize (Hget k). rewrite Hex in Hget. simpl in Hget.
  assert (Hexcl : removed new k = true -> changed old new k = false).
  { unfold removed, changed. destruct (dict_get k new); [|discriminate].
    intros ->. now destruct (dict_get k old). }
  repeat split.
  - apply filter_In. auto.
  - rewrite Hget, (Hexcl H). reflexivity.
  - intros H. now rewrite Hget, H.
  - intros Hin. apply filter_In in Hin. destruct Hin. congruence.
  - rewrite Hget, H0. reflexivity.
Qed.

(** A snapshot without [None] fields, diffed against itself, yields the
    empty update map and the empty delete list. *)
Lemma diff_same_snapshot (self_status S : Dict) :
  wf_dict S = true ->
  (forall k, In k (dict_keys self_status) ->
     exists v, dict_get k S = Some v /\ is_none v = false) ->
  diff self_status S S = Ok ([], []).
Proof.
  intros Hwf Hfull. unfold diff.
  assert (Hvals : forall k v, dict_get k S = Some v -> json_eqb v v = true).
  { intros k v Hv. apply json_eqb_refl.
    unfold wf_dict in Hwf. simpl in Hwf.
    apply andb_true_iff in Hwf as [_ Hvs].
    clear - Hv Hvs. induction S as [|[k' w] S IH]; [discriminate|].
    simpl in Hv. apply andb_true_iff in Hvs as [Hw HS].
    destruct (String.eqb k k'); [now inversion Hv; subst | auto]. }
  generalize (@nil (string * Json)) (@nil string).
  induction (dict_keys self_status) as [|key rest IH]; intros upd del.
  - reflexivity.
  - destruct (Hfull key (or_introl eq_refl)) as (v & Hv & Hnone).
    simpl. rewrite Hv, Hnone. unfold json_neb.
    rewrite (Hvals key v Hv). simpl.
    apply IH. intros k Hk. apply Hfull. now right.
Qed.

(** C7. [diff] does not put a key that the new snapshot lacks in the delete
    list: it raises [KeyError].  The first snapshot of a device without GPIO
    utility lacks ['gpio-pins'], a key of the placeholder of [__init__], so
    the very first diff raises instead of returning
    [(updateMap, deleteList)] with ['gpio-pins'] deleted. *)
Theorem diff_absent_key_raises :
  diff initial_status initial_status Examples.snapshot_without_gpio
  = Raise (KeyError "gpio-pins").
Proof. reflexivity. Qed.

(** C10. When the remote update of [update_status] raises, the exception
    leaves the method with [self.status] and the shared status file as they
    were; the next diff is therefore computed against the same last
    published snapshot, and every key whose next value differs from it is in
    the next update map with that value. *)
Theorem update_status_put_failure_keeps_state
    (env : Probe) (s : State) (new_status all_status upd : Dict)
    (del : list string) (e : Exn) :
  get_status env = Ok (new_status, all_status) ->
  diff (status s) (status s) new_status = Ok (upd, del) ->
  cimi_put env (nb_status_id s) (published env s upd) = Raise e ->
  exists s',
    update_status env s = (Raise e, s') /\
    status s' = status s /\
    nuvlabox_status_file s' = nuvlabox_status_file s /\
    diff (status s') (status s') new_status = Ok (upd, del) /\
    forall next k,
      covers (dict_keys (status s)) (status s) next ->
      In k (dict_keys (status s)) ->
      changed (status s) next k = true ->
      exists upd' del',
        diff (status s') (status s') next = Ok (upd', del') /\
        dict_get k upd' = dict_get k next.
Proof.
  intros Hget Hdiff Hput.
  unfold update_status, bind, lift, get, modify.
  rewrite Hget, Hdiff. simpl.
  rewrite Hput.
  eexists. split; [reflexivity|]. simpl.
  repeat split; auto.
  intros next k Hcov Hk Hch.
  destruct (diff_spec (status s) (status s) next Hcov) as (upd' & del' & Hd & Hkeys).
  exists upd', del'. split; auto.
  now apply (Hkeys k Hk).
Qed.

Lemma update_status_put_failure_witness :
  exists s',
    update_status Examples.failing_put (init Examples.status_id)
    = (Raise (Exception "timed out"), s') /\
    status s' = initial_status /\
    nuvlabox_status_file s' = None.
Proof.
  edestruct (update_status_put_failure_keeps_state
               Examples.failing_put (init Examples.status_id))
    as (s' & Hrun & Hst & Hfile & _).
  - reflexivity.
  - vm_compute. reflexivity.
  - reflexivity.
  - exists s'. repeat split; assumption.
Defined.

End TelemetrySpec.


(** ** AgentApi: the peripheral store *)

Module AgentApiSpec.
Import AgentApi.

Lemma exists_lookup (name : string) (w : World) :
  local_peripheral_exists name w = true <-> is_Some (files w !! name).
Proof.
  unfold local_peripheral_exists.
  destruct (files w !! name); split; intros H; auto.
  - discriminate.
  - destruct H; discriminate.
Qed.

Lemma truthy_dict (p : Dict) : p <> [] -> truthy (JDict p) = true.
Proof. destruct p; [congruence | reflexivity]. Qed.

(** A payload whose identifier has a local record is rejected with status
    400 before anything is sent to the remote service. *)
Lemma post_conflict (env : Env) (p : Dict) (ident : Json) (w : World) :
  p <> [] ->
  dict_get "identifier" p = Some ident ->
  local_peripheral_exists (str_of env ident) w = true ->
  exists w',
    post env (JDict p) w = (Ok (conflict_reply (str_of env ident)), w') /\
    calls w' = calls w /\ files w' = files w.
Proof.
  intros Hne Hid Hex. unfold post.
  rewrite (truthy_dict p Hne). cbn [negb is_dict orb as_dict]. rewrite Hid.
  run_api. rewrite Hex. simpl.
  eexists. split; [reflexivity|]. simpl. auto.
Qed.

(** A create that goes through: the remote service accepts the completed
    payload and the record is written.  The reply is the remote answer, the
    record holds the payload with the remote id, and one remote call was
    made. *)
Lemma post_success (env : Env) (p posted data : Dict) (ident rid st : Json)
    (w : World) :
  p <> [] ->
  dict_get "identifier" p = Some ident ->
  local_peripheral_exists (str_of env ident) w = false ->
  complete env p = Ok posted ->
  api_add env (calls w) nuvla_resource posted = Ok data ->
  dict_get "resource-id" data = Some rid ->
  dict_get "status" data = Some st ->
  save_outcome env (calls w ++ [CallAdd nuvla_resource posted])
               (str_of env ident) (dict_set "id" rid posted) = Written ->
  exists w',
    post env (JDict p) w = (Ok (JDict data, st), w') /\
    files w' = <[str_of env ident := Holds (JDict (dict_set "id" rid posted))]>
                 (files w) /\
    calls w' = calls w ++ [CallAdd nuvla_resource posted].
Proof.
  intros Hne Hid Hex Hcomp Hadd Hrid Hst Hsave. unfold post.
  rewrite (truthy_dict p Hne). cbn [negb is_dict orb as_dict]. rewrite Hid.
  run_api. rewrite Hex, Hcomp. simpl. rewrite Hadd. simpl.
  unfold subscript. rewrite Hrid. simpl. rewrite Hsave. simpl.
  rewrite Hst. simpl.
  eexists. split; [reflexivity|]. simpl. auto.
Qed.

(** C6, as the code has it.  When a first create of a payload went through
    (the remote service accepted it and its record was written), a second
    create with the same identifier is rejected with status 400 and makes no
    remote call. *)
Theorem second_post_conflicts (env : Env) (p p2 posted data : Dict)
    (ident rid st : Json) (w : World) :
  p <> [] -> p2 <> [] ->
  dict_get "identifier" p = Some ident ->
  dict_get "identifier" p2 = Some ident ->
  local_peripheral_exists (str_of env ident) w = false ->
  complete env p = Ok posted ->
  api_add env (calls w) nuvla_resource posted = Ok data ->
  dict_get "resource-id" data = Some rid ->
  dict_get "status" data = Some st ->
  save_outcome env (calls w ++ [CallAdd nuvla_resource posted])
               (str_of env ident) (dict_set "id" rid posted) = Written ->
  exists w1 w2,
    post env (JDict p) w = (Ok (JDict data, st), w1) /\
    post env (JDict p2) w1 = (Ok (conflict_reply (str_of env ident)), w2) /\
    calls w2 = calls w1 /\
    calls w1 = calls w ++ [CallAdd nuvla_resource posted].
Proof.
  intros Hne Hne2 Hid Hid2 Hex Hcomp Hadd Hrid Hst Hsave.
  destruct (post_success env p posted data ident rid st w)
    as (w1 & Hpost & Hfiles & Hcalls); auto.
  assert (Hex1 : local_peripheral_exists (str_of env ident) w1 = true).
  { apply exists_lookup. rewrite Hfiles, lookup_insert_eq. eauto. }
  destruct (post_conflict env p2 ident w1 Hne2 Hid2 Hex1)
    as (w2 & Hpost2 & Hcalls2 & _).
  exists w1, w2. auto.
Qed.

Lemma second_post_conflicts_witness :
  exists w1 w2,
    post Examples.store_ok (JDict Examples.usb_payload) Examples.empty_world
    = (Ok (JDict Examples.created, JNum 201), w1) /\
    post Examples.store_ok (JDict Examples.usb_record) w1
    = (Ok (conflict_reply "usb-1"), w2) /\
    calls w2 = calls w1 /\
    calls w1 = [CallAdd nuvla_resource Examples.usb_posted].
Proof.
  apply (second_post_conflicts Examples.store_ok Examples.usb_payload
           Examples.usb_record Examples.usb_posted Examples.created
           (JStr "usb-1") (JStr "nuvlabox-peripheral/1") (JNum 201)
           Examples.empty_world);
    solve [discriminate | reflexivity | vm_compute; reflexivity].
Defined.

(** C6, as stated, fails when the first create did not go through: the
    remote service refused it, no record was written, and the second create
    calls the remote service again instead of reporting a conflict. *)
Lemma second_post_after_refused_create :
  let env := Examples.store_remote_unavailable in
  let w1 := snd (post env (JDict Examples.usb_payload) Examples.empty_world) in
  let second := post env (JDict Examples.usb_payload) w1 in
  fst second = Ok (Examples.unavailable, status_code 503) /\
  fst second <> Ok (conflict_reply "usb-1") /\
  calls (snd second) = [CallAdd nuvla_resource Examples.usb_posted;
                        CallAdd nuvla_resource Examples.usb_posted].
Proof.
  vm_compute. repeat split; try reflexivity. discriminate.
Qed.

(** C4. The record file cannot be created after a successful remote create
    and the compensating remote delete fails with an exception that is not a
    [NuvlaError]: the delete was issued once, for the id just assigned, but
    its exception leaves [post]; the caller gets neither the persistence
    error nor any reply. *)
Theorem post_compensation_failure_escapes :
  let run := post Examples.store_save_and_delete_fail
                  (JDict Examples.usb_payload) Examples.empty_world in
  fst run = Raise (Exception "Connection refused") /\
  calls (snd run) = [CallAdd nuvla_resource Examples.usb_posted;
                     CallDelete (JStr "nuvlabox-peripheral/1")].
Proof. vm_compute. split; reflexivity. Qed.

(** The sibling path: when the failed write left a file behind, [delete]
    goes through its other branch, which catches every exception, and
    [post] surfaces the persistence error with status 500. *)
Lemma post_compensation_failure_logged_when_file_left :
  let run := post Examples.store_write_and_delete_fail
                  (JDict Examples.usb_payload) Examples.empty_world in
  fst run = Ok (error_body "Unable to fulfill request: No space left on device",
                status_code 500) /\
  calls (snd run) = [CallAdd nuvla_resource Examples.usb_posted;
                     CallDelete (JStr "nuvlabox-peripheral/1")].
Proof. vm_compute. split; reflexivity. Qed.

(** [delete] on an existing record whose remote delete raises. *)
Lemma delete_failure_step (env : Env) (ident explicit : Json) (w : World)
    (e : Exn) :
  let name := str_of env ident in
  let rid := resolved_id name explicit w in
  local_peripheral_exists name w = true ->
  truthy rid = true ->
  api_delete env (calls w) rid = Raise e ->
  exists w',
    delete env ident explicit w
    = (Ok (if is_not_found e then deleted_reply name else surfaced env name e),
       w') /\
    files w' = (if is_not_found e then base.delete name (files w) else files w) /\
    calls w' = calls w ++ [CallDelete rid].
Proof.
  intros name rid Hex Htr Hdel.
  unfold delete. fold name. run_api. rewrite Hex. simpl.
  fold (resolved_id name explicit w). fold rid. rewrite Htr, Hdel.
  apply exists_lookup in Hex as [d Hd].
  destruct e as [k | | | | | code body | what]; simpl;
    try (eexists; split; [reflexivity|]; simpl; auto).
  destruct (Z.eqb code 404) eqn:Hcode; simpl.
  - rewrite Hd. simpl. eexists; split; [reflexivity|]; simpl; auto.
  - eexists; split; [reflexivity|]; simpl; auto.
Qed.

(** [delete] on an existing record whose remote delete succeeds: the record
    is removed, whatever the answer holds. *)
Lemma delete_success_step (env : Env) (ident explicit : Json) (w : World)
    (data : Dict) :
  let name := str_of env ident in
  let rid := resolved_id name explicit w in
  local_peripheral_exists name w = true ->
  truthy rid = true ->
  api_delete env (calls w) rid = Ok data ->
  exists reply w',
    delete env ident explicit w = (Ok reply, w') /\
    files w' = base.delete name (files w) /\
    calls w' = calls w ++ [CallDelete rid].
Proof.
  intros name rid Hex Htr Hdel.
  unfold delete. fold name. run_api. rewrite Hex. simpl.
  fold (resolved_id name explicit w). fold rid. rewrite Htr, Hdel. simpl.
  apply exists_lookup in Hex as [d Hd]. rewrite Hd. simpl.
  unfold subscript. destruct (dict_get "status" data); simpl;
    do 2 eexists; (split; [reflexivity|]); simpl; auto.
Qed.

(** C5. Deleting an identifier whose record exists, when the remote delete
    fails: on "not found" (status 404) the record is removed and the call
    reports success; on any other failure the record is kept as it was and
    the failure is reported to the caller.  One remote delete is made. *)
Theorem delete_remote_failure (env : Env) (ident explicit : Json) (w : World)
    (e : Exn) :
  let name := str_of env ident in
  let rid := resolved_id name explicit w in
  local_peripheral_exists name w = true ->
  truthy rid = true ->
  api_delete env (calls w) rid = Raise e ->
  exists w',
    delete env ident explicit w
    = (Ok (if is_not_found e then deleted_reply name else surfaced env name e),
       w') /\
    files w' = (if is_not_found e then base.delete name (files w) else files w) /\
    calls w' = calls w ++ [CallDelete rid].
Proof. exact (delete_failure_step env ident explicit w e). Qed.

Lemma delete_remote_failure_witness :
  exists w',
    delete Examples.store_delete_not_found (JStr "usb-1") JNull
           Examples.usb_registered
    = (Ok (deleted_reply "usb-1"), w') /\
    files w' = base.delete "usb-1" (files Examples.usb_registered) /\
    calls w' = [CallDelete (JStr "nuvlabox-peripheral/1")].
Proof.
  apply (delete_remote_failure Examples.store_delete_not_found (JStr "usb-1")
           JNull Examples.usb_registered
           (NuvlaError 404 (JDict [("message", JStr "not found")])));
    vm_compute; reflexivity.
Defined.

(** C8, as the code has it.  After a create that went through, deleting the
    identifier makes exactly one remote delete, for the id the create was
    given; no local record is left when that delete succeeds or reports
    "not found", and the record is kept when it fails otherwise. *)
Theorem post_then_delete (env : Env) (p posted data : Dict)
    (ident rid st : Json) (w : World) :
  let name := str_of env ident in
  let record := dict_set "id" rid posted in
  p <> [] ->
  dict_get "identifier" p = Some ident ->
  local_peripheral_exists name w = false ->
  complete env p = Ok posted ->
  api_add env (calls w) nuvla_resource posted = Ok data ->
  dict_get "resource-id" data = Some rid ->
  dict_get "status" data = Some st ->
  save_outcome env (calls w ++ [CallAdd nuvla_resource posted]) name record
  = Written ->
  truthy rid = true ->
  exists w1 reply w2,
    post env (JDict p) w = (Ok (JDict data, st), w1) /\
    delete env ident JNull w1 = (Ok reply, w2) /\
    calls w2 = calls w ++ [CallAdd nuvla_resource posted; CallDelete rid] /\
    files w2 !! name =
      if remote_gone (api_delete env (calls w1) rid) then None
      else Some (Holds (JDict record)).
Proof.
  intros name record Hne Hid Hex Hcomp Hadd Hrid Hst Hsave Htr.
  subst name record.
  destruct (post_success env p posted data ident rid st w)
    as (w1 & Hpost & Hfiles & Hcalls); auto.
  set (name := str_of env ident) in *.
  set (record := dict_set "id" rid posted) in *.
  assert (Hlook : files w1 !! name = Some (Holds (JDict record)))
    by (rewrite Hfiles; apply lookup_insert_eq).
  assert (Hex1 : local_peripheral_exists name w1 = true)
    by (apply exists_lookup; rewrite Hlook; eauto).
  assert (Hres : resolved_id name JNull w1 = rid).
  { unfold resolved_id, local_peripheral_get_identifier. simpl.
    rewrite Hlook. unfold record. now rewrite PyFacts.dict_get_set_eq. }
  assert (Htr1 : truthy (resolved_id name JNull w1) = true) by now rewrite Hres.
  exists w1.
  destruct (api_delete env (calls w1) rid) as [answer|e] eqn:Hdel.
  - rewrite <- Hres in Hdel.
    destruct (delete_success_step env ident JNull w1 answer Hex1 Htr1 Hdel)
      as (reply & w2 & Hrun & Hf2 & Hc2).
    fold name in Hf2, Hc2. rewrite Hres in Hc2.
    exists reply, w2. split; [exact Hpost|]. split; [exact Hrun|]. split.
    + rewrite Hc2, Hcalls, <- app_assoc. reflexivity.
    + simpl. rewrite Hf2. apply lookup_delete_eq.
  - rewrite <- Hres in Hdel.
    destruct (delete_failure_step env ident JNull w1 e Hex1 Htr1 Hdel)
      as (w2 & Hrun & Hf2 & Hc2).
    fold name in Hf2, Hc2. rewrite Hres in Hc2.
    eexists _, w2. split; [exact Hpost|]. split; [exact Hrun|]. split.
    + rewrite Hc2, Hcalls, <- app_assoc. reflexivity.
    + simpl. rewrite Hf2.
      destruct (is_not_found e); [apply lookup_delete_eq | exact Hlook].
Qed.

Lemma post_then_delete_witness :
  exists w1 reply w2,
    post Examples.store_ok (JDict Examples.usb_payload) Examples.empty_world
    = (Ok (JDict Examples.created, JNum 201), w1) /\
    delete Examples.store_ok (JStr "usb-1") JNull w1 = (Ok reply, w2) /\
    calls w2 = [CallAdd nuvla_resource Examples.usb_posted;
                CallDelete (JStr "nuvlabox-peripheral/1")] /\
    files w2 !! "usb-1" = None.
Proof.
  apply (post_then_delete Examples.store_ok Examples.usb_payload
           Examples.usb_posted Examples.created
           (JStr "usb-1") (JStr "nuvlabox-peripheral/1") (JNum 201)
           Examples.empty_world);
    solve [discriminate | reflexivity | vm_compute; reflexivity].
Defined.

(** C8, as stated, fails when the remote delete fails with another status
    than 404: the local record is kept so that the delete can be retried. *)
Lemma post_then_failed_delete_keeps_record :
  let env := Examples.store_delete_fails in
  let w1 := snd (post env (JDict Examples.usb_payload) Examples.empty_world) in
  let w2 := snd (delete env (JStr "usb-1") JNull w1) in
  files w2 !! "usb-1" = Some (Holds (JDict Examples.usb_record)) /\
  calls w2 = [CallAdd nuvla_resource Examples.usb_posted;
              CallDelete (JStr "nuvlabox-peripheral/1")].
Proof. vm_compute. split; reflexivity. Qed.

(** The loop of [find] keeps, in the order of the search, the base names of
    the paths that pass the filter, when it can look into each path it has
    to open. *)
Lemma find_loop_spec (parameter : option string) (value : Json)
    (entries : list (string * FileData)) :
  negb (given parameter && truthy value) ||
  forallb (fun entry => inspectable (snd entry)) entries = true ->
  forall matched,
    find_loop parameter value entries matched
    = Ok (matched ++
          map (fun entry => basename (fst entry))
              (List.filter
                 (fun entry => record_matches parameter value (snd entry))
                 entries)).
Proof.
  induction entries as [|[name d] rest IH]; intros Hok matched; simpl.
  - now rewrite app_nil_r.
  - unfold record_matches at 1.
    destruct (given parameter && truthy value) eqn:Hfilter; simpl in *.
    + apply andb_true_iff in Hok as [Hd Hrest].
      destruct d as [| |[| | | | |fields]]; try discriminate; simpl.
      * apply IH. exact Hrest.
      * unfold dict_mem, subscript.
        destruct (dict_get (str_arg parameter) fields) as [v|]; simpl.
        -- destruct (json_eqb v value); simpl.
           ++ rewrite IH by exact Hrest. now rewrite <- app_assoc.
           ++ apply IH. exact Hrest.
        -- apply IH. exact Hrest.
    + rewrite IH by reflexivity. now rewrite <- app_assoc.
Qed.

Lemma NoDup_names_filter (f : string * FileData -> bool)
    (l : list (string * FileData)) :
  List.NoDup (map fst l) -> List.NoDup (map fst (List.filter f l)).
Proof.
  induction l as [|x l IH]; simpl; intros Hnd; [constructor|].
  inversion Hnd as [|? ? Hnotin Hnd']; subst.
  destruct (f x); simpl; auto.
  constructor; auto.
  intros Hin. apply Hnotin.
  apply in_map_iff in Hin as (y & Hy & Hin).
  apply filter_In in Hin as [Hin _].
  apply in_map_iff. now exists y.
Qed.

(** The path of an entry of the peripherals directory ends with its
    name. *)
Lemma holds_slash_app (dir name : string) :
  holds_char slash (dir +:+ String slash name) = true.
Proof.
  induction dir as [|c dir IH].
  - change (EmptyString +:+ String slash name) with (String slash name).
    cbn [holds_char]. now rewrite Ascii.eqb_refl.
  - change (String c dir +:+ String slash name)
      with (String c (dir +:+ String slash name)).
    cbn [holds_char]. rewrite IH. apply orb_true_r.
Qed.

Lemma basename_filepath (env : Env) (name : string) :
  holds_char slash name = false ->
  basename (filepath env name) = name.
Proof.
  intros Hname. unfold filepath.
  change (peripherals_dir env +:+ "/" +:+ name)
    with (peripherals_dir env +:+ String slash name).
  induction (peripherals_dir env) as [|c dir IH].
  - change (EmptyString +:+ String slash name) with (String slash name).
    cbn [basename]. rewrite Hname. now rewrite Ascii.eqb_refl.
  - change (String c dir +:+ String slash name)
      with (String c (dir +:+ String slash name)).
    cbn [basename]. rewrite (holds_slash_app dir name). exact IH.
Qed.

Lemma entry_name_no_slash (name : string) :
  entry_name name = true -> holds_char slash name = false.
Proof.
  unfold entry_name. intros H.
  apply andb_true_iff in H as [_ H]. now apply negb_true_iff in H.
Qed.

Lemma listed_entry (env : Env) (pattern : string) (w : World) (n : string)
    (d : FileData) :
  In (n, d) (listed env pattern w) <->
  files w !! n = Some d /\ entry_name n = true /\
  fnmatch env pattern n = true.
Proof.
  unfold listed. rewrite filter_In. simpl.
  rewrite <- list_elem_of_In, elem_of_map_to_list, andb_true_iff.
  reflexivity.
Qed.

Lemma listed_names_NoDup (env : Env) (pattern : string) (w : World) :
  List.NoDup (map fst (listed env pattern w)).
Proof.
  unfold listed. apply NoDup_names_filter.
  replace (map fst (map_to_list (files w))) with ((map_to_list (files w)).*1).
  - apply NoDup_ListNoDup, NoDup_fst_map_to_list.
  - generalize (map_to_list (files w)). intros l.
    induction l as [|x l IH]; [reflexivity|]. cbn. now rewrite IH.
Qed.

(** For a search within the peripherals directory, the base names of the
    paths found are the names of the entries listed. *)
Lemma glob_within (env : Env) (pattern : string) (w : World) :
  within env pattern = true ->
  glob env pattern w
  = map (fun entry => (filepath env (fst entry), snd entry))
        (listed env pattern w).
Proof. intros H. unfold glob. now rewrite H. Qed.

Lemma listed_base_names (env : Env) (pattern : string) (w : World)
    (f : FileData -> bool) :
  map (fun entry => basename (fst entry))
      (List.filter (fun entry => f (snd entry))
         (map (fun entry => (filepath env (fst entry), snd entry))
              (listed env pattern w)))
  = map fst (List.filter (fun entry => f (snd entry)) (listed env pattern w)).
Proof.
  assert (H : forall n d, In (n, d) (listed env pattern w) ->
                          entry_name n = true).
  { intros n d Hin. now apply listed_entry in Hin as (_ & Hn & _). }
  induction (listed env pattern w) as [|[n d] l IH]; [reflexivity|].
  simpl. destruct (f d); simpl.
  - rewrite basename_filepath
      by (apply entry_name_no_slash, (H n d); now left).
    f_equal. apply IH. intros n' d' Hin. apply (H n' d'). now right.
  - apply IH. intros n' d' Hin. apply (H n' d'). now right.
Qed.

(** Three records on eth0, eth1 and eth0: the two on eth0 are found. *)
Lemma find_interface_eth0 :
  exists names,
    fst (find Examples.store_ok (Some "interface") (JStr "eth0") None
              Examples.three_records)
    = Ok (names, status_code 200) /\
    names ≡ₚ ["usb-1"; "usb-3"].
Proof.
  eexists. split; [vm_compute; reflexivity|].
  first [reflexivity | apply Permutation_swap].
Qed.

(** C9.  With one more entry in the directory that cannot be opened, the
    same search does not skip it: [open] is outside the [try] of [find]
    (line 199), its exception leaves the call, and the records on eth0 are
    not reported. *)
Theorem find_unopenable_record_raises :
  fst (find Examples.store_ok (Some "interface") (JStr "eth0") None
            Examples.with_unopenable)
  = Raise (Exception "OSError").
Proof. vm_compute. reflexivity. Qed.

End AgentApiSpec.

(** ** app.py: the telemetry loop *)

Module AppSpec.
Import App.

(** An exception that leaves a turn leaves the loop: no later turn runs. *)
Lemma raised_turn_ends_loop (envs : nat -> CycleEnv) (k : nat) (st s' : State)
    (e : Exn) :
  cycle (envs k) st = (Raise e, s') ->
  forall n, telemetry_loop (S n) envs k st = (Raise e, s').
Proof. intros H n. simpl. unfold bind. now rewrite H. Qed.

(** The collaborators of steps 2, 4 and 6 are called outside any [try]. *)
Lemma configuration_error (env : CycleEnv) (st : State) (e : Exn) :
  get_nuvlabox_info env = Raise e ->
  exists s', fetch_configuration env st = (Raise e, s').
Proof. intros H. unfold fetch_configuration. run_app. rewrite H. eauto. Qed.

Lemma publish_error (env : CycleEnv) (st : State) (e : Exn) :
  update_status env = Raise e ->
  exists s', publish env st = (Raise e, s').
Proof. intros H. unfold publish. run_app. rewrite H. eauto. Qed.

Lemma commissioning_error (env : CycleEnv) (st : State) (e : Exn) :
  try_commission env = Raise e ->
  exists s', commissioning_check env st = (Raise e, s').
Proof. intros H. unfold commissioning_check. run_app. rewrite H. eauto. Qed.

(** C2, as the code has it.  An exception raised by one of the steps 2 to 6
    of a turn (other than by [job.launch()], which the job loop catches) is
    not caught: the turn stops in the state that step left, no later step of
    the turn runs, and the exception leaves the loop, so that no later turn
    runs either. *)
Theorem step_error_leaves_loop (envs : nat -> CycleEnv) (k : nat)
    (st s' : State) (e : Exn) :
  StepRaises (envs k) st e s' ->
  cycle (envs k) st = (Raise e, s') /\
  forall n, telemetry_loop (S n) envs k st = (Raise e, s').
Proof.
  intros H.
  assert (Hc : cycle (envs k) st = (Raise e, s')).
  { unfold cycle, bind.
    destruct H as [s' H1 | res s1 s' H1 H2 | res s1 s2 s' H1 H2 H3
                  | res s1 s2 response s3 s' H1 H2 H3 H4
                  | res s1 s2 response s3 s4 s' H1 H2 H3 H4 H5];
      rewrite H1; auto; rewrite H2; auto; rewrite H3; auto;
      rewrite H4; auto; rewrite H5; auto. }
  split; [exact Hc|]. now apply raised_turn_ends_loop.
Qed.

Lemma step_error_leaves_loop_witness :
  exists s',
    cycle Examples.turn_publish_fails initial
    = (Raise (Exception "timed out"), s') /\
    forall n,
      telemetry_loop (S n) (fun _ => Examples.turn_publish_fails) 0 initial
      = (Raise (Exception "timed out"), s').
Proof.
  eexists.
  apply (step_error_leaves_loop (fun _ => Examples.turn_publish_fails) 0
           initial).
  eapply publish_raises; vm_compute; reflexivity.
Defined.

(** C2, as stated, fails: when the publication of the first turn times out,
    the commissioning check of that turn is not run and the loop is left
    before a second turn starts. *)
Lemma publish_timeout_ends_loop :
  let run := telemetry_loop 2 (fun _ => Examples.turn_publish_fails) 0 initial in
  fst run = Raise (Exception "timed out") /\
  events (snd run)
  = [GetNuvlaboxInfo; CreateNbDocumentFile Examples.resource; UpdateStatus].
Proof. vm_compute. split; reflexivity. Qed.

(** A response that is not a dict has no [get]: the dispatch raises. *)
Lemma dispatch_None_raises (env : CycleEnv) (st : State) :
  dispatch env JNull st = (Raise AttributeError, st).
Proof. reflexivity. Qed.

(** [Telemetry.update_status] returns [None] whenever it returns. *)
Lemma update_status_returns_None (probe : Telemetry.Probe)
    (s s' : Telemetry.State) (r : Json) :
  Telemetry.update_status probe s = (Ok r, s') -> r = JNull.
Proof.
  unfold Telemetry.update_status, Telemetry.write_file, bind, lift, get,
         modify, ret, raise.
  destruct (Telemetry.get_status probe) as [[new_status all_status]|e];
    [|discriminate].
  destruct (Telemetry.diff _ _ new_status) as [[upd del]|e]; [|discriminate].
  simpl. destruct (Telemetry.cimi_put probe _ _) as [[]|e]; [|discriminate].
  destruct (Telemetry.write_status_file probe); simpl; intros H;
    inversion H; reflexivity.
Qed.

(** However they end, the steps of a turn up to the publication make only
    the calls that come before the dispatch. *)
Lemma fetch_configuration_events (env : CycleEnv) (st : State) :
  exists evs,
    events (snd (fetch_configuration env st)) = events st ++ evs /\
    forallb before_dispatch evs = true.
Proof.
  unfold fetch_configuration. run_app.
  destruct (get_nuvlabox_info env) as [r|e]; simpl;
    [|now exists [GetNuvlaboxInfo]].
  unfold subscript.
  destruct (dict_get "updated" r) as [u|]; simpl;
    [|now exists [GetNuvlaboxInfo]].
  destruct (json_neb _ u); simpl; [|now exists [GetNuvlaboxInfo]].
  destruct (dict_get "refresh-interval" r) as [v|]; simpl;
    [|now exists [GetNuvlaboxInfo]].
  exists [GetNuvlaboxInfo; CreateNbDocumentFile r].
  destruct (create_nb_document_file env r) as [[]|e]; simpl;
    now rewrite <- app_assoc.
Qed.

Lemma credential_watch_events (env : CycleEnv) (res : Dict) (st : State) :
  exists evs,
    events (snd (credential_watch env res st)) = events st ++ evs /\
    forallb before_dispatch evs = true.
Proof.
  unfold credential_watch, method_get. run_app.
  destruct (truthy _); simpl.
  - eexists. split; reflexivity.
  - exists []. now rewrite app_nil_r.
Qed.

Lemma publish_events (env : CycleEnv) (st : State) :
  events (snd (publish env st)) = events st ++ [UpdateStatus].
Proof.
  unfold publish. run_app. destruct (update_status env); reflexivity.
Qed.

(** Driven by [Telemetry.update_status], a turn ends in an exception at
    line 215 at the latest: it has made only calls that come before the
    dispatch, so that no job is built or launched, the commissioning check
    is not made and no wait is computed. *)
Lemma turn_with_telemetry_stops_at_dispatch (env : CycleEnv)
    (probe : Telemetry.Probe) (ts : Telemetry.State) (st : State) :
  update_status env = fst (Telemetry.update_status probe ts) ->
  exists e s' evs,
    cycle env st = (Raise e, s') /\
    events s' = events st ++ evs /\
    forallb before_dispatch evs = true.
Proof.
  intros Hup. unfold cycle, bind.
  destruct (fetch_configuration_events env st) as (ev1 & He1 & Hb1).
  destruct (fetch_configuration env st) as [[res|e1] s1]; simpl in He1;
    [|now exists e1, s1, ev1].
  destruct (credential_watch_events env res s1) as (ev2 & He2 & Hb2).
  destruct (credential_watch env res s1) as [[[]|e2] s2]; simpl in He2.
  - pose proof (publish_events env s2) as He3.
    assert (Hr : forall r s3, publish env s2 = (Ok r, s3) -> r = JNull).
    { unfold publish. run_app. rewrite Hup.
      destruct (Telemetry.update_status probe ts) as [[r0|e0] ts'] eqn:Ht;
        simpl; intros r s3 H; inversion H; subst.
      now apply update_status_returns_None in Ht. }
    destruct (publish env s2) as [[response|e3] s3]; simpl in He3.
    + rewrite (Hr response s3 eq_refl). rewrite dispatch_None_raises.
      exists AttributeError, s3, (ev1 ++ ev2 ++ [UpdateStatus]).
      split; [reflexivity|]. split.
      * now rewrite He3, He2, He1, <- !app_assoc.
      * now rewrite !forallb_app, Hb1, Hb2.
    + exists e3, s3, (ev1 ++ ev2 ++ [UpdateStatus]).
      split; [reflexivity|]. split.
      * now rewrite He3, He2, He1, <- !app_assoc.
      * now rewrite !forallb_app, Hb1, Hb2.
  - exists e2, s2, (ev1 ++ ev2). split; [reflexivity|]. split.
    + now rewrite He2, He1, <- app_assoc.
    + now rewrite forallb_app, Hb1, Hb2.
Qed.

(** C1.  The first turn on a healthy device, with a refresh interval of 10
    seconds and whatever the turn lasts (1 second, 6 seconds): the
    publication goes through and [Telemetry.update_status] returns [None];
    [response.get] then raises on line 215, so that lines 230 to 235 are
    not reached: no wait is computed, neither 8 nor 0, nothing is handed to
    [e.wait], and the exception leaves the loop before a second turn. *)
Theorem healthy_turn_computes_no_wait (duration : Q) :
  let run :=
    telemetry_loop 2 (fun _ => Cases.healthy_turn duration Examples.no_job)
                   0 initial in
  Cases.first_publication = Ok JNull /\
  fst run = Raise AttributeError /\
  refresh_interval (snd run) = JNum 10 /\
  events (snd run)
  = [GetNuvlaboxInfo; CreateNbDocumentFile Examples.resource; UpdateStatus].
Proof. vm_compute. repeat split; reflexivity. Qed.

(** C3.  The same turn, with a job-engine-lite image configured and jobs
    that could all be built: the publication goes through, but
    [Telemetry.update_status] has no [return], the response the loop gets
    is [None] and [response.get('jobs')] raises on line 215.  No job id is
    handed over, no job is built or launched, and the exception leaves the
    loop. *)
Theorem published_jobs_are_not_dispatched :
  let env := Cases.healthy_turn 1 Examples.first_launch_fails in
  let run := telemetry_loop 2 (fun _ => env) 0 initial in
  Cases.first_publication = Ok JNull /\
  truthy (job_engine_lite_image env) = true /\
  fst run = Raise AttributeError /\
  events (snd run)
  = [GetNuvlaboxInfo; CreateNbDocumentFile Examples.resource; UpdateStatus] /\
  log (snd run) = [LogRefreshInterval (JNum 10)].
Proof. vm_compute. repeat split; reflexivity. Qed.

End AppSpec.

(** ** The peripheral store: validation, failures, frame *)

Module StoreProps.
Import AgentApi StoreWords AgentApiSpec.

(** X1. A payload that is not a non-empty dict with an ['identifier'] is
    answered with status 400 and an error message; nothing is sent to the
    remote service and no record file is touched. *)
Theorem post_rejects_invalid_payload (env : Env) (payload : Json) (w : World) :
  valid_payload payload = false ->
  exists msg w',
    post env payload w = (Ok (error_body msg, status_code 400), w') /\
    files w' = files w /\ calls w' = calls w.
Proof.
  intros Hinv. unfold post.
  destruct (negb (truthy payload) || negb (is_dict payload)) eqn:Hshape.
  - run_api. do 2 eexists. split; [reflexivity|]. simpl. auto.
  - apply orb_false_iff in Hshape as [Ht Hd].
    apply negb_false_iff in Ht, Hd.
    unfold valid_payload in Hinv. rewrite Ht, Hd in Hinv. simpl in Hinv.
    unfold dict_mem in Hinv.
    destruct (dict_get "identifier" (as_dict payload)); [discriminate|].
    run_api. do 2 eexists. split; [reflexivity|]. simpl. auto.
Qed.

Lemma post_rejects_invalid_payload_witness :
  exists msg w',
    post Examples.store_ok (JDict []) Examples.usb_registered
    = (Ok (error_body msg, status_code 400), w') /\
    files w' = files Examples.usb_registered /\
    calls w' = calls Examples.usb_registered.
Proof.
  apply (post_rejects_invalid_payload Examples.store_ok (JDict [])
           Examples.usb_registered).
  reflexivity.
Defined.

(** X2. When the remote create fails, [post] makes that one remote call,
    writes no record, and answers with the status code and body of the
    remote error, or with status 500 when the failure is not a remote
    answer. *)
Theorem post_remote_refusal (env : Env) (p posted : Dict) (ident : Json)
    (w : World) (e : Exn) :
  p <> [] ->
  dict_get "identifier" p = Some ident ->
  local_peripheral_exists (str_of env ident) w = false ->
  complete env p = Ok posted ->
  api_add env (calls w) nuvla_resource posted = Raise e ->
  exists w',
    post env (JDict p) w = (Ok (refusal_reply env e), w') /\
    files w' = files w /\
    calls w' = calls w ++ [CallAdd nuvla_resource posted].
Proof.
  intros Hne Hid Hex Hcomp Hadd. unfold post.
  rewrite (truthy_dict p Hne). cbn [negb is_dict orb as_dict]. rewrite Hid.
  run_api. rewrite Hex, Hcomp. simpl. rewrite Hadd.
  destruct e; simpl; eexists; (split; [reflexivity|]); simpl; auto.
Qed.

Lemma post_remote_refusal_witness :
  exists w',
    post Examples.store_remote_unavailable (JDict Examples.usb_payload)
         Examples.empty_world
    = (Ok (Examples.unavailable, status_code 503), w') /\
    files w' = files Examples.empty_world /\
    calls w' = [CallAdd nuvla_resource Examples.usb_posted].
Proof.
  apply (post_remote_refusal Examples.store_remote_unavailable
           Examples.usb_payload Examples.usb_posted (JStr "usb-1")
           Examples.empty_world (NuvlaError 503 Examples.unavailable));
    solve [discriminate | reflexivity | vm_compute; reflexivity].
Defined.

Lemma dict_get_set (k k' : string) (v : Json) (d : Dict) :
  dict_get k' (dict_set k v d)
  = if String.eqb k' k then Some v else dict_get k' d.
Proof.
  destruct (String.eqb_spec k' k) as [->|Hne].
  - apply PyFacts.dict_get_set_eq.
  - apply PyFacts.dict_get_set_ne. congruence.
Qed.

Lemma dict_mem_set (k k' : string) (v : Json) (d : Dict) :
  dict_mem k' (dict_set k v d) = String.eqb k' k || dict_mem k' d.
Proof.
  unfold dict_mem. rewrite dict_get_set.
  now destruct (String.eqb k' k).
Qed.

Lemma complete_keeps_fields (env : Env) (p posted : Dict) :
  complete env p = Ok posted ->
  (forall k v, dict_get k p = Some v -> dict_get k posted = Some v) /\
  (dict_mem "parent" p = false ->
   dict_get "parent" posted = Some (nuvlabox_id env)) /\
  (dict_mem "version" p = false ->
   exists v, default_version env = Ok v /\ dict_get "version" posted = Some v) /\
  (forall k, dict_mem k posted = true ->
             dict_mem k p = true \/ k = "parent" \/ k = "version").
Proof.
  unfold complete. intros H.
  destruct (dict_mem "parent" p) eqn:Hparent; simpl in H.
  - destruct (dict_mem "version" p) eqn:Hversion; simpl in H.
    + inversion H; subst. repeat split; auto; discriminate.
    + destruct (default_version env) as [version|e]; [|discriminate].
      inversion H; subst. repeat split.
      * intros k v Hk. rewrite dict_get_set.
        destruct (String.eqb_spec k "version") as [->|_]; auto.
        unfold dict_mem in Hversion. now rewrite Hk in Hversion.
      * discriminate.
      * intros _. exists version. split; auto. apply PyFacts.dict_get_set_eq.
      * intros k. rewrite dict_mem_set.
        destruct (String.eqb_spec k "version") as [->|_]; simpl; auto.
  - rewrite dict_mem_set in H.
    destruct (dict_mem "version" p) eqn:Hversion; simpl in H.
    + inversion H; subst. repeat split.
      * intros k v Hk. rewrite dict_get_set.
        destruct (String.eqb_spec k "parent") as [->|_]; auto.
        unfold dict_mem in Hparent. now rewrite Hk in Hparent.
      * intros _. apply PyFacts.dict_get_set_eq.
      * discriminate.
      * intros k. rewrite dict_mem_set.
        destruct (String.eqb_spec k "parent") as [->|_]; simpl; auto.
    + destruct (default_version env) as [version|e]; [|discriminate].
      inversion H; subst. repeat split.
      * intros k v Hk. rewrite !dict_get_set.
        destruct (String.eqb_spec k "version") as [->|_].
        { unfold dict_mem in Hversion. now rewrite Hk in Hversion. }
        destruct (String.eqb_spec k "parent") as [->|_]; auto.
        unfold dict_mem in Hparent. now rewrite Hk in Hparent.
      * intros _. rewrite !dict_get_set. reflexivity.
      * intros _. exists version. split; auto. apply PyFacts.dict_get_set_eq.
      * intros k. rewrite !dict_mem_set.
        destruct (String.eqb_spec k "version") as [->|_]; simpl; auto.
        destruct (String.eqb_spec k "parent") as [->|_]; simpl; auto.
Qed.

(** X3. Completing a payload keeps every field the caller gave, with its
    value; it adds ['parent'] (this NuvlaBox) and ['version'] only when the
    caller left them out, and adds no other field. *)
Theorem complete_keeps_caller_fields (env : Env) (p posted : Dict) :
  complete env p = Ok posted ->
  (forall k v, dict_get k p = Some v -> dict_get k posted = Some v) /\
  (dict_mem "parent" p = false ->
   dict_get "parent" posted = Some (nuvlabox_id env)) /\
  (dict_mem "version" p = false ->
   exists v, default_version env = Ok v /\ dict_get "version" posted = Some v) /\
  (forall k, dict_mem k posted = true ->
             dict_mem k p = true \/ k = "parent" \/ k = "version").
Proof. exact (complete_keeps_fields env p posted). Qed.

Lemma complete_keeps_caller_fields_witness :
  (forall k v, dict_get k Examples.usb_payload = Some v ->
               dict_get k Examples.usb_posted = Some v) /\
  (dict_mem "parent" Examples.usb_payload = false ->
   dict_get "parent" Examples.usb_posted
   = Some (nuvlabox_id Examples.store_ok)) /\
  (dict_mem "version" Examples.usb_payload = false ->
   exists v, default_version Examples.store_ok = Ok v /\
             dict_get "version" Examples.usb_posted = Some v) /\
  (forall k, dict_mem k Examples.usb_posted = true ->
             dict_mem k Examples.usb_payload = true \/
             k = "parent" \/ k = "version").
Proof.
  apply (complete_keeps_caller_fields Examples.store_ok Examples.usb_payload
           Examples.usb_posted).
  reflexivity.
Defined.

(** X4. After a create that went through, the record file of the
    identifier holds the posted payload: every field the caller gave other
    than ['id'] with its value, and under ['id'] the id the remote service
    assigned, which is what [local_peripheral_get_identifier] reads back. *)
Theorem post_record_round_trip (env : Env) (p posted data : Dict)
    (ident rid st : Json) (w : World) :
  p <> [] ->
  dict_get "identifier" p = Some ident ->
  local_peripheral_exists (str_of env ident) w = false ->
  complete env p = Ok posted ->
  api_add env (calls w) nuvla_resource posted = Ok data ->
  dict_get "resource-id" data = Some rid ->
  dict_get "status" data = Some st ->
  save_outcome env (calls w ++ [CallAdd nuvla_resource posted])
               (str_of env ident) (dict_set "id" rid posted) = Written ->
  exists w' record,
    post env (JDict p) w = (Ok (JDict data, st), w') /\
    files w' !! str_of env ident = Some (Holds (JDict record)) /\
    local_peripheral_get_identifier (str_of env ident) w' = rid /\
    dict_get "id" record = Some rid /\
    forall k v, k <> "id" -> dict_get k p = Some v -> dict_get k record = Some v.
Proof.
  intros Hne Hid Hex Hcomp Hadd Hrid Hst Hsave.
  destruct (post_success env p posted data ident rid st w)
    as (w' & Hpost & Hfiles & _); auto.
  exists w', (dict_set "id" rid posted).
  assert (Hlook : files w' !! str_of env ident
                  = Some (Holds (JDict (dict_set "id" rid posted))))
    by (rewrite Hfiles; apply lookup_insert_eq).
  split; [exact Hpost|]. split; [exact Hlook|].
  split; [|split].
  - unfold local_peripheral_get_identifier. rewrite Hlook.
    now rewrite PyFacts.dict_get_set_eq.
  - apply PyFacts.dict_get_set_eq.
  - intros k v Hk Hkp. rewrite PyFacts.dict_get_set_ne by congruence.
    destruct (complete_keeps_fields env p posted Hcomp) as [Hkeep _]. auto.
Qed.

Lemma post_record_round_trip_witness :
  exists w' record,
    post Examples.store_ok (JDict Examples.usb_payload) Examples.empty_world
    = (Ok (JDict Examples.created, JNum 201), w') /\
    files w' !! "usb-1" = Some (Holds (JDict record)) /\
    local_peripheral_get_identifier "usb-1" w' = JStr "nuvlabox-peripheral/1" /\
    dict_get "id" record = Some (JStr "nuvlabox-peripheral/1") /\
    forall k v, k <> "id" -> dict_get k Examples.usb_payload = Some v ->
                dict_get k record = Some v.
Proof.
  apply (post_record_round_trip Examples.store_ok Examples.usb_payload
           Examples.usb_posted Examples.created
           (JStr "usb-1") (JStr "nuvlabox-peripheral/1") (JNum 201)
           Examples.empty_world);
    solve [discriminate | reflexivity | vm_compute; reflexivity].
Defined.

(** Deleting an identifier that has no record file, without a remote
    id, is answered with status 404; no remote call is made and nothing is
    changed. *)
Theorem delete_unknown_is_not_found (env : Env) (ident explicit : Json)
    (w : World) :
  local_peripheral_exists (str_of env ident) w = false ->
  truthy explicit = false ->
  exists w',
    delete env ident explicit w
    = (Ok (error_body "Peripheral not found", status_code 404), w') /\
    files w' = files w /\ calls w' = calls w.
Proof.
  intros Hex Htr. unfold delete. run_api. rewrite Hex, Htr. simpl.
  eexists. split; [reflexivity|]. simpl. auto.
Qed.

Lemma delete_unknown_is_not_found_witness :
  exists w',
    delete Examples.store_ok (JStr "usb-7") JNull Examples.usb_registered
    = (Ok (error_body "Peripheral not found", status_code 404), w') /\
    files w' = files Examples.usb_registered /\
    calls w' = calls Examples.usb_registered.
Proof.
  apply (delete_unknown_is_not_found Examples.store_ok (JStr "usb-7") JNull
           Examples.usb_registered); vm_compute; reflexivity.
Defined.

(** [delete] for a missing record file and a remote id, when the remote
    delete gives an answer. *)
Lemma delete_remote_only_step (env : Env) (ident explicit : Json) (w : World) :
  local_peripheral_exists (str_of env ident) w = false ->
  truthy explicit = true ->
  answered (api_delete env (calls w) explicit) = true ->
  exists w',
    delete env ident explicit w
    = (Ok (remote_only_reply (api_delete env (calls w) explicit)), w') /\
    files w' = files w /\
    calls w' = calls w ++ [CallDelete explicit].
Proof.
  intros Hex Htr Hans. unfold delete. run_api. rewrite Hex, Htr. simpl.
  destruct (api_delete env (calls w) explicit) as [data|e]; simpl in *.
  - unfold subscript, dict_mem in *.
    destruct (dict_get "status" data); [|discriminate]. simpl.
    eexists. split; [reflexivity|]. simpl. auto.
  - destruct e; try discriminate. simpl.
    eexists. split; [reflexivity|]. simpl. auto.
Qed.

(** X5. Deleting an identifier that has no record file, with a remote id:
    the remote delete is made, for that id, and its answer is the reply
    (the remote data and status, or the status code and body of the remote
    error); no record file is touched. *)
Theorem delete_remote_only (env : Env) (ident explicit : Json) (w : World) :
  local_peripheral_exists (str_of env ident) w = false ->
  truthy explicit = true ->
  answered (api_delete env (calls w) explicit) = true ->
  exists w',
    delete env ident explicit w
    = (Ok (remote_only_reply (api_delete env (calls w) explicit)), w') /\
    files w' = files w /\
    calls w' = calls w ++ [CallDelete explicit].
Proof. exact (delete_remote_only_step env ident explicit w). Qed.

Lemma delete_remote_only_witness :
  exists w',
    delete Examples.store_ok (JStr "usb-7") (JStr "nuvlabox-peripheral/7")
           Examples.usb_registered
    = (Ok (JDict Examples.deleted, JNum 200), w') /\
    files w' = files Examples.usb_registered /\
    calls w' = [CallDelete (JStr "nuvlabox-peripheral/7")].
Proof.
  apply (delete_remote_only Examples.store_ok (JStr "usb-7")
           (JStr "nuvlabox-peripheral/7") Examples.usb_registered);
    vm_compute; reflexivity.
Defined.

(** X6. Deleting an identifier whose record file holds no usable remote id
    (it cannot be read, or has no ['id']), without an explicit remote id:
    the record file is removed and the call reports success, without any
    remote call. *)
Theorem delete_record_without_remote_id (env : Env) (ident explicit : Json)
    (w : World) :
  let name := str_of env ident in
  local_peripheral_exists name w = true ->
  truthy (resolved_id name explicit w) = false ->
  exists w',
    delete env ident explicit w = (Ok (deleted_reply name), w') /\
    files w' = base.delete name (files w) /\
    calls w' = calls w.
Proof.
  intros name Hex Htr. unfold delete. fold name. run_api.
  rewrite Hex. simpl. fold (resolved_id name explicit w). rewrite Htr.
  apply exists_lookup in Hex as [d Hd]. rewrite Hd. simpl.
  eexists. split; [reflexivity|]. simpl. auto.
Qed.

Lemma delete_record_without_remote_id_witness :
  exists w',
    delete Examples.store_ok (JStr "usb-9") JNull Examples.with_unopenable
    = (Ok (deleted_reply "usb-9"), w') /\
    files w' = base.delete "usb-9" (files Examples.with_unopenable) /\
    calls w' = calls Examples.with_unopenable.
Proof.
  apply (delete_record_without_remote_id Examples.store_ok (JStr "usb-9")
           JNull Examples.with_unopenable); vm_compute; reflexivity.
Defined.

(** X7. Deleting an identifier whose record file exists, when the remote
    delete succeeds: one remote delete is made, for the explicit remote id
    if one is given and else for the id of the record file, and the record
    file is removed.  The reply is the remote data with its ['status']; when
    the remote data has no ['status'] the reply is an error with status 500,
    although both deletions were made. *)
Theorem delete_success (env : Env) (ident explicit : Json) (w : World)
    (data : Dict) :
  let name := str_of env ident in
  let rid := resolved_id name explicit w in
  local_peripheral_exists name w = true ->
  truthy rid = true ->
  api_delete env (calls w) rid = Ok data ->
  exists w',
    delete env ident explicit w = (Ok (success_reply env name data), w') /\
    files w' = base.delete name (files w) /\
    calls w' = calls w ++ [CallDelete rid] /\
    (truthy explicit = true -> rid = explicit).
Proof.
  intros name rid Hex Htr Hdel.
  unfold delete. fold name. run_api. rewrite Hex. simpl.
  fold (resolved_id name explicit w). fold rid. rewrite Htr, Hdel. simpl.
  apply exists_lookup in Hex as [d Hd]. rewrite Hd. simpl.
  unfold success_reply, subscript. destruct (dict_get "status" data); simpl;
    (eexists; split; [reflexivity|]); simpl; repeat split; auto;
    intros He; unfold rid, resolved_id; now rewrite He.
Qed.

Lemma delete_success_witness :
  exists w',
    delete Examples.store_ok (JStr "usb-1") (JStr "nuvlabox-peripheral/old")
           Examples.usb_registered
    = (Ok (JDict Examples.deleted, JNum 200), w') /\
    files w' = base.delete "usb-1" (files Examples.usb_registered) /\
    calls w' = [CallDelete (JStr "nuvlabox-peripheral/old")] /\
    (truthy (JStr "nuvlabox-peripheral/old") = true ->
     JStr "nuvlabox-peripheral/old" = JStr "nuvlabox-peripheral/old").
Proof.
  apply (delete_success Examples.store_ok (JStr "usb-1")
           (JStr "nuvlabox-peripheral/old") Examples.usb_registered
           Examples.deleted); vm_compute; reflexivity.
Defined.

(** [delete] leaves every other record file as it was, whatever happens. *)
Lemma delete_frame (env : Env) (ident explicit : Json) (w : World)
    (other : string) :
  other <> str_of env ident ->
  files (snd (delete env ident explicit w)) !! other = files w !! other.
Proof.
  intros Hother. unfold delete. run_api.
  destruct (local_peripheral_exists (str_of env ident) w) eqn:Hex; simpl.
  - apply exists_lookup in Hex as [d Hd].
    destruct (truthy _) eqn:Htr; simpl.
    + destruct (api_delete env (calls w) _) as [data|e]; simpl.
      * rewrite Hd. simpl. unfold subscript.
        destruct (dict_get "status" data); simpl;
          now rewrite lookup_delete_ne by congruence.
      * destruct e; simpl; auto.
        destruct (Z.eqb status_code0 404); simpl; auto.
        rewrite Hd. simpl. now rewrite lookup_delete_ne by congruence.
    + rewrite Hd. simpl. now rewrite lookup_delete_ne by congruence.
  - destruct (truthy explicit); simpl; auto.
    destruct (api_delete env (calls w) explicit) as [data|e]; simpl.
    + unfold subscript. destruct (dict_get "status" data); simpl; auto.
    + destruct e; simpl; auto.
Qed.

(** [delete] only ever adds remote deletes to the calls made. *)
Lemma delete_calls (env : Env) (ident explicit : Json) (w : World) :
  calls (snd (delete env ident explicit w)) = calls w \/
  exists rid, calls (snd (delete env ident explicit w))
              = calls w ++ [CallDelete rid].
Proof.
  unfold delete. run_api.
  destruct (local_peripheral_exists (str_of env ident) w) eqn:Hex; simpl.
  - apply exists_lookup in Hex as [d Hd].
    destruct (truthy _) eqn:Htr; simpl.
    + right. eexists.
      destruct (api_delete env (calls w) _) as [data|e]; simpl.
      * rewrite Hd. simpl. unfold subscript.
        destruct (dict_get "status" data); simpl; reflexivity.
      * destruct e; simpl; try reflexivity.
        destruct (Z.eqb status_code0 404); simpl; try reflexivity.
        rewrite Hd. reflexivity.
    + left. rewrite Hd. reflexivity.
  - destruct (truthy explicit); simpl; auto.
    right. eexists.
    destruct (api_delete env (calls w) explicit) as [data|e]; simpl.
    + unfold subscript. destruct (dict_get "status" data); reflexivity.
    + destruct e; reflexivity.
Qed.

(** X8. For an identifier that is the name of an entry of the peripherals
    directory (not empty, neither [.] nor [..], without [/]): whatever
    [delete] does and however it ends, the other entries of the directory
    are as they were, and the remote service was asked at most one thing, a
    delete. *)
Theorem delete_touches_one_record (env : Env) (ident explicit : Json)
    (w : World) (other : string) :
  entry_name (str_of env ident) = true ->
  entry_name other = true ->
  other <> str_of env ident ->
  files (snd (delete env ident explicit w)) !! other = files w !! other /\
  (calls (snd (delete env ident explicit w)) = calls w \/
   exists rid, calls (snd (delete env ident explicit w))
               = calls w ++ [CallDelete rid]).
Proof.
  intros _ _ Hother. split.
  - now apply delete_frame.
  - apply delete_calls.
Qed.

Lemma delete_touches_one_record_witness :
  files (snd (delete Examples.store_ok (JStr "usb-1") JNull
                     Examples.three_records)) !! "usb-2"
  = files Examples.three_records !! "usb-2" /\
  (calls (snd (delete Examples.store_ok (JStr "usb-1") JNull
                      Examples.three_records))
   = calls Examples.three_records \/
   exists rid, calls (snd (delete Examples.store_ok (JStr "usb-1") JNull
                                  Examples.three_records))
               = calls Examples.three_records ++ [CallDelete rid]).
Proof.
  apply (delete_touches_one_record Examples.store_ok (JStr "usb-1") JNull
           Examples.three_records "usb-2");
    [reflexivity | reflexivity | discriminate].
Defined.

(** [post] after a remote create that succeeded and a save that failed:
    the compensating [delete] decides how it ends. *)
Lemma post_save_failure_step (env : Env) (p posted data : Dict)
    (ident rid : Json) (w : World) (o : WriteOutcome) (e : Exn) :
  p <> [] ->
  dict_get "identifier" p = Some ident ->
  local_peripheral_exists (str_of env ident) w = false ->
  complete env p = Ok posted ->
  api_add env (calls w) nuvla_resource posted = Ok data ->
  dict_get "resource-id" data = Some rid ->
  save_outcome env (calls w ++ [CallAdd nuvla_resource posted])
               (str_of env ident) (dict_set "id" rid posted) = o ->
  o = OpenFails e \/ o = WriteFails e ->
  exists w2,
    calls w2 = calls w ++ [CallAdd nuvla_resource posted] /\
    files w2 = match o with
               | WriteFails _ => <[str_of env ident := Garbled]> (files w)
               | _ => files w
               end /\
    post env (JDict p) w
    = match delete env ident rid w2 with
      | (Ok _, w3) => (Ok (unsaved_reply env e), w3)
      | (Raise x, w3) => (Raise x, w3)
      end.
Proof.
  intros Hne Hid Hex Hcomp Hadd Hrid Hsave Ho. unfold post.
  rewrite (truthy_dict p Hne). cbn [negb is_dict orb as_dict]. rewrite Hid.
  unfold remote_add, local_peripheral_save, logging, set_files, try_except,
         bind, ret, lift, get, modify, raise.
  cbn [files calls log fst snd]. rewrite Hex, Hcomp. cbn iota beta.
  rewrite Hadd. cbn iota beta. unfold subscript. rewrite Hrid. cbn iota beta.
  cbn [files calls log]. rewrite Hsave.
  destruct Ho as [-> | ->]; cbn iota beta; cbn [files calls log];
    match goal with
    | |- context [delete env ident rid ?s] => exists s
    end;
    cbn [files calls log]; (split; [reflexivity|]); (split; [reflexivity|]);
    destruct (delete env ident rid _) as [[r|x] w3]; reflexivity.
Qed.

(** X9. When the save fails after it created the record file, the
    compensating remote delete is made once, for the id just assigned, and
    whatever it answers [post] reports the failed save with status 500.  The
    truncated record file is removed when the remote resource is gone, and
    is left behind when the remote delete failed otherwise. *)
Theorem post_save_failure_file_left (env : Env) (p posted data : Dict)
    (ident rid : Json) (w : World) (e : Exn) :
  let name := str_of env ident in
  let sent := calls w ++ [CallAdd nuvla_resource posted] in
  p <> [] ->
  dict_get "identifier" p = Some ident ->
  local_peripheral_exists name w = false ->
  complete env p = Ok posted ->
  api_add env (calls w) nuvla_resource posted = Ok data ->
  dict_get "resource-id" data = Some rid ->
  truthy rid = true ->
  save_outcome env sent name (dict_set "id" rid posted) = WriteFails e ->
  exists w',
    post env (JDict p) w = (Ok (unsaved_reply env e), w') /\
    calls w' = sent ++ [CallDelete rid] /\
    files w' !! name =
      if remote_gone (api_delete env sent rid) then None else Some Garbled.
Proof.
  intros name sent Hne Hid Hex Hcomp Hadd Hrid Htr Hsave. subst name sent.
  destruct (post_save_failure_step env p posted data ident rid w
              (WriteFails e) e) as (w2 & Hc2 & Hf2 & Hpost); auto.
  rewrite Hpost. clear Hpost.
  set (name := str_of env ident) in *.
  assert (Hlook : files w2 !! name = Some Garbled)
    by (rewrite Hf2; apply lookup_insert_eq).
  assert (Hex2 : local_peripheral_exists name w2 = true)
    by (apply exists_lookup; rewrite Hlook; eauto).
  assert (Hres : resolved_id name rid w2 = rid)
    by (unfold resolved_id; now rewrite Htr).
  assert (Htr2 : truthy (resolved_id name rid w2) = true) by now rewrite Hres.
  rewrite <- Hc2.
  destruct (api_delete env (calls w2) rid) as [answer|x] eqn:Hdel;
    rewrite <- Hres in Hdel.
  - destruct (delete_success_step env ident rid w2 answer Hex2 Htr2 Hdel)
      as (reply & w3 & Hrun & Hf3 & Hc3).
    fold name in Hf3, Hc3. rewrite Hres in Hc3. rewrite Hrun.
    exists w3. repeat split; auto. simpl. rewrite Hf3. apply lookup_delete_eq.
  - destruct (delete_failure_step env ident rid w2 x Hex2 Htr2 Hdel)
      as (w3 & Hrun & Hf3 & Hc3).
    fold name in Hf3, Hc3. rewrite Hres in Hc3. rewrite Hrun.
    exists w3. repeat split; auto. simpl. rewrite Hf3.
    destruct (is_not_found x); [apply lookup_delete_eq | exact Hlook].
Qed.

Lemma post_save_failure_file_left_witness :
  exists w',
    post Examples.store_write_and_delete_fail (JDict Examples.usb_payload)
         Examples.empty_world
    = (Ok (unsaved_reply Examples.store_write_and_delete_fail
             (Exception "No space left on device")), w') /\
    calls w' = (calls Examples.empty_world
                ++ [CallAdd nuvla_resource Examples.usb_posted])
               ++ [CallDelete (JStr "nuvlabox-peripheral/1")] /\
    files w' !! "usb-1" = Some Garbled.
Proof.
  apply (post_save_failure_file_left Examples.store_write_and_delete_fail
           Examples.usb_payload Examples.usb_posted Examples.created
           (JStr "usb-1") (JStr "nuvlabox-peripheral/1") Examples.empty_world
           (Exception "No space left on device"));
    solve [discriminate | reflexivity | vm_compute; reflexivity].
Defined.

(** X10. When the save fails without creating the record file and the
    remote service answers the compensating delete (with an answer that has
    a ['status'], or with a remote error), the delete was made once, for the
    id just assigned, no record file was touched, and [post] reports the
    failed save with status 500. *)
Theorem post_save_failure_no_file (env : Env) (p posted data : Dict)
    (ident rid : Json) (w : World) (e : Exn) :
  let name := str_of env ident in
  let sent := calls w ++ [CallAdd nuvla_resource posted] in
  p <> [] ->
  dict_get "identifier" p = Some ident ->
  local_peripheral_exists name w = false ->
  complete env p = Ok posted ->
  api_add env (calls w) nuvla_resource posted = Ok data ->
  dict_get "resource-id" data = Some rid ->
  truthy rid = true ->
  save_outcome env sent name (dict_set "id" rid posted) = OpenFails e ->
  answered (api_delete env sent rid) = true ->
  exists w',
    post env (JDict p) w = (Ok (unsaved_reply env e), w') /\
    calls w' = sent ++ [CallDelete rid] /\
    files w' = files w.
Proof.
  intros name sent Hne Hid Hex Hcomp Hadd Hrid Htr Hsave Hans.
  subst name sent.
  destruct (post_save_failure_step env p posted data ident rid w
              (OpenFails e) e) as (w2 & Hc2 & Hf2 & Hpost); auto.
  rewrite Hpost. clear Hpost. rewrite <- Hc2 in *.
  assert (Hex2 : local_peripheral_exists (str_of env ident) w2 = false)
    by (unfold local_peripheral_exists in *; now rewrite Hf2).
  destruct (delete_remote_only_step env ident rid w2 Hex2 Htr Hans)
    as (w3 & Hrun & Hf3 & Hc3).
  rewrite Hrun. exists w3. repeat split; auto. congruence.
Qed.

Lemma post_save_failure_no_file_witness :
  let env := Examples.store (Ok Examples.created) (Ok Examples.deleted)
                            (OpenFails (Exception "Permission denied")) in
  exists w',
    post env (JDict Examples.usb_payload) Examples.empty_world
    = (Ok (unsaved_reply env (Exception "Permission denied")), w') /\
    calls w' = (calls Examples.empty_world
                ++ [CallAdd nuvla_resource Examples.usb_posted])
               ++ [CallDelete (JStr "nuvlabox-peripheral/1")] /\
    files w' = files Examples.empty_world.
Proof.
  apply (post_save_failure_no_file
           (Examples.store (Ok Examples.created) (Ok Examples.deleted)
                           (OpenFails (Exception "Permission denied")))
           Examples.usb_payload Examples.usb_posted Examples.created
           (JStr "usb-1") (JStr "nuvlabox-peripheral/1") Examples.empty_world
           (Exception "Permission denied"));
    solve [discriminate | reflexivity | vm_compute; reflexivity].
Defined.

(** X11. For a payload whose ['identifier'], if it has one, is the name of
    an entry of the peripherals directory (not empty, neither [.] nor [..],
    without [/]): whatever [post] does and however it ends, the other
    entries of the directory are as they were; it can only touch the record
    file named by the identifier. *)
Theorem post_touches_one_record (env : Env) (payload : Json) (w : World)
    (other : string) :
  entry_name other = true ->
  (forall ident, dict_get "identifier" (as_dict payload) = Some ident ->
                 entry_name (str_of env ident) = true /\
                 other <> str_of env ident) ->
  files (snd (post env payload w)) !! other = files w !! other.
Proof.
  intros _ Hother. unfold post.
  destruct (negb (truthy payload) || negb (is_dict payload)); [reflexivity|].
  destruct (dict_get "identifier" (as_dict payload)) as [ident|] eqn:Hid;
    [|reflexivity].
  specialize (Hother ident eq_refl). destruct Hother as [_ Hother].
  unfold remote_add, local_peripheral_save, logging, set_files, try_except,
         bind, ret, lift, get, modify, raise.
  cbn iota beta.
  destruct (local_peripheral_exists (str_of env ident) w); [reflexivity|].
  destruct (complete env (as_dict payload)) as [posted|e]; [|reflexivity].
  cbn iota beta. cbn [files calls log].
  destruct (api_add env (calls w) nuvla_resource posted) as [data|e];
    cbn iota beta; [|destruct e; reflexivity].
  unfold subscript.
  destruct (dict_get "resource-id" data) as [rid|]; [|reflexivity].
  cbn iota beta. cbn [files calls log].
  destruct (save_outcome env _ _ _) as [|e|e]; cbn iota beta;
    cbn [files calls log].
  - destruct (dict_get "status" data); cbn;
      now rewrite lookup_insert_ne by congruence.
  - match goal with
    | |- context [delete env ident rid ?s] =>
        pose proof (delete_frame env ident rid s other Hother) as Hframe;
        destruct (delete env ident rid s) as [[r|x] w3]
    end; cbn in *; exact Hframe.
  - match goal with
    | |- context [delete env ident rid ?s] =>
        pose proof (delete_frame env ident rid s other Hother) as Hframe;
        destruct (delete env ident rid s) as [[r|x] w3]
    end; cbn in *; rewrite Hframe;
      now rewrite lookup_insert_ne by congruence.
Qed.

Lemma post_touches_one_record_witness :
  files (snd (post Examples.store_ok (JDict Examples.usb_payload)
                   Examples.three_records)) !! "usb-2"
  = files Examples.three_records !! "usb-2".
Proof.
  apply (post_touches_one_record Examples.store_ok
           (JDict Examples.usb_payload) Examples.three_records "usb-2").
  - reflexivity.
  - intros ident Hid. vm_compute in Hid. inversion Hid.
    split; [reflexivity|discriminate].
Defined.

(** The names of the entries listed that pass the filter: each once, the
    names of the entries of the directory that match the pattern and pass
    the filter. *)
Lemma listed_matches (env : Env) (parameter : option string) (value : Json)
    (pattern : string) (w : World) :
  let names :=
    map fst (List.filter
               (fun entry => record_matches parameter value (snd entry))
               (listed env pattern w)) in
  List.NoDup names /\
  forall n, In n names <->
    exists d, files w !! n = Some d /\
              entry_name n = true /\
              fnmatch env pattern n = true /\
              record_matches parameter value d = true.
Proof.
  split.
  - apply NoDup_names_filter, listed_names_NoDup.
  - intros n. rewrite in_map_iff. split.
    + intros ([n' d] & Hn & Hin). simpl in Hn. subst n'.
      apply filter_In in Hin as [Hin Hm].
      apply listed_entry in Hin as (Hf & He & Hp).
      exists d. auto.
    + intros (d & Hf & He & Hp & Hm). exists (n, d). split; auto.
      apply filter_In. split; auto. apply listed_entry. auto.
Qed.

(** X12. Without a filter (no parameter, or no value, or an empty one), and
    for a search that stays within the peripherals directory, [find] opens
    no record file: it returns status 200 and, each once, the names of all
    the entries of the directory that match the search pattern, among them
    the record files that cannot be opened or parsed. *)
Theorem find_without_filter (env : Env) (parameter : option string)
    (value : Json) (identifier_pattern : option string) (w : World) :
  given parameter && truthy value = false ->
  within env (search_pattern identifier_pattern) = true ->
  exists names,
    find env parameter value identifier_pattern w
    = (Ok (names, status_code 200), w) /\
    List.NoDup names /\
    forall n, In n names <->
      is_Some (files w !! n) /\
      entry_name n = true /\
      fnmatch env (search_pattern identifier_pattern) n = true.
Proof.
  intros Hoff Hin.
  set (pattern := search_pattern identifier_pattern) in *.
  destruct (listed_matches env parameter value pattern w) as [Hnd Hnames].
  eexists. split; [|split].
  - unfold find. fold pattern. run_api.
    rewrite (find_loop_spec parameter value _) by now rewrite Hoff.
    rewrite (glob_within env pattern w Hin), listed_base_names.
    reflexivity.
  - exact Hnd.
  - intros n. rewrite Hnames. split.
    + intros (d & Hf & He & Hp & _). split; eauto.
    + intros ([d Hf] & He & Hp). exists d. repeat split; auto.
      unfold record_matches. now rewrite Hoff.
Qed.

Lemma find_without_filter_witness :
  exists names,
    find Examples.store_ok (Some "interface") (JStr EmptyString) None
         Examples.with_unopenable
    = (Ok (names, status_code 200), Examples.with_unopenable) /\
    List.NoDup names /\
    forall n, In n names <->
      is_Some (files Examples.with_unopenable !! n) /\
      entry_name n = true /\
      fnmatch Examples.store_ok "*" n = true.
Proof.
  apply (find_without_filter Examples.store_ok (Some "interface")
           (JStr EmptyString) None Examples.with_unopenable);
    reflexivity.
Defined.

(** Whenever the loop of [find] returns, it returns the base names of the
    paths that pass the filter. *)
Lemma find_loop_sound (parameter : option string) (value : Json)
    (entries : list (string * FileData)) :
  forall matched names,
    find_loop parameter value entries matched = Ok names ->
    names = matched ++
            map (fun entry => basename (fst entry))
                (List.filter
                   (fun entry => record_matches parameter value (snd entry))
                   entries).
Proof.
  induction entries as [|[name d] rest IH]; intros matched names; simpl.
  - intros H. inversion H. now rewrite app_nil_r.
  - unfold record_matches at 1.
    destruct (given parameter && truthy value) eqn:Hfilter; simpl.
    + destruct d as [| |content]; simpl; try discriminate; auto.
      destruct content as [| | | s | l | fields]; simpl; try discriminate.
      * destruct (String.index 0 (str_arg parameter) s); [discriminate|auto].
      * destruct (existsb _ l); [discriminate|auto].
      * unfold dict_mem, subscript.
        destruct (dict_get (str_arg parameter) fields) as [v|]; simpl; auto.
        destruct (json_eqb v value); simpl; auto.
        intros H. apply IH in H. now rewrite <- app_assoc in H.
    + intros H. apply IH in H. now rewrite <- app_assoc in H.
Qed.

(** X13. [find] never changes the store nor calls the remote service,
    whether it returns or raises, whatever it is asked.  For a search that
    stays within the peripherals directory, whenever it returns, it returns
    status 200 and, each once, exactly the names of the entries of the
    directory that match the search pattern and pass the filter. *)
Theorem find_returns_exact_matches (env : Env) (parameter : option string)
    (value : Json) (identifier_pattern : option string) (w : World) :
  snd (find env parameter value identifier_pattern w) = w /\
  (within env (search_pattern identifier_pattern) = true ->
   forall names st,
     fst (find env parameter value identifier_pattern w) = Ok (names, st) ->
     st = status_code 200 /\
     List.NoDup names /\
     forall n, In n names <->
       exists d, files w !! n = Some d /\
                 entry_name n = true /\
                 fnmatch env (search_pattern identifier_pattern) n = true /\
                 record_matches parameter value d = true).
Proof.
  unfold find. run_api.
  set (pattern := search_pattern identifier_pattern).
  destruct (find_loop parameter value (glob env pattern w) [])
    as [found|e] eqn:Hloop; simpl; (split; [reflexivity|]);
    intros Hin names st H; [|discriminate].
  inversion H; subst names st. clear H.
  apply find_loop_sound in Hloop. simpl in Hloop. subst found.
  rewrite (glob_within env pattern w Hin), listed_base_names.
  split; [reflexivity|].
  apply (listed_matches env parameter value pattern w).
Qed.

Lemma find_returns_exact_matches_witness :
  exists names,
    fst (find Examples.store_ok (Some "interface") (JStr "eth0") None
              Examples.three_records)
    = Ok (names, status_code 200) /\
    List.NoDup names /\
    forall n, In n names <->
      exists d, files Examples.three_records !! n = Some d /\
                entry_name n = true /\
                fnmatch Examples.store_ok "*" n = true /\
                record_matches (Some "interface") (JStr "eth0") d = true.
Proof.
  destruct (find_returns_exact_matches Examples.store_ok (Some "interface")
              (JStr "eth0") None Examples.three_records) as [_ H].
  destruct (fst (find Examples.store_ok (Some "interface") (JStr "eth0") None
                      Examples.three_records))
    as [[names st]|e] eqn:Hrun; [|vm_compute in Hrun; discriminate].
  destruct (H eq_refl names st eq_refl) as (Hst & Hnd & Hnames).
  exists names. subst st. auto.
Defined.

(** X14. A record that was just created is found: after a create that went
    through, for an identifier that is the name of an entry of the
    peripherals directory, [find] with a parameter and a value that the
    caller's payload holds (other than ['id']) returns the identifier, when
    the search stays within the directory, its pattern matches the
    identifier and the other record files can be looked into. *)
Theorem post_then_find (env : Env) (p posted data : Dict)
    (ident rid st v : Json) (k : string) (identifier_pattern : option string)
    (w : World) :
  let name := str_of env ident in
  let w' := snd (post env (JDict p) w) in
  p <> [] ->
  dict_get "identifier" p = Some ident ->
  entry_name name = true ->
  local_peripheral_exists name w = false ->
  complete env p = Ok posted ->
  api_add env (calls w) nuvla_resource posted = Ok data ->
  dict_get "resource-id" data = Some rid ->
  dict_get "status" data = Some st ->
  save_outcome env (calls w ++ [CallAdd nuvla_resource posted]) name
               (dict_set "id" rid posted) = Written ->
  dict_get k p = Some v ->
  k <> "id" -> k <> EmptyString -> truthy v = true -> wf v = true ->
  within env (search_pattern identifier_pattern) = true ->
  fnmatch env (search_pattern identifier_pattern) name = true ->
  lookable env (Some k) v identifier_pattern w' = true ->
  exists names,
    find env (Some k) v identifier_pattern w'
    = (Ok (names, status_code 200), w') /\
    In name names.
Proof.
  intros name w' Hne Hid Hentry Hex Hcomp Hadd Hrid Hst Hsave Hk Hkid Hkne
         Htr Hwf Hin Hpat Hlook.
  subst name w'.
  destruct (post_success env p posted data ident rid st w)
    as (w1 & Hpost & Hfiles & _); auto.
  rewrite Hpost in *. simpl snd in *.
  unfold lookable in Hlook.
  set (pattern := search_pattern identifier_pattern) in *.
  destruct (listed_matches env (Some k) v pattern w1) as [_ Hnames].
  eexists. split.
  - unfold find. fold pattern. run_api.
    rewrite (find_loop_spec (Some k) v _ Hlook []).
    rewrite (glob_within env pattern w1 Hin), listed_base_names.
    reflexivity.
  - simpl. apply Hnames.
    exists (Holds (JDict (dict_set "id" rid posted))).
    split; [rewrite Hfiles; apply lookup_insert_eq|].
    split; [exact Hentry|]. split; [exact Hpat|].
    unfold record_matches. simpl. rewrite Htr.
    assert (Hgiven : negb (String.eqb k EmptyString) = true)
      by (destruct (String.eqb_spec k EmptyString); [congruence|reflexivity]).
    rewrite Hgiven. simpl.
    rewrite PyFacts.dict_get_set_ne by congruence.
    destruct (complete_keeps_fields env p posted Hcomp) as [Hkeep _].
    rewrite (Hkeep k v Hk). now apply PyFacts.json_eqb_refl.
Qed.

Lemma post_then_find_witness :
  exists names,
    find Examples.store_ok (Some "identifier") (JStr "usb-1") None
         (snd (post Examples.store_ok (JDict Examples.usb_payload)
                    Examples.empty_world))
    = (Ok (names, status_code 200),
       snd (post Examples.store_ok (JDict Examples.usb_payload)
                 Examples.empty_world)) /\
    In "usb-1" names.
Proof.
  apply (post_then_find Examples.store_ok Examples.usb_payload
           Examples.usb_posted Examples.created
           (JStr "usb-1") (JStr "nuvlabox-peripheral/1") (JNum 201)
           (JStr "usb-1") "identifier" None Examples.empty_world);
    solve [discriminate | reflexivity | vm_compute; reflexivity].
Defined.

End StoreProps.

(** ** The status publisher: the diff and its publication *)

Module PublisherProps.
Import Telemetry PublisherWords PyFacts TelemetrySpec.

Lemma coversb_covers (keys : list string) (old new : Dict) :
  coversb keys old new = true -> covers keys old new.
Proof.
  unfold coversb, covers. rewrite forallb_forall. intros H k Hk.
  specialize (H k Hk). destruct (dict_get k new) as [nv|]; [|discriminate].
  exists nv. split; auto. intros Hnone. rewrite Hnone in H. simpl in H.
  unfold dict_mem in H. destruct (dict_get k old) as [ov|]; [eauto|discriminate].
Qed.

(** X15. On snapshots that hold every key of [self.status], [diff] returns
    a pair (update map, delete list) such that, key by key: a key whose new
    value is [None] is in the delete list and not in the update map; a key
    whose new value is not [None] and differs from the old one maps to its
    new value; any other key is in neither. *)
Theorem diff_keywise (self_status old new : Dict) :
  coversb (dict_keys self_status) old new = true ->
  exists upd del, diff self_status old new = Ok (upd, del) /\
    forall k, In k (dict_keys self_status) ->
      (removed new k = true -> In k del /\ dict_get k upd = None) /\
      (changed old new k = true -> dict_get k upd = dict_get k new) /\
      (removed new k = false -> changed old new k = false ->
       ~ In k del /\ dict_get k upd = None).
Proof. intros H. apply diff_spec. now apply coversb_covers. Qed.

Lemma diff_keywise_witness :
  exists upd del,
    diff initial_status initial_status Examples.snapshot_with_gpio
    = Ok (upd, del) /\
    forall k, In k (dict_keys initial_status) ->
      (removed Examples.snapshot_with_gpio k = true ->
       In k del /\ dict_get k upd = None) /\
      (changed initial_status Examples.snapshot_with_gpio k = true ->
       dict_get k upd = dict_get k Examples.snapshot_with_gpio) /\
      (removed Examples.snapshot_with_gpio k = false ->
       changed initial_status Examples.snapshot_with_gpio k = false ->
       ~ In k del /\ dict_get k upd = None).
Proof.
  apply (diff_keywise initial_status initial_status
           Examples.snapshot_with_gpio).
  vm_compute. reflexivity.
Defined.

Lemma filled_values (keys : list string) (S : Dict) :
  filled keys S = true ->
  forall k, In k keys -> exists v, dict_get k S = Some v /\ is_none v = false.
Proof.
  unfold filled. rewrite forallb_forall. intros H k Hk. specialize (H k Hk).
  destruct (dict_get k S) as [v|]; [|discriminate].
  exists v. split; auto. now apply negb_true_iff.
Qed.

(** X16. A well-formed snapshot without [None] fields, diffed against
    itself, gives the empty update map and the empty delete list. *)
Theorem diff_unchanged_snapshot (self_status S : Dict) :
  wf_dict S = true ->
  filled (dict_keys self_status) S = true ->
  diff self_status S S = Ok ([], []).
Proof.
  intros Hwf Hfull. apply diff_same_snapshot; auto.
  now apply filled_values.
Qed.

Lemma diff_unchanged_snapshot_witness :
  diff initial_status Examples.snapshot_with_gpio Examples.snapshot_with_gpio
  = Ok ([], []).
Proof.
  apply (diff_unchanged_snapshot initial_status Examples.snapshot_with_gpio);
    vm_compute; reflexivity.
Defined.

Lemma diff_loop_raises (keys : list string) (old new : Dict) :
  coversb keys old new = false ->
  forall upd del,
  exists k, diff_loop keys old new upd del = Raise (KeyError k) /\
            In k keys /\
            (dict_get k new = None \/ dict_get k old = None).
Proof.
  induction keys as [|key rest IH]; simpl; intros Hcov upd del;
    [discriminate|].
  destruct (dict_get key new) as [nv|] eqn:Hnv.
  - destruct (is_none nv) eqn:Hnone; simpl in Hcov.
    + destruct (IH Hcov upd (del ++ [key])) as (k & Hr & Hk & Hmiss).
      exists k. auto.
    + unfold dict_mem in Hcov.
      destruct (dict_get key old) as [ov|] eqn:Hov.
      * simpl in Hcov.
        destruct (json_neb ov nv);
          [destruct (IH Hcov (dict_set key nv upd) del) as (k & Hr & Hk & Hmiss)
          |destruct (IH Hcov upd del) as (k & Hr & Hk & Hmiss)];
          exists k; auto.
      * exists key. auto.
  - exists key. auto.
Qed.

(** X17. [diff] fails exactly when a key of [self.status] is missing: when
    every key is in the new snapshot and, unless its new value is [None], in
    the old one, [diff] returns; otherwise it raises [KeyError] for a key of
    [self.status] that one of the two snapshots lacks, and nothing else. *)
Theorem diff_fails_exactly_on_missing_key (self_status old new : Dict) :
  if coversb (dict_keys self_status) old new
  then exists result, diff self_status old new = Ok result
  else exists k, diff self_status old new = Raise (KeyError k) /\
                 In k (dict_keys self_status) /\
                 (dict_get k new = None \/ dict_get k old = None).
Proof.
  destruct (coversb (dict_keys self_status) old new) eqn:Hcov.
  - destruct (diff_spec self_status old new (coversb_covers _ _ _ Hcov))
      as (upd & del & Hd & _).
    eauto.
  - apply diff_loop_raises. exact Hcov.
Qed.

Lemma diff_loop_within (keys : list string) (old new : Dict) :
  forall upd del upd' del',
    diff_loop keys old new upd del = Ok (upd', del') ->
    (forall k v, dict_get k upd' = Some v ->
       dict_get k upd = Some v \/
       (In k keys /\ dict_get k new = Some v /\ is_none v = false)) /\
    (forall k, In k del' -> In k del \/ (In k keys /\ removed new k = true)).
Proof.
  induction keys as [|key rest IH]; simpl; intros upd del upd' del' H.
  - inversion H; subst. split; auto.
  - destruct (dict_get key new) as [nv|] eqn:Hnv; [|discriminate].
    destruct (is_none nv) eqn:Hnone.
    + apply IH in H as [Hu Hd]. split.
      * intros k v Hk. destruct (Hu k v Hk) as [|(Hin & Hn & Hv)]; auto.
      * intros k Hk. destruct (Hd k Hk) as [Hin|(Hin & Hr)]; auto.
        apply in_app_or in Hin as [Hin|[<-|[]]]; auto.
        right. split; auto. unfold removed. now rewrite Hnv.
    + destruct (dict_get key old) as [ov|]; [|discriminate].
      destruct (json_neb ov nv).
      * apply IH in H as [Hu Hd]. split.
        -- intros k v Hk. destruct (Hu k v Hk) as [Hset|(Hin & Hn & Hv)]; auto.
           destruct (String.eqb_spec key k) as [->|Hne].
           ++ rewrite dict_get_set_eq in Hset. inversion Hset; subst. auto.
           ++ rewrite dict_get_set_ne in Hset by assumption. auto.
        -- intros k Hk. destruct (Hd k Hk) as [|(Hin & Hr)]; auto.
      * apply IH in H as [Hu Hd]. split.
        -- intros k v Hk. destruct (Hu k v Hk) as [|(Hin & Hn & Hv)]; auto.
        -- intros k Hk. destruct (Hd k Hk) as [|(Hin & Hr)]; auto.
Qed.

(** X18. Whenever [diff] returns, every entry of the update map is a key of
    [self.status] with its value in the new snapshot, never [None], and
    every key of the delete list is a key of [self.status] whose new value
    is [None]; no key is in both. *)
Theorem diff_result_within_new_snapshot (self_status old new upd : Dict)
    (del : list string) :
  diff self_status old new = Ok (upd, del) ->
  (forall k v, dict_get k upd = Some v ->
     In k (dict_keys self_status) /\ dict_get k new = Some v /\
     is_none v = false /\ ~ In k del) /\
  (forall k, In k del ->
     In k (dict_keys self_status) /\ dict_get k new = Some JNull).
Proof.
  unfold diff. intros H. apply diff_loop_within in H as [Hu Hd].
  assert (Hdel : forall k, In k del ->
            In k (dict_keys self_status) /\ dict_get k new = Some JNull).
  { intros k Hk. destruct (Hd k Hk) as [[]|(Hin & Hr)]. split; auto.
    unfold removed in Hr. destruct (dict_get k new) as [[]|]; try discriminate.
    reflexivity. }
  split; auto.
  intros k v Hk. destruct (Hu k v Hk) as [Hnil|(Hin & Hn & Hv)];
    [discriminate|].
  repeat split; auto.
  intros Hkd. apply Hdel in Hkd as [_ Hnull]. rewrite Hn in Hnull.
  inversion Hnull; subst. discriminate.
Qed.

Lemma diff_result_within_new_snapshot_witness :
  (forall k v,
     dict_get k Cases.first_update = Some v ->
     In k (dict_keys initial_status) /\
     dict_get k Examples.snapshot_with_gpio = Some v /\
     is_none v = false /\ ~ In k []) /\
  (forall k, In k [] ->
     In k (dict_keys initial_status) /\
     dict_get k Examples.snapshot_with_gpio = Some JNull).
Proof.
  apply (diff_result_within_new_snapshot initial_status initial_status
           Examples.snapshot_with_gpio Cases.first_update []).
  vm_compute. reflexivity.
Defined.

Lemma blank_values (keys : list string) (S : Dict) :
  blank keys S = true ->
  forall k, In k keys -> dict_get k S = Some JNull.
Proof.
  unfold blank. rewrite forallb_forall. intros H k Hk. specialize (H k Hk).
  destruct (dict_get k S) as [[]|]; try discriminate. reflexivity.
Qed.

(** X19. The first publication is a full one: diffed against a snapshot
    that holds [None] for every key (the placeholder of [__init__]), every
    field of the new snapshot that is not [None] is in the update map with
    its value. *)
Theorem first_diff_publishes_every_field (self_status old new : Dict) :
  coversb (dict_keys self_status) old new = true ->
  blank (dict_keys self_status) old = true ->
  exists upd del,
    diff self_status old new = Ok (upd, del) /\
    forall k v, In k (dict_keys self_status) ->
      dict_get k new = Some v -> is_none v = false ->
      dict_get k upd = Some v.
Proof.
  intros Hcov Hblank.
  destruct (diff_spec self_status old new (coversb_covers _ _ _ Hcov))
    as (upd & del & Hd & Hkeys).
  exists upd, del. split; auto.
  intros k v Hk Hv Hnone.
  destruct (Hkeys k Hk) as (_ & Hch & _). rewrite Hch, Hv; auto.
  unfold changed. rewrite Hv, (blank_values _ _ Hblank k Hk), Hnone. simpl.
  unfold json_neb. now destruct v.
Qed.

Lemma first_diff_publishes_every_field_witness :
  exists upd del,
    diff initial_status initial_status Examples.snapshot_with_gpio
    = Ok (upd, del) /\
    forall k v, In k (dict_keys initial_status) ->
      dict_get k Examples.snapshot_with_gpio = Some v -> is_none v = false ->
      dict_get k upd = Some v.
Proof.
  apply (first_diff_publishes_every_field initial_status initial_status
           Examples.snapshot_with_gpio); vm_compute; reflexivity.
Defined.

(** X20. Once the remote update went through, [update_status] has recorded
    the new snapshot as the last published one and has sent one body, the
    update map with ['current-time'] and ['id'] (the delete list is not
    sent); it then writes the full status to the status file and returns
    [None], or raises what the write raised, the new snapshot staying
    recorded. *)
Theorem update_status_after_put (env : Probe) (s : State)
    (new_status all_status upd : Dict) (del : list string) :
  get_status env = Ok (new_status, all_status) ->
  diff (status s) (status s) new_status = Ok (upd, del) ->
  cimi_put env (nb_status_id s) (published env s upd) = Ok tt ->
  exists s',
    update_status env s = (write_result (write_status_file env), s') /\
    status s' = new_status /\
    puts s' = puts s ++ [(nb_status_id s, published env s upd)] /\
    nuvlabox_status_file s'
    = file_after (write_status_file env) (nuvlabox_status_file s)
                 (JDict all_status) /\
    nb_status_id s' = nb_status_id s.
Proof.
  intros Hget Hdiff Hput.
  unfold update_status, write_file, bind, lift, get, modify, ret, raise.
  rewrite Hget, Hdiff. simpl. rewrite Hput.
  destruct (write_status_file env); simpl;
    (eexists; split; [reflexivity|]); simpl; auto.
Qed.

Lemma update_status_after_put_witness :
  exists s',
    update_status (healthy Examples.snapshot_with_gpio "2020-01-01T00:00:10Z")
                  (init Examples.status_id)
    = (Ok JNull, s') /\
    status s' = Examples.snapshot_with_gpio /\
    puts s' = [(Examples.status_id,
                published (healthy Examples.snapshot_with_gpio
                                   "2020-01-01T00:00:10Z")
                          (init Examples.status_id) Cases.first_update)] /\
    nuvlabox_status_file s' = Some (Holds (JDict Examples.snapshot_with_gpio)) /\
    nb_status_id s' = Examples.status_id.
Proof.
  apply (update_status_after_put
           (healthy Examples.snapshot_with_gpio "2020-01-01T00:00:10Z")
           (init Examples.status_id) Examples.snapshot_with_gpio
           Examples.snapshot_with_gpio Cases.first_update []);
    vm_compute; reflexivity.
Defined.

Lemma dict_get_key (k : string) (S : Dict) :
  In k (dict_keys S) -> exists v, dict_get k S = Some v.
Proof.
  induction S as [|[k' v] S IH]; simpl; [contradiction|].
  intros [->|Hin].
  - rewrite String.eqb_refl. eauto.
  - destruct (String.eqb k k'); eauto.
Qed.

Lemma wf_values_refl (S : Dict) :
  wf_dict S = true ->
  forall k v, dict_get k S = Some v -> json_eqb v v = true.
Proof.
  intros Hwf k v Hv. apply json_eqb_refl.
  unfold wf_dict in Hwf. simpl in Hwf.
  apply andb_true_iff in Hwf as [_ Hvs].
  induction S as [|[k' w] S IH]; [discriminate|].
  simpl in Hv. apply andb_true_iff in Hvs as [Hw HS].
  destruct (String.eqb k k'); [now inversion Hv; subst | auto].
Qed.

(** A well-formed snapshot diffed against itself changes nothing. *)
Lemma diff_self (S : Dict) :
  wf_dict S = true -> exists del, diff S S S = Ok ([], del).
Proof.
  intros Hwf. unfold diff.
  pose proof (wf_values_refl S Hwf) as Hrefl.
  assert (Hkeys : forall k, In k (dict_keys S) -> In k (dict_keys S)) by auto.
  revert Hkeys. generalize (@nil string).
  generalize (dict_keys S) at 1 3.
  induction l as [|key rest IH]; intros del Hkeys; simpl; [eauto|].
  destruct (dict_get_key key S (Hkeys key (or_introl eq_refl))) as [v Hv].
  rewrite Hv. unfold json_neb. rewrite (Hrefl key v Hv). simpl.
  destruct (is_none v); apply IH; intros k Hk; apply Hkeys; now right.
Qed.

(** X21. When the snapshot just collected is the last published one, the
    update map is empty: the body sent holds ['current-time'] and ['id']
    only, and the last published snapshot stays as it is. *)
Theorem steady_state_sends_heartbeat (env : Probe) (s : State)
    (all_status : Dict) :
  wf_dict (status s) = true ->
  get_status env = Ok (status s, all_status) ->
  cimi_put env (nb_status_id s) (heartbeat env s) = Ok tt ->
  exists s',
    update_status env s = (write_result (write_status_file env), s') /\
    status s' = status s /\
    puts s' = puts s ++ [(nb_status_id s, heartbeat env s)].
Proof.
  intros Hwf Hget Hput.
  destruct (diff_self (status s) Hwf) as [del Hdiff].
  unfold update_status, write_file, bind, lift, get, modify, ret, raise.
  rewrite Hget, Hdiff. simpl.
  change (published env s []) with (heartbeat env s). rewrite Hput.
  destruct (write_status_file env); simpl;
    (eexists; split; [reflexivity|]); simpl; auto.
Qed.

Lemma steady_state_sends_heartbeat_witness :
  let env := healthy Examples.snapshot_with_gpio "2020-01-01T00:00:20Z" in
  let s := mkState Examples.status_id Examples.snapshot_with_gpio None [] [] in
  exists s',
    update_status env s = (Ok JNull, s') /\
    status s' = Examples.snapshot_with_gpio /\
    puts s' = [(Examples.status_id,
                [("current-time", JStr "2020-01-01T00:00:20Z");
                 ("id", Examples.status_id)])].
Proof.
  apply (steady_state_sends_heartbeat
           (healthy Examples.snapshot_with_gpio "2020-01-01T00:00:20Z")
           (mkState Examples.status_id Examples.snapshot_with_gpio None [] [])
           Examples.snapshot_with_gpio); vm_compute; reflexivity.
Defined.

(** X22. When collecting the snapshot raises, or the diff raises, nothing
    is sent and the publisher is left exactly as it was. *)
Theorem update_status_failure_before_put (env : Probe) (s : State) (e : Exn) :
  get_status env = Raise e \/
  (exists new_status all_status,
     get_status env = Ok (new_status, all_status) /\
     diff (status s) (status s) new_status = Raise e) ->
  update_status env s = (Raise e, s).
Proof.
  unfold update_status, bind, lift, get.
  intros [Hget | (new_status & all_status & Hget & Hdiff)]; rewrite Hget;
    [reflexivity|]. simpl. now rewrite Hdiff.
Qed.

Lemma update_status_failure_before_put_witness :
  update_status (healthy Examples.snapshot_without_gpio "2020-01-01T00:00:10Z")
                (init Examples.status_id)
  = (Raise (KeyError "gpio-pins"), init Examples.status_id).
Proof.
  apply (update_status_failure_before_put
           (healthy Examples.snapshot_without_gpio "2020-01-01T00:00:10Z")
           (init Examples.status_id) (KeyError "gpio-pins")).
  right. exists Examples.snapshot_without_gpio, Examples.snapshot_without_gpio.
  split; reflexivity.
Defined.

End PublisherProps.

(** ** The telemetry loop: configuration, dispatch, composition *)

Module LoopProps.
Import App AppSpec.

(** X23. A NuvlaBox resource whose [updated] stamp is the one the loop
    already holds changes nothing: the refresh interval stays as it is,
    whatever the resource says (even without a ['refresh-interval']), and
    the resource file is not rewritten. *)
Theorem known_stamp_changes_nothing (env : CycleEnv) (st : State) (res : Dict)
    (u : Json) :
  get_nuvlabox_info env = Ok res ->
  dict_get "updated" res = Some u ->
  nuvlabox_info_updated_date st = u ->
  wf u = true ->
  fetch_configuration env st
  = (Ok res, mkState (nuvlabox_info_updated_date st) (refresh_interval st)
                     (events st ++ [GetNuvlaboxInfo]) (log st)).
Proof.
  intros Hget Hu Hdate Hwf. unfold fetch_configuration. run_app.
  rewrite Hget. simpl. unfold subscript. rewrite Hu. simpl.
  unfold json_neb. rewrite Hdate, (PyFacts.json_eqb_refl u Hwf). reflexivity.
Qed.

Lemma known_stamp_changes_nothing_witness :
  let st := mkState (JStr "2020-01-01T00:00:00Z") (JNum 30) [] [] in
  fetch_configuration (Examples.quiet_turn 1) st
  = (Ok Examples.resource,
     mkState (JStr "2020-01-01T00:00:00Z") (JNum 30) [GetNuvlaboxInfo] []).
Proof.
  apply (known_stamp_changes_nothing (Examples.quiet_turn 1)
           (mkState (JStr "2020-01-01T00:00:00Z") (JNum 30) [] [])
           Examples.resource (JStr "2020-01-01T00:00:00Z"));
    reflexivity.
Defined.

(** X24. Driven by [Telemetry.update_status] as it is, a turn never
    completes: the method returns [None] whenever it returns, and
    [response.get] then raises, so the turn ends in an exception before the
    commissioning check and the wait, and so does the loop. *)
Theorem cycle_with_telemetry_never_completes (envs : nat -> CycleEnv)
    (k : nat) (probe : Telemetry.Probe) (ts : Telemetry.State) (st : State) :
  update_status (envs k) = fst (Telemetry.update_status probe ts) ->
  exists e s',
    cycle (envs k) st = (Raise e, s') /\
    ~ In TryCommission (skipn (length (events st)) (events s')) /\
    forall n, telemetry_loop (S n) envs k st = (Raise e, s').
Proof.
  intros Hup.
  assert (Hc : exists e s', cycle (envs k) st = (Raise e, s') /\
             exists evs, events s' = events st ++ evs /\ ~ In TryCommission evs).
  { unfold cycle, bind.
    destruct (fetch_configuration (envs k) st) as [[res|e1] s1] eqn:Hf.
    - assert (H1 : exists ev1, events s1 = events st ++ ev1 /\
                               ~ In TryCommission ev1).
      { revert Hf. unfold fetch_configuration. run_app.
        destruct (get_nuvlabox_info (envs k)) as [r|e]; [|discriminate].
        simpl. unfold subscript.
        destruct (dict_get "updated" r) as [u|]; [|discriminate]. simpl.
        destruct (json_neb _ u); simpl.
        - destruct (dict_get "refresh-interval" r) as [v|]; [|discriminate].
          simpl. destruct (create_nb_document_file (envs k) r) as [[]|e];
            [|discriminate].
          intros H. inversion H; subst. simpl. rewrite <- app_assoc.
          eexists. split; [reflexivity|].
          simpl. intros [H'|[H'|[]]]; discriminate.
        - intros H. inversion H; subst. simpl.
          eexists. split; [reflexivity|].
          simpl. intros [H'|[]]; discriminate. }
      destruct H1 as (ev1 & He1 & Hn1).
      destruct (credential_watch (envs k) res s1) as [[[]|e2] s2] eqn:Hw.
      + assert (H2 : exists ev2, events s2 = events s1 ++ ev2 /\
                                 ~ In TryCommission ev2).
        { revert Hw. unfold credential_watch, method_get. run_app.
          destruct (truthy _); simpl.
          - destruct (watch_vpn_credential (envs k) _) as [[]|e];
              [|discriminate].
            intros H. inversion H; subst. simpl.
            eexists. split; [reflexivity|].
            simpl. intros [H'|[]]; discriminate.
          - intros H. inversion H; subst. exists []. rewrite app_nil_r. auto. }
        destruct H2 as (ev2 & He2 & Hn2).
        unfold publish. run_app. rewrite Hup.
        destruct (Telemetry.update_status probe ts) as [[r|e] ts'] eqn:Ht;
          simpl.
        * apply update_status_returns_None in Ht. subst r. simpl.
          do 2 eexists. split; [reflexivity|]. simpl.
          exists (ev1 ++ ev2 ++ [UpdateStatus]).
          rewrite He2, He1, <- !app_assoc. split; [reflexivity|].
          rewrite !in_app_iff. simpl. intros [H'|[H'|[H'|[]]]]; auto.
          discriminate.
        * do 2 eexists. split; [reflexivity|]. simpl.
          exists (ev1 ++ ev2 ++ [UpdateStatus]).
          rewrite He2, He1, <- !app_assoc. split; [reflexivity|].
          rewrite !in_app_iff. simpl. intros [H'|[H'|[H'|[]]]]; auto.
          discriminate.
      + do 2 eexists. split; [reflexivity|].
        revert Hw. unfold credential_watch, method_get. run_app.
        destruct (truthy _); simpl; [|discriminate].
        destruct (watch_vpn_credential (envs k) _) as [[]|e]; [discriminate|].
        intros H. inversion H; subst. simpl.
        exists (ev1 ++ [WatchVpnCredential
                          match dict_get "vpn-server-id" res with
                          | Some v => v
                          | None => JNull
                          end]).
        rewrite He1, <- app_assoc. split; [reflexivity|].
        rewrite in_app_iff. simpl. intros [H'|[H'|[]]]; auto. discriminate.
    - do 2 eexists. split; [reflexivity|].
      revert Hf. unfold fetch_configuration. run_app.
      destruct (get_nuvlabox_info (envs k)) as [r|e].
      + simpl. unfold subscript.
        destruct (dict_get "updated" r) as [u|]; simpl.
        * destruct (json_neb _ u); simpl; [|discriminate].
          destruct (dict_get "refresh-interval" r) as [v|]; simpl.
          -- destruct (create_nb_document_file (envs k) r) as [[]|e];
               [discriminate|].
             intros H. inversion H; subst. simpl. rewrite <- app_assoc.
             eexists. split; [reflexivity|].
             simpl. intros [H'|[H'|[]]]; discriminate.
          -- intros H. inversion H; subst. simpl.
             eexists. split; [reflexivity|].
             simpl. intros [H'|[]]; discriminate.
        * intros H. inversion H; subst. simpl.
          eexists. split; [reflexivity|].
          simpl. intros [H'|[]]; discriminate.
      + intros H. inversion H; subst. simpl.
        eexists. split; [reflexivity|].
        simpl. intros [H'|[]]; discriminate. }
  destruct Hc as (e & s' & Hcyc & evs & Hev & Hno).
  exists e, s'. split; [exact Hcyc|]. split.
  - rewrite Hev, skipn_app, Nat.sub_diag, skipn_all. exact Hno.
  - now apply raised_turn_ends_loop.
Qed.

Lemma cycle_with_telemetry_never_completes_witness :
  let answer :=
    fst (Telemetry.update_status
           (PublisherWords.healthy Examples.snapshot_with_gpio
                                   "2020-01-01T00:00:10Z")
           (Telemetry.init Examples.status_id)) in
  let envs := fun _ : nat => Examples.turn 1 answer Examples.no_job in
  exists e s',
    cycle (envs 0) initial = (Raise e, s') /\
    ~ In TryCommission (skipn (length (events initial)) (events s')) /\
    forall n, telemetry_loop (S n) envs 0 initial = (Raise e, s').
Proof.
  apply (cycle_with_telemetry_never_completes
           (fun _ : nat =>
              Examples.turn 1
                (fst (Telemetry.update_status
                        (PublisherWords.healthy Examples.snapshot_with_gpio
                                                "2020-01-01T00:00:10Z")
                        (Telemetry.init Examples.status_id)))
                Examples.no_job)
           0
           (PublisherWords.healthy Examples.snapshot_with_gpio
                                   "2020-01-01T00:00:10Z")
           (Telemetry.init Examples.status_id) initial).
  reflexivity.
Defined.

(** The job loop, however it ends: it leaves the variables of the loop
    alone, launches only jobs of the list that were built and are not
    no-ops, and logs only launches that raised. *)
Lemma job_loop_only (env : CycleEnv) (ids : list Json) :
  forall (position : nat) (st : State),
  let st' := snd (job_loop env position ids st) in
  nuvlabox_info_updated_date st' = nuvlabox_info_updated_date st /\
  refresh_interval st' = refresh_interval st /\
  exists evs logs,
    events st' = events st ++ evs /\
    log st' = log st ++ logs /\
    (forall id, In (Launch id) evs ->
       exists i job, ids !! i = Some id /\
                     new_job env (position + i) id = Ok job /\
                     do_nothing job = false) /\
    (forall id ex, In (LogCannotProcessJob id ex) logs ->
       exists i job, ids !! i = Some id /\
                     new_job env (position + i) id = Ok job /\
                     do_nothing job = false /\ launch job = Raise ex).
Proof.
  induction ids as [|id rest IH]; intros position st st'.
  - subst st'. simpl. repeat split; auto.
    exists [], []. rewrite !app_nil_r. repeat split; auto; contradiction.
  - subst st'. simpl job_loop. run_app.
    destruct (new_job env position id) as [job|e] eqn:Hjob; simpl.
    + assert (Hshift :
        forall (s1 : State) (mine : list Event) (mylogs : list LogLine),
          nuvlabox_info_updated_date s1 = nuvlabox_info_updated_date st ->
          refresh_interval s1 = refresh_interval st ->
          events s1 = events st ++ mine ->
          log s1 = log st ++ mylogs ->
          (forall id0, In (Launch id0) mine ->
             id0 = id /\ do_nothing job = false) ->
          (forall id0 ex, In (LogCannotProcessJob id0 ex) mylogs ->
             id0 = id /\ do_nothing job = false /\ launch job = Raise ex) ->
          let st' := snd (job_loop env (S position) rest s1) in
          nuvlabox_info_updated_date st' = nuvlabox_info_updated_date st /\
          refresh_interval st' = refresh_interval st /\
          exists evs logs,
            events st' = events st ++ evs /\
            log st' = log st ++ logs /\
            (forall id0, In (Launch id0) evs ->
               exists i job0, (id :: rest) !! i = Some id0 /\
                              new_job env (position + i) id0 = Ok job0 /\
                              do_nothing job0 = false) /\
            (forall id0 ex, In (LogCannotProcessJob id0 ex) logs ->
               exists i job0, (id :: rest) !! i = Some id0 /\
                              new_job env (position + i) id0 = Ok job0 /\
                              do_nothing job0 = false /\ launch job0 = Raise ex)).
      { intros s1 mine mylogs Hd Hr He Hl Hmine Hmylogs.
        destruct (IH (S position) s1) as (Hd' & Hr' & evs & logs & He' & Hl' & Hla & Hlo).
        cbv zeta. rewrite Hd', Hr', He', Hl', Hd, Hr, He, Hl.
        split; [reflexivity|]. split; [reflexivity|].
        exists (mine ++ evs), (mylogs ++ logs).
        rewrite <- !app_assoc. split; [reflexivity|]. split; [reflexivity|].
        split.
        - intros id0 Hin. apply in_app_or in Hin as [Hin|Hin].
          + destruct (Hmine id0 Hin) as [-> Hdn].
            exists 0, job. rewrite Nat.add_0_r. auto.
          + destruct (Hla id0 Hin) as (i & job0 & Hi & Hj & Hdn).
            exists (S i), job0. rewrite Nat.add_succ_r. auto.
        - intros id0 ex Hin. apply in_app_or in Hin as [Hin|Hin].
          + destruct (Hmylogs id0 ex Hin) as (-> & Hdn & Hex).
            exists 0, job. rewrite Nat.add_0_r. auto.
          + destruct (Hlo id0 ex Hin) as (i & job0 & Hi & Hj & Hdn & Hex).
            exists (S i), job0. rewrite Nat.add_succ_r. auto. }
      destruct (do_nothing job) eqn:Hdn; simpl.
      * match goal with
        | |- context [job_loop env (S position) rest ?s] =>
            pose proof (Hshift s [NewJob id] []) as Hs
        end.
        simpl in Hs.
        destruct (job_loop env (S position) rest _) as [r s2]. simpl in *.
        apply Hs; auto.
        -- now rewrite app_nil_r.
        -- intros id0 [H|[]]. discriminate.
        -- intros id0 ex [].
      * destruct (launch job) as [[]|ex0] eqn:Hlaunch; simpl.
        -- match goal with
           | |- context [job_loop env (S position) rest ?s] =>
               pose proof (Hshift s [NewJob id; Launch id] []) as Hs
           end.
           simpl in Hs.
           destruct (job_loop env (S position) rest _) as [r s2]. simpl in *.
           apply Hs; auto.
           ++ now rewrite <- app_assoc.
           ++ now rewrite app_nil_r.
           ++ intros id0 [H|[H|[]]]; [discriminate|]. inversion H. auto.
           ++ intros id0 ex [].
        -- match goal with
           | |- context [job_loop env (S position) rest ?s] =>
               pose proof (Hshift s [NewJob id; Launch id]
                             [LogCannotProcessJob id ex0]) as Hs
           end.
           simpl in Hs.
           destruct (job_loop env (S position) rest _) as [r s2]. simpl in *.
           apply Hs; auto.
           ++ now rewrite <- app_assoc.
           ++ intros id0 [H|[H|[]]]; [discriminate|]. inversion H. auto.
           ++ intros id0 ex [H|[]]. inversion H; subst. auto.
    + repeat split; auto. exists [NewJob id], []. rewrite app_nil_r.
      repeat split; auto.
      * intros id0 [H|[]]. discriminate.
      * intros id0 ex [].
Qed.

(** X25. However the dispatch of a response ends, it leaves the refresh
    interval and the stamp of the loop alone; every job it launched is a
    job of the ['jobs'] list of the response whose context was built and is
    not a no-op, a job-engine-lite image being configured; and every failed
    launch it logged is one that raised. *)
Theorem dispatch_launches_only_live_jobs (env : CycleEnv) (response : Json)
    (st : State) :
  let st' := snd (dispatch env response st) in
  nuvlabox_info_updated_date st' = nuvlabox_info_updated_date st /\
  refresh_interval st' = refresh_interval st /\
  exists evs logs,
    events st' = events st ++ evs /\
    log st' = log st ++ logs /\
    (forall id, In (Launch id) evs ->
       truthy (job_engine_lite_image env) = true /\
       exists ids i job,
         method_get response "jobs" = Ok (JList ids) /\
         ids !! i = Some id /\ new_job env i id = Ok job /\
         do_nothing job = false) /\
    (forall id ex, In (LogCannotProcessJob id ex) logs ->
       exists ids i job,
         method_get response "jobs" = Ok (JList ids) /\
         ids !! i = Some id /\ new_job env i id = Ok job /\
         do_nothing job = false /\ launch job = Raise ex).
Proof.
  unfold dispatch. run_app.
  assert (Hidle : forall s : State,
    nuvlabox_info_updated_date s = nuvlabox_info_updated_date s /\
    refresh_interval s = refresh_interval s /\
    exists (evs : list Event) (logs : list LogLine),
      events s = events s ++ evs /\ log s = log s ++ logs /\
      (forall id, In (Launch id) evs ->
         truthy (job_engine_lite_image env) = true /\
         exists ids i job,
           method_get response "jobs" = Ok (JList ids) /\
           ids !! i = Some id /\ new_job env i id = Ok job /\
           do_nothing job = false) /\
      (forall id ex, In (LogCannotProcessJob id ex) logs ->
         exists ids i job,
           method_get response "jobs" = Ok (JList ids) /\
           ids !! i = Some id /\ new_job env i id = Ok job /\
           do_nothing job = false /\ launch job = Raise ex)).
  { intros s. repeat split; auto. exists [], []. rewrite !app_nil_r.
    repeat split; auto; contradiction. }
  destruct (method_get response "jobs") as [jobs|e] eqn:Hjobs; simpl;
    [|apply Hidle].
  destruct (is_list jobs && truthy (job_engine_lite_image env) && truthy jobs)
    eqn:Hgo; simpl; [|apply Hidle].
  apply andb_true_iff in Hgo as [Hgo _].
  apply andb_true_iff in Hgo as [Hlist Himg].
  destruct jobs as [| | | | ids |]; try discriminate. simpl as_list.
  match goal with
  | |- context [job_loop env 0 ids ?s] =>
      destruct (job_loop_only env ids 0 s)
        as (Hd & Hr & evs & logs & He & Hl & Hla & Hlo)
  end.
  simpl in *. rewrite Hd, Hr, He, Hl.
  split; [reflexivity|]. split; [reflexivity|].
  exists evs, (LogProcessingJobs (JList ids) :: logs).
  split; [reflexivity|]. split; [now rewrite <- app_assoc|]. split.
  - intros id Hin. split; auto.
    destruct (Hla id Hin) as (i & job & Hi & Hj & Hdn). exists ids, i, job. auto.
  - intros id ex [H|Hin]; [discriminate|].
    destruct (Hlo id ex Hin) as (i & job & Hi & Hj & Hdn & Hex).
    exists ids, i, job. auto.
Qed.

End LoopProps.

(** ** The collection of the status *)

Module SamplingProps.
Import Sampling SamplingWords.

Lemma py_index_nat {A : Type} (l : list A) (i : nat) :
  (i < length l)%nat -> py_index l (Z.of_nat i) = nth_error l i.
Proof.
  intros Hi. unfold py_index.
  destruct (Z.ltb_spec (Z.of_nat i) 0) as [Hneg|_]; [lia|].
  destruct (Z.leb_spec 0 (Z.of_nat i)) as [_|Hneg]; [|lia].
  destruct (Z.ltb_spec (Z.of_nat i) (Z.of_nat (length l))) as [_|Hge]; [|lia].
  simpl. now rewrite Nat2Z.id.
Qed.

Lemma parse_result (int : string -> option Z)
    (bcm name mode voltage physical : Z) (more : list Z) (line : string)
    (st : State) :
  py_index (bcm :: name :: mode :: voltage :: more) (-1) = Some physical ->
  more <> [] ->
  fst (parse_gpio_pin_cell int (bcm :: name :: mode :: voltage :: more) line st)
  = Ok (pin_spec int line physical bcm name mode voltage).
Proof.
  intros Hlast Hmore.
  unfold parse_gpio_pin_cell.
  assert (Hlen : (length (bcm :: name :: mode :: voltage :: more)
                  <? needed_indexes_len)%nat = false).
  { destruct more; [congruence|]. reflexivity. }
  rewrite Hlen. unfold pin_spec, cell.
  set (values := split_on bar line).
  set (indexes := bcm :: name :: mode :: voltage :: more) in *.
  assert (H0 : py_index indexes (Z.of_nat 0) = Some bcm)
    by (rewrite py_index_nat; [reflexivity | simpl; lia]).
  assert (H1 : py_index indexes (Z.of_nat 1) = Some name)
    by (rewrite py_index_nat; [reflexivity | simpl; lia]).
  assert (H2 : py_index indexes (Z.of_nat 2) = Some mode)
    by (rewrite py_index_nat; [reflexivity | simpl; lia]).
  assert (H3 : py_index indexes (Z.of_nat 3) = Some voltage)
    by (rewrite py_index_nat; [reflexivity | simpl; lia]).
  unfold fill_attributes, expected, convert.
  unfold logging, try_except, bind, lift, ret, modify, index_or_raise.
  rewrite Hlast, H0, H1, H2, H3.
  destruct (py_index values physical) as [c_physical|]; [|reflexivity].
  destruct (int c_physical) as [p|]; [|reflexivity].
  destruct (py_index values bcm) as [c_bcm|]; [|reflexivity].
  destruct (py_index values name) as [c_name|];
    [|destruct (int c_bcm); reflexivity].
  destruct (py_index values mode) as [c_mode|];
    [|destruct (int c_bcm); reflexivity].
  destruct (py_index values voltage) as [c_voltage|];
    [|destruct (int c_bcm); reflexivity].
  destruct (int c_bcm), (int c_voltage); reflexivity.
Qed.

(** X26. [parse_gpio_pin_cell], given at least five indexes, never raises
    and returns the pin that the line describes at these indexes (the last
    index for the physical pin, the first four for BCM, name, mode and
    voltage), or [None] when the line describes none. *)
Theorem parse_gpio_pin_cell_spec (int : string -> option Z)
    (bcm name mode voltage physical : Z) (more : list Z) (line : string)
    (st : State) :
  py_index (bcm :: name :: mode :: voltage :: more) (-1) = Some physical ->
  more <> [] ->
  fst (parse_gpio_pin_cell int (bcm :: name :: mode :: voltage :: more) line st)
  = Ok (pin_spec int line physical bcm name mode voltage).
Proof.
  exact (parse_result int bcm name mode voltage physical more line st).
Qed.

Lemma parse_gpio_pin_cell_spec_witness :
  fst (parse_gpio_pin_cell digit first_pin_indexes sample_line no_log)
  = Ok (pin_spec digit sample_line 6 1 3 4 5).
Proof.
  apply (parse_gpio_pin_cell_spec digit 1 3 4 5 6 [6%Z] sample_line no_log).
  - reflexivity.
  - discriminate.
Defined.

(** The left pin of the sample line: physical pin 3, BCM 2, unstripped name
    and mode, voltage 1. *)
Lemma sample_line_left_pin :
  pin_spec digit sample_line 6 1 3 4 5
  = Some [("pin", as_number 3); ("bcm", as_number 2); ("name", JStr " SDA.1 ");
          ("mode", JStr " IN "); ("voltage", as_number 1)].
Proof. vm_compute. reflexivity. Qed.

Lemma pin_spec_truthy (int : string -> option Z) (line : string)
    (physical bcm name mode voltage : Z) (pin : Dict) :
  pin_spec int line physical bcm name mode voltage = Some pin ->
  truthy (JDict pin) = true.
Proof.
  unfold pin_spec.
  destruct (cell line physical) as [c|]; [|discriminate].
  destruct (int c); [|discriminate].
  destruct (cell line bcm), (cell line name), (cell line mode),
           (cell line voltage); try discriminate.
  intros H. inversion H. reflexivity.
Qed.

Lemma gpio_lines_result (int : string -> option Z) (lines : list string) :
  forall (acc : list Json) (st : State),
    fst (gpio_lines int lines acc st)
    = Ok (acc ++ flat_map (line_pins int) lines).
Proof.
  induction lines as [|line rest IH]; intros acc st; simpl.
  - now rewrite app_nil_r.
  - unfold bind.
    pose proof (parse_result int 1 3 4 5 6 [6%Z] line st eq_refl
                  ltac:(discriminate)) as Hfirst.
    change (1 :: 3 :: 4 :: 5 :: [6])%Z with first_pin_indexes in Hfirst.
    destruct (parse_gpio_pin_cell int first_pin_indexes line st)
      as [r1 st1]. simpl in Hfirst. subst r1.
    pose proof (parse_result int 14 11 10 9 8 [8%Z] line st1 eq_refl
                  ltac:(discriminate)) as Hsecond.
    change (14 :: 11 :: 10 :: 9 :: [8])%Z with second_pin_indexes in Hsecond.
    destruct (parse_gpio_pin_cell int second_pin_indexes line st1)
      as [r2 st2]. simpl in Hsecond. subst r2.
    rewrite IH. unfold line_pins, parsed, as_pin.
    destruct (pin_spec int line 6 1 3 4 5) as [left|] eqn:Hleft;
      destruct (pin_spec int line 8 14 11 10 9) as [right|] eqn:Hright;
      try rewrite (pin_spec_truthy _ _ _ _ _ _ _ _ Hleft);
      try rewrite (pin_spec_truthy _ _ _ _ _ _ _ _ Hright);
      simpl; rewrite <- ?app_assoc; simpl; now rewrite ?app_nil_r.
Qed.

Lemma line_pins_length (int : string -> option Z) (lines : list string) :
  (length (flat_map (line_pins int) lines) <= 2 * length lines)%nat.
Proof.
  induction lines as [|line rest IH]; [simpl; lia|].
  cbn [flat_map length]. rewrite length_app.
  assert (Hline : (length (line_pins int line) <= 2)%nat).
  { unfold line_pins.
    destruct (pin_spec int line 6 1 3 4 5),
             (pin_spec int line 8 14 11 10 9); simpl; lia. }
  lia.
Qed.

(** X27. [get_gpio_pins] returns [None] when [gpio readall] failed or
    printed nothing; otherwise it returns, in table order, the pins that the
    lines of the output describe, the first three and the last three lines
    left out: at most two pins for each of the other lines. *)
Theorem get_gpio_pins_spec (int : string -> option Z)
    (splitlines : string -> list string) (returncode : Z) (stdout : string)
    (st : State) :
  let table := trim_3 (splitlines stdout) in
  fst (get_gpio_pins int splitlines (Ok (returncode, stdout)) st)
  = Ok (if negb (Z.eqb returncode 0) || String.eqb stdout EmptyString
        then JNull
        else JList (flat_map (line_pins int) table)) /\
  (length (flat_map (line_pins int) table)
   <= 2 * (length (splitlines stdout) - 6))%nat.
Proof.
  intros table. split.
  - unfold get_gpio_pins, bind, lift, ret. simpl.
    destruct (negb (Z.eqb returncode 0)); simpl; [reflexivity|].
    destruct (String.eqb stdout EmptyString); simpl; [reflexivity|].
    pose proof (gpio_lines_result int table [] st) as H. fold table.
    destruct (gpio_lines int table [] st) as [r st']. simpl in H. subst r.
    reflexivity.
  - etransitivity; [apply line_pins_length|].
    unfold table, trim_3. rewrite length_firstn, length_skipn. lia.
Qed.

Lemma bind_ok {St A B : Type} (m : M St A) (k : A -> M St B) (s s' : St)
    (r : B) :
  bind m k s = (Ok r, s') ->
  exists a s1, m s = (Ok a, s1) /\ k a s1 = (Ok r, s').
Proof.
  unfold bind. destruct (m s) as [[a|e] s1]; [eauto|discriminate].
Qed.

Ltac bind_step H :=
  apply bind_ok in H; destruct H as (? & ? & ? & H); cbv beta zeta in H.

Lemma dict_get_app_l (k : string) (d more : Dict) :
  In k (dict_keys d) -> dict_get k (d ++ more) = dict_get k d.
Proof.
  induction d as [|[k' v] d IH]; simpl; [contradiction|].
  intros [->|Hin].
  - now rewrite String.eqb_refl.
  - destruct (String.eqb k k'); auto.
Qed.

(** The shape of what [get_status] returns. *)
Lemma get_status_shape (host : Host) (st st' : State) (status all : Dict) :
  get_status host st = (Ok (status, all), st') ->
  exists values extra,
    map fst values = status_keys /\
    map fst extra = monitoring_keys /\
    all = status ++ extra /\
    (status = values \/
     exists pins, status = values ++ [("gpio-pins", pins)] /\
                  truthy (gpio_utility host) = true /\ truthy pins = true).
Proof.
  intros H. unfold get_status in H.
  do 16 bind_step H.
  apply bind_ok in H. destruct H as (net_stats & s_net & Hnet & H).
  cbv beta zeta in H.
  apply bind_ok in H. destruct H as (status1 & s1 & Hstatus1 & H).
  cbv beta zeta in H.
  apply bind_ok in H. destruct H as (status2 & s2 & Hstatus2 & H).
  cbv beta zeta in H.
  do 4 bind_step H.
  unfold ret in H. inversion H; subst status all; clear H.
  assert (Hshape1 : exists values,
            map fst values = status_keys /\ status1 = values).
  { destruct (truthy net_stats); unfold lift, ret, set_net_stats in Hstatus1;
      simpl in Hstatus1; inversion Hstatus1; subst;
      eexists; (split; [|reflexivity]); reflexivity. }
  destruct Hshape1 as (values & Hkeys & ->).
  assert (Hshape2 :
    status2 = values \/
    exists pins, status2 = dict_set "gpio-pins" pins values /\
                 truthy (gpio_utility host) = true /\ truthy pins = true).
  { destruct (truthy (gpio_utility host)).
    - apply bind_ok in Hstatus2.
      destruct Hstatus2 as (pins & s_pins & Hpins & Hstatus2).
      cbv beta in Hstatus2.
      destruct (truthy pins) eqn:Htruthy; unfold ret in Hstatus2;
        inversion Hstatus2; subst; [right; exists pins; auto | left; reflexivity].
    - unfold ret in Hstatus2. inversion Hstatus2; subst. left; reflexivity. }
  destruct values as [|[k1 v1] [|[k2 v2] [|[k3 v3] [|[k4 v4] [|[k5 v5]
    [|[k6 v6] [|[k7 v7] [|[k8 v8] [|[k9 v9] [|]]]]]]]]]]; try discriminate.
  simpl in Hkeys. unfold status_keys in Hkeys. inversion Hkeys; subst.
  exists [("resources", v1); ("operating-system", v2); ("architecture", v3);
          ("hostname", v4); ("ip", v5); ("docker-server-version", v6);
          ("last-boot", v7); ("status", v8); ("nuvlabox-api-endpoint", v9)].
  destruct Hshape2 as [-> | (pins & -> & Hutil & Hpins)]; eexists.
  - split; [reflexivity|]. split; [|split; [reflexivity|left; reflexivity]].
    reflexivity.
  - split; [reflexivity|].
    split; [|split; [reflexivity|right; exists pins; split; [reflexivity|auto]]].
    reflexivity.
Qed.

Lemma dict_get_app_r (k : string) (d more : Dict) :
  ~ In k (dict_keys d) -> dict_get k (d ++ more) = dict_get k more.
Proof.
  induction d as [|[k' v] d IH]; simpl; auto.
  intros Hnot. destruct (String.eqb_spec k k') as [->|_].
  - exfalso. apply Hnot. now left.
  - apply IH. intros Hin. apply Hnot. now right.
Qed.

(** X28. Whenever [get_status] returns, the status for Nuvla has the nine
    fields resources, operating-system, architecture, hostname, ip,
    docker-server-version, last-boot, status and nuvlabox-api-endpoint, in
    this order, followed by gpio-pins only when the device has a GPIO
    utility that reported pins; the full status has the same fields with the
    same values, followed by the seven monitoring fields. *)
Theorem get_status_fields (host : Host) (st st' : State) (status all : Dict) :
  get_status host st = (Ok (status, all), st') ->
  (dict_keys status = status_keys \/
   (dict_keys status = status_keys ++ ["gpio-pins"] /\
    truthy (gpio_utility host) = true /\
    exists pins, dict_get "gpio-pins" status = Some pins /\
                 truthy pins = true)) /\
  dict_keys all = dict_keys status ++ monitoring_keys /\
  (forall k, In k (dict_keys status) -> dict_get k all = dict_get k status).
Proof.
  intros H.
  destruct (get_status_shape host st st' status all H)
    as (values & extra & Hvalues & Hextra & -> & Hstatus).
  split; [|split].
  - destruct Hstatus as [-> | (pins & -> & Hutil & Hpins)].
    + left. exact Hvalues.
    + right. unfold dict_keys. rewrite map_app, Hvalues.
      split; [reflexivity|]. split; [exact Hutil|].
      exists pins. split; [|exact Hpins].
      rewrite dict_get_app_r; [reflexivity|].
      unfold dict_keys. rewrite Hvalues. unfold status_keys. simpl.
      intros Hin. repeat (destruct Hin as [Hin|Hin]; [discriminate|]).
      exact Hin.
  - unfold dict_keys. now rewrite map_app, Hextra.
  - intros k Hk. now apply dict_get_app_l.
Qed.

Lemma get_status_fields_witness :
  exists status all st',
    get_status host_without_gpio no_log = (Ok (status, all), st') /\
    (dict_keys status = status_keys \/
     (dict_keys status = status_keys ++ ["gpio-pins"] /\
      truthy (gpio_utility host_without_gpio) = true /\
      exists pins, dict_get "gpio-pins" status = Some pins /\
                   truthy pins = true)) /\
    dict_keys all = dict_keys status ++ monitoring_keys /\
    (forall k, In k (dict_keys status) -> dict_get k all = dict_get k status).
Proof.
  eexists _, _, _. split; [vm_compute; reflexivity|].
  eapply (get_status_fields host_without_gpio no_log).
  vm_compute. reflexivity.
Defined.

(** X29. The first publication of a device without GPIO utility never goes
    out: whatever else the host answers, [update_status] on a fresh
    [Telemetry] object fed by [get_status] raises, sends nothing and leaves
    the object as it was; when [get_status] returned, the exception is the
    [KeyError] of ['gpio-pins'], which the placeholder has and the snapshot
    lacks. *)
Theorem first_publication_needs_gpio_pins (host : Host) (st : State)
    (probe : Telemetry.Probe) (id : Json) :
  truthy (gpio_utility host) = false ->
  Telemetry.get_status probe = fst (get_status host st) ->
  exists e,
    Telemetry.update_status probe (Telemetry.init id)
    = (Raise e, Telemetry.init id) /\
    (forall snapshot, fst (get_status host st) = Ok snapshot ->
                      e = KeyError "gpio-pins").
Proof.
  intros Hutil Hprobe.
  destruct (get_status host st) as [[[status all]|e] st'] eqn:Hget;
    simpl in Hprobe.
  - destruct (get_status_shape host st st' status all Hget)
      as (values & extra & Hvalues & _ & _ & Hstatus).
    destruct Hstatus as [-> | (pins & _ & Hyes & _)]; [|congruence].
    destruct values as [|[k1 v1] [|[k2 v2] [|[k3 v3] [|[k4 v4] [|[k5 v5]
      [|[k6 v6] [|[k7 v7] [|[k8 v8] [|[k9 v9] [|]]]]]]]]]]; try discriminate.
    unfold status_keys in Hvalues. inversion Hvalues; subst. clear Hvalues.
    exists (KeyError "gpio-pins"). split; [|reflexivity].
    unfold Telemetry.update_status, bind, lift, get. rewrite Hprobe.
    cbn iota beta. cbn [Telemetry.init Telemetry.status].
    assert (Hdiff : Telemetry.diff Telemetry.initial_status
                      Telemetry.initial_status
                      [("resources", v1); ("operating-system", v2);
                       ("architecture", v3); ("hostname", v4); ("ip", v5);
                       ("docker-server-version", v6); ("last-boot", v7);
                       ("status", v8); ("nuvlabox-api-endpoint", v9)]
                    = Raise (KeyError "gpio-pins")).
    { set (new := [("resources", v1); ("operating-system", v2);
                   ("architecture", v3); ("hostname", v4); ("ip", v5);
                   ("docker-server-version", v6); ("last-boot", v7);
                   ("status", v8); ("nuvlabox-api-endpoint", v9)]).
      assert (Hcov : PublisherWords.coversb
                       (dict_keys Telemetry.initial_status)
                       Telemetry.initial_status new = false).
      { destruct (PublisherWords.coversb _ _ new) eqn:Hc; [|reflexivity].
        unfold PublisherWords.coversb in Hc. rewrite forallb_forall in Hc.
        specialize (Hc "gpio-pins"). simpl in Hc. symmetry. apply Hc.
        do 9 right. now left. }
      destruct (PublisherProps.diff_loop_raises _ _ _ Hcov [] [])
        as (k & Hraise & Hin & Hmiss).
      unfold Telemetry.diff. rewrite Hraise.
      simpl in Hin.
      repeat (destruct Hin as [<-|Hin];
              [try reflexivity; destruct Hmiss; discriminate|]).
      contradiction. }
    rewrite Hdiff. reflexivity.
  - exists e. split; [|discriminate].
    unfold Telemetry.update_status, bind, lift. now rewrite Hprobe.
Qed.

Lemma first_publication_needs_gpio_pins_witness :
  let probe :=
    Telemetry.mkProbe (fst (get_status host_without_gpio no_log))
                      "2020-01-01T00:00:10Z" (fun _ _ => Ok tt) Written in
  exists e,
    Telemetry.update_status probe (Telemetry.init Examples.status_id)
    = (Raise e, Telemetry.init Examples.status_id) /\
    (forall snapshot,
       fst (get_status host_without_gpio no_log) = Ok snapshot ->
       e = KeyError "gpio-pins").
Proof.
  apply (first_publication_needs_gpio_pins host_without_gpio no_log
           (Telemetry.mkProbe (fst (get_status host_without_gpio no_log))
                              "2020-01-01T00:00:10Z" (fun _ _ => Ok tt)
                              Written)
           Examples.status_id); reflexivity.
Defined.

End SamplingProps.

(** ** The network counters *)

Module NetworkProps.
Import Sampling SamplingWords.

Lemma net_loop_result (net : NetProbe) (ifaces : list string) :
  forall (acc : list Json) (st : State),
    fst (net_loop net ifaces acc st)
    = match first_failure net ifaces with
      | Some e => Raise e
      | None => Ok (acc ++ flat_map (interface_stats net) ifaces)
      end.
Proof.
  induction ifaces as [|interface rest IH]; intros acc st; simpl.
  - now rewrite app_nil_r.
  - unfold interface_stats at 1.
    destruct (rx_bytes net interface) as [|rx|e]; simpl.
    + unfold bind, logging, modify. simpl. apply IH.
    + destruct (tx_bytes net interface) as [|tx|e]; simpl.
      * unfold bind, logging, modify. simpl. apply IH.
      * rewrite IH. destruct (first_failure net rest); [reflexivity|].
        now rewrite <- app_assoc.
      * reflexivity.
    + reflexivity.
Qed.

(** X30. [get_network_info] returns the empty dict when the directory of the
    network interfaces does not exist.  Otherwise it reads, interface by
    interface in listing order, the received and the transmitted bytes: it
    returns one entry for each interface whose two counters were read,
    skipping the interfaces with a missing counter file, unless a reading
    raises another exception, which then leaves the method. *)
Theorem get_network_info_spec (net : NetProbe) (st : State) :
  fst (get_network_info net st)
  = match listdir net with
    | NoSuchDirectory => Ok (JDict [])
    | ListingRaises e => Raise e
    | Entries ifaces =>
        match first_failure net ifaces with
        | Some e => Raise e
        | None => Ok (JList (flat_map (interface_stats net) ifaces))
        end
    end.
Proof.
  unfold get_network_info.
  destruct (listdir net) as [|ifaces|e]; try reflexivity.
  unfold bind, ret.
  pose proof (net_loop_result net ifaces [] st) as H.
  destruct (net_loop net ifaces [] st) as [[stats|e] st']; simpl in *;
    destruct (first_failure net ifaces); congruence.
Qed.

(** Two interfaces, one of them without counter of received bytes. *)
Lemma plain_net_stats :
  fst (get_network_info plain_net no_log)
  = Ok (JList [net_entry "eth0" 50 100]).
Proof. reflexivity. Qed.

End NetworkProps.
